(** * AirSenti: acquisition and anomaly-detection core

    A shallow embedding of the anomaly detection service
    ([backend/src/services/anomaly-detection.ts]: history store, detectors,
    batch orchestrator, statistics), of the OpenSky client that follows it
    in the same source file ([services/opensky]: state-vector normaliser,
    response cache, backoff, the "all states" family of requests, the
    track request) and of
    the [Aircraft], [FlightAnomaly] and [EMERGENCY_SQUAWKS] declarations of
    [shared/types].

    Conventions.
    - A number held in a record is a rational ([Q]): the decimal the feed
      wrote, or the exact value of a stamp.  The number the run time holds
      for it is the binary64 value nearest to it, [Js.toNumber].  The
      altitude and the speed detectors, whose thresholds are tested on
      computed products and quotients, compute as the run time does: each
      operand is read through [Js.toNumber] and each operation is rounded
      to binary64, with its infinities and NaN ([Js.Number]).  The history
      store and the heading and approach scans compare and add the
      rationals themselves.
    - A JavaScript string is a [string] of 8-bit characters.
    - [Map<string, _>] and plain objects used as dictionaries are [gmap]s
      keyed by [string].
    - [Date.now()] and [Math.random()] are oracles of the host: the n-th
      read returns [wallClock n] (milliseconds) resp. [randomSuffix n];
      the world counts the reads made so far.
    - An [async] function is split at its [await]: a [_begin] step (the
      synchronous prefix) and a [_resume] step (the continuation, given the
      outcome of the awaited upstream exchange).  Steps of different calls
      may interleave; each step is atomic. *)

From Stdlib Require Import ZArith QArith Qabs Lqa List String Ascii Bool Permutation Sorted Lia.
From stdpp Require Import gmap strings list fin_maps pretty.
Import ListNotations.

Local Open Scope string_scope.
Local Open Scope list_scope.

(* ===================================================================== *)
(** * JavaScript values and completions *)
(* ===================================================================== *)

Module Js.

(** The values that can occur in a decoded JSON state array, plus
    [undefined], which an out-of-range index read produces. *)
Inductive Value : Type :=
  | Undefined
  | Null
  | Bool (b : bool)
  | Num (n : Q)
  | Str (s : string)
  | Arr (xs : list Q).

(** Comparisons on numbers, as booleans. *)
Definition ltb (x y : Q) : bool := negb (Qle_bool y x).
Definition gtb (x y : Q) : bool := ltb y x.
Definition geb (x y : Q) : bool := Qle_bool y x.
Definition is_zero (x : Q) : bool := Qeq_bool x 0.

(** ** Binary64 numbers

    The values of the Number type: the finite ones as the rationals they
    are, the two infinities and NaN.  Zero carries no sign; no expression
    modelled here divides by zero or otherwise tells the two zeros apart. *)
Inductive Number : Type :=
  | Finite (q : Q)
  | PosInfinity
  | NegInfinity
  | NaN.

(** [2 ^ k] for [k >= 0], and 1 otherwise. *)
Definition pow2 (k : Z) : Z := (2 ^ Z.max 0 k)%Z.

(** The integer part of the binary logarithm of [n / d]. *)
Definition floorLog2 (n d : positive) : Z :=
  let k := (Z.log2 (Zpos n) - Z.log2 (Zpos d))%Z in
  if (Zpos d * pow2 k <=? Zpos n * pow2 (- k))%Z then k else (k - 1)%Z.

(** [n / d] rounded to the nearest integer, ties to the even one. *)
Definition roundHalfEven (n d : Z) : Z :=
  let q := (n / d)%Z in
  match (2 * (n mod d) ?= d)%Z with
  | Lt => q
  | Gt => (q + 1)%Z
  | Eq => if Z.even q then q else (q + 1)%Z
  end.

(** [n / d] rounded to binary64, round to nearest, ties to even: a
    significand of 53 bits at the exponent of [n / d], or at the least
    exponent, -1074, below the normal range; [None] when the result is
    2^1024 or more. *)
Definition roundMagnitude (n d : positive) : option Q :=
  let e := Z.max (floorLog2 n d - 52) (-1074) in
  let m := roundHalfEven (Zpos n * pow2 (- e)) (Zpos d * pow2 e) in
  if (2 ^ 1024 <=? m * pow2 e)%Z then None
  else Some (Qred (Qmake (m * pow2 e) (Z.to_pos (pow2 (- e))))).

(** The Number a decimal literal denotes, as [JSON.parse] and the
    compiler read it; also the rounding of an exact result. *)
Definition toNumber (q : Q) : Number :=
  match Qnum q with
  | Z0 => Finite 0
  | Zpos n =>
      match roundMagnitude n (Qden q) with
      | Some r => Finite r
      | None => PosInfinity
      end
  | Zneg n =>
      match roundMagnitude n (Qden q) with
      | Some r => Finite (Qred (- r))
      | None => NegInfinity
      end
  end.

(** The sign of a number that has one: [Some true] when positive. *)
Definition sign (x : Number) : option bool :=
  match x with
  | Finite q =>
      match Qnum q with
      | Z0 => None
      | Zpos _ => Some true
      | Zneg _ => Some false
      end
  | PosInfinity => Some true
  | NegInfinity => Some false
  | NaN => None
  end.

Definition infinity (positive : bool) : Number :=
  if positive then PosInfinity else NegInfinity.

Definition negate (x : Number) : Number :=
  match x with
  | Finite q => Finite (Qred (- q))
  | PosInfinity => NegInfinity
  | NegInfinity => PosInfinity
  | NaN => NaN
  end.

(** [x + y], [x - y], [x * y] and [x / y]. *)
Definition add (x y : Number) : Number :=
  match x, y with
  | Finite a, Finite b => toNumber (a + b)
  | NaN, _ | _, NaN => NaN
  | PosInfinity, NegInfinity | NegInfinity, PosInfinity => NaN
  | PosInfinity, _ | _, PosInfinity => PosInfinity
  | NegInfinity, _ | _, NegInfinity => NegInfinity
  end.

Definition sub (x y : Number) : Number := add x (negate y).

Definition mul (x y : Number) : Number :=
  match x, y with
  | Finite a, Finite b => toNumber (a * b)
  | _, _ =>
      match sign x, sign y with
      | Some s, Some t => infinity (Bool.eqb s t)
      | _, _ => NaN
      end
  end.

Definition div (x y : Number) : Number :=
  match x, y with
  | NaN, _ | _, NaN => NaN
  | Finite a, Finite b =>
      match sign y, sign x with
      | Some _, _ => toNumber (a / b)
      | None, Some s => infinity s
      | None, None => NaN
      end
  | Finite _, _ => Finite 0
  | _, Finite _ =>
      match sign x, sign y with
      | Some s, Some t => infinity (Bool.eqb s t)
      | Some s, None => infinity s
      | None, _ => NaN
      end
  | _, _ => NaN
  end.

(** [x < y] and [x > y]; false when either is NaN. *)
Definition lt (x y : Number) : bool :=
  match x, y with
  | Finite a, Finite b => ltb a b
  | NegInfinity, Finite _ | NegInfinity, PosInfinity | Finite _, PosInfinity => true
  | _, _ => false
  end.

Definition gt (x y : Number) : bool := lt y x.

(** ToBoolean of a number: false for zero and NaN. *)
Definition truthyNumber (x : Number) : bool :=
  match x with
  | Finite q => negb (is_zero q)
  | PosInfinity | NegInfinity => true
  | NaN => false
  end.

(** ToBoolean. *)
Definition truthy (v : Value) : bool :=
  match v with
  | Undefined | Null => false
  | Bool b => b
  | Num n => negb (is_zero n)
  | Str s => negb (String.eqb s "")
  | Arr _ => true
  end.

(** [state[i]]: an index past the end reads [undefined]. *)
Definition index (state : list Value) (i : nat) : Value :=
  nth i state Undefined.

(** White space stripped by [String.prototype.trim], restricted to the
    8-bit characters: TAB, LF, VT, FF, CR, SPACE and NBSP. *)
Definition is_space (c : ascii) : bool :=
  let n := nat_of_ascii c in
  ((9 <=? n)%nat && (n <=? 13)%nat) || (n =? 32)%nat || (n =? 160)%nat.

Fixpoint trim_start (cs : list ascii) : list ascii :=
  match cs with
  | c :: rest => if is_space c then trim_start rest else cs
  | [] => []
  end.

Definition trim (s : string) : string :=
  string_of_list_ascii
    (rev (trim_start (rev (trim_start (list_ascii_of_string s))))).

Inductive Error : Type :=
  | TypeError (msg : string)
  | PlainError (msg : string).

(** Outcome of evaluating an expression or a function body. *)
Inductive Completion (A : Type) : Type :=
  | Returns (a : A)
  | Throws (e : Error).
Arguments Returns {A} a.
Arguments Throws {A} e.

Definition bindC {A B} (c : Completion A) (k : A -> Completion B) : Completion B :=
  match c with
  | Returns a => k a
  | Throws e => Throws e
  end.

(** [xs.map(f)] where [f] may throw: the first exception aborts the map. *)
Fixpoint mapC {A B} (f : A -> Completion B) (xs : list A) : Completion (list B) :=
  match xs with
  | [] => Returns []
  | x :: rest =>
      bindC (f x) (fun y => bindC (mapC f rest) (fun ys => Returns (y :: ys)))
  end.

(** [try { body } catch { handler }]. *)
Definition tryCatch {A} (body : Completion A) (handler : Error -> Completion A)
  : Completion A :=
  match body with
  | Returns a => Returns a
  | Throws e => handler e
  end.

End Js.

(* ===================================================================== *)
(** * Shared types ([shared/types.ts]) *)
(* ===================================================================== *)

(** [interface Aircraft]; [T | null] is [option T]. *)
Record Aircraft : Type := mkAircraft {
  icao24 : string;
  callsign : option string;
  origin_country : string;
  longitude : option Q;
  latitude : option Q;
  baro_altitude : option Q;
  geo_altitude : option Q;
  velocity : option Q;
  true_track : option Q;
  vertical_rate : option Q;
  on_ground : bool;
  squawk : option string;
  spi : bool;
  position_source : Q;
  last_contact : Q;
  time_position : option Q;
  category : option Q
}.

(** What [parseStateVector] builds at run time: the [as] casts of the source
    check nothing, so every field holds whatever value the array held. *)
Record RawAircraft : Type := mkRawAircraft {
  r_icao24 : Js.Value;
  r_callsign : Js.Value;
  r_origin_country : Js.Value;
  r_time_position : Js.Value;
  r_last_contact : Js.Value;
  r_longitude : Js.Value;
  r_latitude : Js.Value;
  r_baro_altitude : Js.Value;
  r_on_ground : Js.Value;
  r_velocity : Js.Value;
  r_true_track : Js.Value;
  r_vertical_rate : Js.Value;
  r_geo_altitude : Js.Value;
  r_squawk : Js.Value;
  r_spi : Js.Value;
  r_position_source : Js.Value;
  r_category : Js.Value
}.

(** Run-time membership in the field types of [interface Aircraft]. *)
Definition asString (v : Js.Value) : option string :=
  match v with Js.Str s => Some s | _ => None end.
Definition asNumber (v : Js.Value) : option Q :=
  match v with Js.Num n => Some n | _ => None end.
Definition asBoolean (v : Js.Value) : option bool :=
  match v with Js.Bool b => Some b | _ => None end.
Definition asNullableString (v : Js.Value) : option (option string) :=
  match v with Js.Str s => Some (Some s) | Js.Null => Some None | _ => None end.
Definition asNullableNumber (v : Js.Value) : option (option Q) :=
  match v with Js.Num n => Some (Some n) | Js.Null => Some None | _ => None end.

(** The typed view of a run-time record: defined exactly when every field
    inhabits its declared type. *)
Definition conforms (r : RawAircraft) : option Aircraft :=
  match asString (r_icao24 r), asNullableString (r_callsign r),
        asString (r_origin_country r), asNullableNumber (r_longitude r),
        asNullableNumber (r_latitude r), asNullableNumber (r_baro_altitude r),
        asNullableNumber (r_geo_altitude r), asNullableNumber (r_velocity r),
        asNullableNumber (r_true_track r) with
  | Some i, Some cs, Some oc, Some lon, Some lat, Some ba, Some ga, Some v, Some trk =>
      match asNullableNumber (r_vertical_rate r), asBoolean (r_on_ground r),
            asNullableString (r_squawk r), asBoolean (r_spi r),
            asNumber (r_position_source r), asNumber (r_last_contact r),
            asNullableNumber (r_time_position r), asNullableNumber (r_category r) with
      | Some vr, Some og, Some sq, Some sp, Some ps, Some lc, Some tp, Some cat =>
          Some (mkAircraft i cs oc lon lat ba ga v trk vr og sq sp ps lc tp cat)
      | _, _, _, _, _, _, _, _ => None
      end
  | _, _, _, _, _, _, _, _, _ => None
  end.

(** [EMERGENCY_SQUAWKS]: the own properties of the object literal. *)
Definition EMERGENCY_SQUAWKS : gmap string string :=
  <["7500" := "Hijacking"]>
    (<["7600" := "Radio Failure"]>
       (<["7700" := "General Emergency"]> ∅)).

(* ===================================================================== *)
(** * State-vector normaliser ([opensky.ts]) *)
(* ===================================================================== *)

(** [interface OpenSkyStateVector]: the documented 18-field positional
    schema, as a check on a raw array. *)
Definition isString (v : Js.Value) : bool :=
  match v with Js.Str _ => true | _ => false end.
Definition isNumber (v : Js.Value) : bool :=
  match v with Js.Num _ => true | _ => false end.
Definition isBoolean (v : Js.Value) : bool :=
  match v with Js.Bool _ => true | _ => false end.
Definition isNull (v : Js.Value) : bool :=
  match v with Js.Null => true | _ => false end.
Definition isNumberArray (v : Js.Value) : bool :=
  match v with Js.Arr _ => true | _ => false end.

Definition stateVectorSchema : list (Js.Value -> bool) :=
  [ isString;                                  (* 0  icao24 *)
    (fun v => isString v || isNull v);         (* 1  callsign *)
    isString;                                  (* 2  origin_country *)
    (fun v => isNumber v || isNull v);         (* 3  time_position *)
    isNumber;                                  (* 4  last_contact *)
    (fun v => isNumber v || isNull v);         (* 5  longitude *)
    (fun v => isNumber v || isNull v);         (* 6  latitude *)
    (fun v => isNumber v || isNull v);         (* 7  baro_altitude *)
    isBoolean;                                 (* 8  on_ground *)
    (fun v => isNumber v || isNull v);         (* 9  velocity *)
    (fun v => isNumber v || isNull v);         (* 10 true_track *)
    (fun v => isNumber v || isNull v);         (* 11 vertical_rate *)
    (fun v => isNumberArray v || isNull v);    (* 12 sensors *)
    (fun v => isNumber v || isNull v);         (* 13 geo_altitude *)
    (fun v => isString v || isNull v);         (* 14 squawk *)
    isBoolean;                                 (* 15 spi *)
    isNumber;                                  (* 16 position_source *)
    (fun v => isNumber v || isNull v) ].       (* 17 category *)

Fixpoint matchesFields (schema : list (Js.Value -> bool)) (state : list Js.Value) : bool :=
  match schema, state with
  | [], [] => true
  | p :: schema', v :: state' => p v && matchesFields schema' state'
  | _, _ => false
  end.

Definition matchesSchema (state : list Js.Value) : bool :=
  matchesFields stateVectorSchema state.

(** [parseStateVector].  The only operation that can fail is the method
    call [.trim()] on a truthy value that is not a string. *)
Definition parseCallsign (v : Js.Value) : Js.Completion Js.Value :=
  if Js.truthy v then
    match v with
    | Js.Str s => Js.Returns (Js.Str (Js.trim s))
    | _ => Js.Throws (Js.TypeError "trim is not a function")
    end
  else Js.Returns Js.Null.

Definition parseStateVector (state : list Js.Value) : Js.Completion RawAircraft :=
  Js.bindC (parseCallsign (Js.index state 1)) (fun cs =>
  Js.Returns {|
    r_icao24 := Js.index state 0;
    r_callsign := cs;
    r_origin_country := Js.index state 2;
    r_time_position := Js.index state 3;
    r_last_contact := Js.index state 4;
    r_longitude := Js.index state 5;
    r_latitude := Js.index state 6;
    r_baro_altitude := Js.index state 7;
    r_on_ground := Js.index state 8;
    r_velocity := Js.index state 9;
    r_true_track := Js.index state 10;
    r_vertical_rate := Js.index state 11;
    r_geo_altitude := Js.index state 13;
    r_squawk := Js.index state 14;
    r_spi := Js.index state 15;
    r_position_source := Js.index state 16;
    r_category := Js.index state 17
  |}).

(** [FlightPathPoint] and [FlightTrack]. *)
Record FlightPathPoint : Type := mkFlightPathPoint {
  p_time : Q;
  p_latitude : option Q;
  p_longitude : option Q;
  p_baro_altitude : option Q;
  p_true_track : option Q;
  p_on_ground : bool
}.

Record FlightTrack : Type := mkFlightTrack {
  t_icao24 : string;
  t_callsign : string;
  startTime : Q;
  endTime : Q;
  path : list FlightPathPoint
}.

Inductive AnomalyType : Type :=
  | altitude_drop
  | holding_pattern
  | emergency_squawk
  | route_deviation
  | rapid_descent
  | unusual_speed
  | go_around
  | diversion.

Inductive Severity : Type := low | medium | high | critical.

#[global] Instance AnomalyType_eq_dec : EqDecision AnomalyType.
Proof. solve_decision. Defined.
#[global] Instance Severity_eq_dec : EqDecision Severity.
Proof. solve_decision. Defined.

(** The string a type or a severity is as a property key. *)
Definition typeKey (t : AnomalyType) : string :=
  match t with
  | altitude_drop => "altitude_drop"
  | holding_pattern => "holding_pattern"
  | emergency_squawk => "emergency_squawk"
  | route_deviation => "route_deviation"
  | rapid_descent => "rapid_descent"
  | unusual_speed => "unusual_speed"
  | go_around => "go_around"
  | diversion => "diversion"
  end.

Definition severityKey (s : Severity) : string :=
  match s with
  | low => "low"
  | medium => "medium"
  | high => "high"
  | critical => "critical"
  end.

(** The value of a property read [obj[key]] on an object literal: an own
    property, or one inherited from [Object.prototype]. *)
Inductive PropertyValue : Type :=
  | OwnValue (s : string)
  | Inherited (name : string).

Definition objectPrototypeKeys : list string :=
  [ "constructor"; "hasOwnProperty"; "isPrototypeOf"; "propertyIsEnumerable";
    "toLocaleString"; "toString"; "valueOf"; "__proto__";
    "__defineGetter__"; "__defineSetter__"; "__lookupGetter__"; "__lookupSetter__" ].

Definition getProperty (obj : gmap string string) (key : string) : option PropertyValue :=
  match obj !! key with
  | Some s => Some (OwnValue s)
  | None =>
      if existsb (String.eqb key) objectPrototypeKeys
      then Some (Inherited key)
      else None
  end.

(** ToBoolean of a property read; a missing property reads [undefined]. *)
Definition truthyProperty (p : option PropertyValue) : bool :=
  match p with
  | Some (OwnValue s) => negb (String.eqb s "")
  | Some (Inherited _) => true
  | None => false
  end.

Record Location : Type := mkLocation {
  loc_latitude : Q;
  loc_longitude : Q
}.

(** [`ANO-${Date.now()}-${Math.random()...}`]: the two parts. *)
Record AnomalyId : Type := mkAnomalyId {
  id_time : Z;
  id_suffix : string
}.

(** [details]: the numbers each detector reports ([metrics],
    [previous_value], [current_value]).  The formatted [description] text
    and [parseInt] of the squawk are not modelled; the squawk detector keeps
    the code and the looked-up property instead. *)
Inductive Details : Type :=
  | SquawkDetails (code : string) (emergencyType : PropertyValue)
  | RapidDescentDetails (vertical_rate_fpm current_altitude_ft : Js.Number)
  | AltitudeDropDetails (altitude_change_ft rate_of_change_fpm
                         previous_value current_value : Js.Number)
  | HoldingDetails (orbits_detected : Q) (turn_count : nat)
                   (total_heading_change : Q)
  | FastDetails (ground_speed_kts : Js.Number)
  | SlowDetails (ground_speed_kts altitude_ft : Js.Number)
  | GoAroundDetails (lowest_altitude_ft : option Q)
                    (current_vertical_rate_fpm : Q).

(** [interface FlightAnomaly]. *)
Record FlightAnomaly : Type := mkFlightAnomaly {
  a_id : AnomalyId;
  flight_icao24 : string;
  a_callsign : option string;
  a_type : AnomalyType;
  severity : Severity;
  detected_at : Z;
  location : Location;
  details : Details
}.

(* ===================================================================== *)
(** * Host oracles, module state and the state monad *)
(* ===================================================================== *)

Record Host : Type := mkHost {
  wallClock : nat -> Z;          (* n-th [Date.now()], in milliseconds *)
  randomSuffix : nat -> string;  (* n-th [Math.random().toString(36).substr(2, 9)] *)
  numberToString : Q -> string   (* a number inside a template literal *)
}.

(** A response-cache entry [{ data, timestamp }]. *)
Record CacheEntry : Type := mkCacheEntry {
  data : list RawAircraft;
  timestamp : Z
}.

(** The module-level variables of the two services, and the counters of
    the oracle reads and of the upstream exchanges started so far. *)
Record World : Type := mkWorld {
  ticks : nat;
  draws : nat;
  aircraftHistory : gmap string (list Aircraft);
  responseCache : gmap string CacheEntry;
  backoffUntil : Z;
  inflightRequests : gset string;
  upstreamCalls : nat
}.

Definition M (A : Type) : Type := World -> A * World.

Definition ret {A} (a : A) : M A := fun w => (a, w).
Definition bind {A B} (c : M A) (k : A -> M B) : M B :=
  fun w => let (a, w') := c w in k a w'.
Definition gets {A} (f : World -> A) : M A := fun w => (f w, w).
Definition modify (f : World -> World) : M unit := fun w => (tt, f w).

Notation "'let*' x ':=' c 'in' k" := (bind c (fun x => k))
  (at level 10, x name, c at level 200, k at level 200, only parsing).
Notation "'exec' c 'in' k" := (bind c (fun _ => k))
  (at level 10, c at level 200, k at level 200, only parsing).

Definition withTicks (n : nat) (w : World) : World :=
  mkWorld n (draws w) (aircraftHistory w) (responseCache w) (backoffUntil w)
          (inflightRequests w) (upstreamCalls w).
Definition withDraws (n : nat) (w : World) : World :=
  mkWorld (ticks w) n (aircraftHistory w) (responseCache w) (backoffUntil w)
          (inflightRequests w) (upstreamCalls w).
Definition withHistory (h : gmap string (list Aircraft)) (w : World) : World :=
  mkWorld (ticks w) (draws w) h (responseCache w) (backoffUntil w)
          (inflightRequests w) (upstreamCalls w).
Definition withCache (c : gmap string CacheEntry) (w : World) : World :=
  mkWorld (ticks w) (draws w) (aircraftHistory w) c (backoffUntil w)
          (inflightRequests w) (upstreamCalls w).
Definition withBackoff (b : Z) (w : World) : World :=
  mkWorld (ticks w) (draws w) (aircraftHistory w) (responseCache w) b
          (inflightRequests w) (upstreamCalls w).
Definition withInflight (s : gset string) (w : World) : World :=
  mkWorld (ticks w) (draws w) (aircraftHistory w) (responseCache w)
          (backoffUntil w) s (upstreamCalls w).
Definition withUpstreamCalls (n : nat) (w : World) : World :=
  mkWorld (ticks w) (draws w) (aircraftHistory w) (responseCache w)
          (backoffUntil w) (inflightRequests w) n.

Section Services.

Context (host : Host).

(** [Date.now()]. *)
Definition dateNow : M Z :=
  fun w => (wallClock host (ticks w), withTicks (S (ticks w)) w).

(** [Math.random().toString(36).substr(2, 9)]. *)
Definition mathRandom : M string :=
  fun w => (randomSuffix host (draws w), withDraws (S (draws w)) w).

(** Milliseconds to seconds: [ms / 1000], held as the quotient itself.  The
    number the run time stores is the binary64 value nearest to it, which
    is what [Js.toNumber] reads from a stamp. *)
Definition seconds (ms : Z) : Q := inject_Z ms / 1000.

(* ===================================================================== *)
(** * History store ([anomaly-detection.ts]) *)
(* ===================================================================== *)

Definition HISTORY_MAX_SIZE : nat := 100.
Definition HISTORY_RETENTION_MS : Q := 30 * 60 * 1000.

Definition getHistory (icao : string) : M (list Aircraft) :=
  gets (fun w => default [] (aircraftHistory w !! icao)).

(** [{ ...aircraft, last_contact: t }]. *)
Definition stamped (aircraft : Aircraft) (t : Q) : Aircraft :=
  mkAircraft (icao24 aircraft) (callsign aircraft) (origin_country aircraft)
             (longitude aircraft) (latitude aircraft) (baro_altitude aircraft)
             (geo_altitude aircraft) (velocity aircraft) (true_track aircraft)
             (vertical_rate aircraft) (on_ground aircraft) (squawk aircraft)
             (spi aircraft) (position_source aircraft) t
             (time_position aircraft) (category aircraft).

(** [history.filter(a => a.last_contact > cutoffTime)]. *)
Definition ageTrim (cutoffTime : Q) (history : list Aircraft) : list Aircraft :=
  List.filter (fun a => Js.gtb (last_contact a) cutoffTime) history.

(** [if (filtered.length > MAX) filtered.splice(0, filtered.length - MAX)]. *)
Definition countTrim (filtered : list Aircraft) : list Aircraft :=
  if (HISTORY_MAX_SIZE <? length filtered)%nat
  then skipn (length filtered - HISTORY_MAX_SIZE) filtered
  else filtered.

(** [addToHistory].  The [push] mutates the stored array, but the entry is
    replaced by [filtered] before anything can read it. *)
Definition addToHistory (aircraft : Aircraft) : M unit :=
  let* history := getHistory (icao24 aircraft) in
  let* pushedAt := dateNow in
  let history := history ++ [stamped aircraft (seconds pushedAt)] in
  let* trimmedAt := dateNow in
  let cutoffTime := (seconds trimmedAt - HISTORY_RETENTION_MS / 1000)%Q in
  let filtered := countTrim (ageTrim cutoffTime history) in
  modify (fun w => withHistory (<[icao24 aircraft := filtered]> (aircraftHistory w)) w).

(* ===================================================================== *)
(** * Detectors ([anomaly-detection.ts]) *)
(* ===================================================================== *)

(** [ANOMALY_THRESHOLDS], the entries the detectors read. *)
Definition RAPID_ALTITUDE_DROP_FT_PER_MIN : Q := -3000.
Definition CRITICAL_VERTICAL_RATE_FPM : Q := -4000.
Definition UNUSUALLY_SLOW_KTS : Q := 80.
Definition UNUSUALLY_FAST_KTS : Q := 600.
Definition HOLDING_PATTERN_TURNS : Q := 2.

(** [x || 0] on a nullable number. *)
Definition orZero (x : option Q) : Q :=
  match x with
  | Some q => if Js.is_zero q then 0%Q else q
  | None => 0%Q
  end.

(** [x ? x * k : 0] on a nullable number. *)
Definition scaledOrZero (x : option Q) (k : Q) : Js.Number :=
  match x with
  | Some q =>
      if Js.truthyNumber (Js.toNumber q)
      then Js.mul (Js.toNumber q) (Js.toNumber k)
      else Js.toNumber 0
  | None => Js.toNumber 0
  end.

Definition generateAnomalyId : M AnomalyId :=
  let* t := dateNow in
  let* r := mathRandom in
  ret (mkAnomalyId t r).

(** The object literal every detector returns: [id] first, then
    [detected_at: new Date()], the rest read off the aircraft. *)
Definition anomalyRecord (aircraft : Aircraft) (ty : AnomalyType)
    (sev : Severity) (d : Details) : M (option FlightAnomaly) :=
  let* i := generateAnomalyId in
  let* now := dateNow in
  ret (Some {|
    a_id := i;
    flight_icao24 := icao24 aircraft;
    a_callsign := callsign aircraft;
    a_type := ty;
    severity := sev;
    detected_at := now;
    location := {| loc_latitude := orZero (latitude aircraft);
                   loc_longitude := orZero (longitude aircraft) |};
    details := d
  |}).

(** [detectEmergencySquawk]. *)
Definition detectEmergencySquawk (aircraft : Aircraft) : M (option FlightAnomaly) :=
  match squawk aircraft with
  | None => ret None
  | Some code =>
      if String.eqb code "" then ret None
      else
        let emergencyType := getProperty EMERGENCY_SQUAWKS code in
        match emergencyType with
        | Some v =>
            if truthyProperty emergencyType
            then anomalyRecord aircraft emergency_squawk critical (SquawkDetails code v)
            else ret None
        | None => ret None
        end
  end.

(** The constants of [detectAltitudeAnomaly], computed in binary64 from
    the numbers the fields and the literals denote:
    [aircraft.vertical_rate * 196.85],
    [(aircraft.baro_altitude - previousState.baro_altitude) * 3.281],
    [(aircraft.last_contact - previousState.last_contact) / 60] and
    [altitudeChange / timeChange]. *)
Definition verticalRateFpm (vertical_rate : Q) : Js.Number :=
  Js.mul (Js.toNumber vertical_rate) (Js.toNumber 196.85).

Definition altitudeChange (current previous : Q) : Js.Number :=
  Js.mul (Js.sub (Js.toNumber current) (Js.toNumber previous)) (Js.toNumber 3.281).

Definition timeChange (aircraft previousState : Aircraft) : Js.Number :=
  Js.div (Js.sub (Js.toNumber (last_contact aircraft))
                 (Js.toNumber (last_contact previousState)))
         (Js.toNumber 60).

Definition rateOfChange (aircraft previousState : Aircraft) (current previous : Q)
  : Js.Number :=
  Js.div (altitudeChange current previous) (timeChange aircraft previousState).

(** [detectAltitudeAnomaly]. *)
Definition detectAltitudeAnomaly (aircraft : Aircraft) : M (option FlightAnomaly) :=
  match on_ground aircraft, vertical_rate aircraft with
  | false, Some vr =>
      if Js.lt (verticalRateFpm vr) (Js.toNumber CRITICAL_VERTICAL_RATE_FPM)
      then anomalyRecord aircraft rapid_descent high
             (RapidDescentDetails (verticalRateFpm vr)
                (scaledOrZero (baro_altitude aircraft) 3.281))
      else
        let* history := getHistory (icao24 aircraft) in
        match (2 <=? length history)%nat, baro_altitude aircraft,
              nth_error history (length history - 2) with
        | true, Some current, Some previousState =>
            match baro_altitude previousState with
            | Some previous =>
                if Js.gt (timeChange aircraft previousState) (Js.toNumber 0)
                then
                  if Js.lt (rateOfChange aircraft previousState current previous)
                           (Js.toNumber RAPID_ALTITUDE_DROP_FT_PER_MIN)
                  then anomalyRecord aircraft altitude_drop high
                         (AltitudeDropDetails
                            (altitudeChange current previous)
                            (rateOfChange aircraft previousState current previous)
                            (Js.mul (Js.toNumber previous) (Js.toNumber 3.281))
                            (Js.mul (Js.toNumber current) (Js.toNumber 3.281)))
                  else ret None
                else ret None
            | None => ret None
            end
        | _, _, _ => ret None
        end
  | _, _ => ret None
  end.

(** [history.slice(-n)]. *)
Definition sliceLast {A} (n : nat) (xs : list A) : list A :=
  skipn (length xs - n) xs.

(** The loop variables of [detectHoldingPattern]. *)
Record TurnScan : Type := mkTurnScan {
  lastHeading : option Q;
  turnCount : nat;
  totalHeadingChange : Q
}.

(** The two [if]s under "Normalize heading change to -180 to 180". *)
Definition normalizeHeadingChange (headingChange : Q) : Q :=
  let h := if Js.gtb headingChange 180 then (headingChange - 360)%Q else headingChange in
  if Js.ltb h (-180) then (h + 360)%Q else h.

(** One iteration of the loop, on [recentHistory[i]]. *)
Definition turnStep (s : TurnScan) (sample : Aircraft) : TurnScan :=
  let currentHeading := true_track sample in
  match lastHeading s, currentHeading with
  | Some lastH, Some currentH =>
      let headingChange := normalizeHeadingChange (currentH - lastH)%Q in
      mkTurnScan currentHeading
        (if Js.gtb (Qabs headingChange) 30 then S (turnCount s) else turnCount s)
        (totalHeadingChange s + headingChange)%Q
  | _, _ => mkTurnScan currentHeading (turnCount s) (totalHeadingChange s)
  end.

(** The whole loop, from [recentHistory[0]] on. *)
Definition scanTurns (first : Aircraft) (rest : list Aircraft) : TurnScan :=
  fold_left turnStep rest (mkTurnScan (true_track first) 0 0%Q).

(** [detectHoldingPattern].  [recentHistory] is never empty here: the
    history has at least 20 entries. *)
Definition detectHoldingPattern (aircraft : Aircraft) : M (option FlightAnomaly) :=
  let* history := getHistory (icao24 aircraft) in
  if (length history <? 20)%nat then ret None
  else if on_ground aircraft then ret None
  else
    match sliceLast 30 history with
    | [] => ret None
    | first :: rest =>
        let scan := scanTurns first rest in
        let fullCircles := (Qabs (totalHeadingChange scan) / 360)%Q in
        if Js.geb fullCircles HOLDING_PATTERN_TURNS
        then anomalyRecord aircraft holding_pattern medium
               (HoldingDetails fullCircles (turnCount scan) (totalHeadingChange scan))
        else ret None
    end.

(** The constant [speedKts] of [detectSpeedAnomaly], computed in binary64:
    [aircraft.velocity * 1.944]. *)
Definition speedKts (velocity : Q) : Js.Number :=
  Js.mul (Js.toNumber velocity) (Js.toNumber 1.944).

(** [detectSpeedAnomaly]. *)
Definition detectSpeedAnomaly (aircraft : Aircraft) : M (option FlightAnomaly) :=
  match on_ground aircraft, velocity aircraft with
  | false, Some v =>
      if Js.gt (speedKts v) (Js.toNumber UNUSUALLY_FAST_KTS)
      then anomalyRecord aircraft unusual_speed medium (FastDetails (speedKts v))
      else
        match baro_altitude aircraft with
        | Some alt =>
            if Js.lt (speedKts v) (Js.toNumber UNUSUALLY_SLOW_KTS)
               && Js.truthyNumber (Js.toNumber alt)
               && Js.gt (Js.toNumber alt) (Js.toNumber 3000)
            then anomalyRecord aircraft unusual_speed low
                   (SlowDetails (speedKts v)
                      (Js.mul (Js.toNumber alt) (Js.toNumber 3.281)))
            else ret None
        | None => ret None
        end
  | _, _ => ret None
  end.

(** The loop variables of [detectGoAround]; [lowestAltitude = None] is the
    initial [Infinity]. *)
Record ApproachScan : Type := mkApproachScan {
  wasDescending : bool;
  reachedLowAltitude : bool;
  isNowClimbing : bool;
  lowestAltitude : option Q
}.

(** One iteration, on the pair [(recent[i - 1], recent[i])]. *)
Definition approachStep (s : ApproachScan) (pair : Aircraft * Aircraft) : ApproachScan :=
  let (prev, curr) := pair in
  match baro_altitude prev, baro_altitude curr with
  | Some p, Some c =>
      let altFt := (c * 3.281)%Q in
      let lowest :=
        match lowestAltitude s with
        | Some l => if Js.ltb altFt l then altFt else l
        | None => altFt
        end in
      let descending := wasDescending s || Js.ltb c p in
      let reached := reachedLowAltitude s || (Js.ltb altFt 1500 && descending) in
      let climbing := isNowClimbing s || (Js.gtb c p && reached) in
      mkApproachScan descending reached climbing (Some lowest)
  | _, _ => s
  end.

Definition scanApproach (recent : list Aircraft) : ApproachScan :=
  fold_left approachStep (combine recent (tl recent))
            (mkApproachScan false false false None).

(** [detectGoAround]. *)
Definition detectGoAround (aircraft : Aircraft) : M (option FlightAnomaly) :=
  let* history := getHistory (icao24 aircraft) in
  if (length history <? 10)%nat then ret None
  else
    let scan := scanApproach (sliceLast 15 history) in
    let climbingNow :=
      match vertical_rate aircraft with
      | Some vr => negb (Js.is_zero vr) && Js.gtb vr 2
      | None => false
      end in
    if wasDescending scan && reachedLowAltitude scan && isNowClimbing scan
       && climbingNow
    then anomalyRecord aircraft go_around medium
           (GoAroundDetails (lowestAltitude scan)
              (orZero (vertical_rate aircraft) * 196.85)%Q)
    else ret None.

(* ===================================================================== *)
(** * Orchestration ([anomaly-detection.ts]) *)
(* ===================================================================== *)

Definition detectors : list (Aircraft -> M (option FlightAnomaly)) :=
  [ detectEmergencySquawk;
    detectAltitudeAnomaly;
    detectHoldingPattern;
    detectSpeedAnomaly;
    detectGoAround ].

(** [for (const detector of detectors) { try { ... push ... } catch {} }].
    No detector of this model throws, so the [catch] arm is never taken. *)
Fixpoint runDetectors (ds : list (Aircraft -> M (option FlightAnomaly)))
    (aircraft : Aircraft) (anomalies : list FlightAnomaly) : M (list FlightAnomaly) :=
  match ds with
  | [] => ret anomalies
  | detector :: rest =>
      let* anomaly := detector aircraft in
      runDetectors rest aircraft
        (match anomaly with
         | Some a => anomalies ++ [a]
         | None => anomalies
         end)
  end.

(** [detectAnomalies]. *)
Definition detectAnomalies (aircraft : Aircraft) : M (list FlightAnomaly) :=
  match latitude aircraft, longitude aircraft with
  | Some _, Some _ =>
      exec addToHistory aircraft in
      runDetectors detectors aircraft []
  | _, _ => ret []
  end.

(** [for (const ac of aircraft) allAnomalies.push(...detectAnomalies(ac))]. *)
Fixpoint detectEach (aircraft : list Aircraft) (allAnomalies : list FlightAnomaly)
  : M (list FlightAnomaly) :=
  match aircraft with
  | [] => ret allAnomalies
  | ac :: rest =>
      let* anomalies := detectAnomalies ac in
      detectEach rest (allAnomalies ++ anomalies)
  end.

Definition severityOrder (s : Severity) : Z :=
  match s with
  | critical => 0
  | high => 1
  | medium => 2
  | low => 3
  end.

(** The comparator [(a, b) => severityOrder[a.severity] - severityOrder[b.severity]]. *)
Definition bySeverity (a b : FlightAnomaly) : Z :=
  (severityOrder (severity a) - severityOrder (severity b))%Z.

(** [Array.prototype.sort(compare)].  ECMAScript fixes the result for a
    consistent comparator: the ordered permutation that keeps the input
    order of elements comparing equal.  It is computed here by insertion:
    an element goes in front of the first one it does not compare greater
    than. *)
Fixpoint sortInsert {A} (compare : A -> A -> Z) (x : A) (sorted : list A) : list A :=
  match sorted with
  | [] => [x]
  | y :: rest =>
      if (0 <? compare x y)%Z
      then y :: sortInsert compare x rest
      else x :: sorted
  end.

Fixpoint arraySort {A} (compare : A -> A -> Z) (xs : list A) : list A :=
  match xs with
  | [] => []
  | x :: rest => sortInsert compare x (arraySort compare rest)
  end.

(** [detectAnomaliesBatch]. *)
Definition detectAnomaliesBatch (aircraft : list Aircraft) : M (list FlightAnomaly) :=
  let* allAnomalies := detectEach aircraft [] in
  ret (arraySort bySeverity allAnomalies).

(** The [pseudoAircraft] of [analyzeFlightTrack]. *)
Definition pseudoAircraft (track : FlightTrack) (point : FlightPathPoint) : Aircraft :=
  {| icao24 := t_icao24 track;
     callsign := Some (t_callsign track);
     origin_country := "";
     longitude := p_longitude point;
     latitude := p_latitude point;
     baro_altitude := p_baro_altitude point;
     geo_altitude := None;
     velocity := None;
     true_track := p_true_track point;
     vertical_rate := None;
     on_ground := p_on_ground point;
     squawk := None;
     spi := false;
     position_source := 0%Q;
     last_contact := p_time point;
     time_position := Some (p_time point);
     category := None |}.

Fixpoint analyzePoints (track : FlightTrack) (points : list FlightPathPoint)
    (anomalies : list FlightAnomaly) : M (list FlightAnomaly) :=
  match points with
  | [] => ret anomalies
  | point :: rest =>
      match p_latitude point, p_longitude point with
      | Some _, Some _ =>
          let* detected := detectAnomalies (pseudoAircraft track point) in
          analyzePoints track rest (anomalies ++ detected)
      | _, _ => analyzePoints track rest anomalies
      end
  end.

(** [analyzeFlightTrack]. *)
Definition analyzeFlightTrack (track : FlightTrack) : M (list FlightAnomaly) :=
  analyzePoints track (path track) [].

(** [stats[key]++]; every key this is used on is present. *)
Definition increment (key : string) (stats : gmap string nat) : gmap string nat :=
  match stats !! key with
  | Some n => <[key := S n]> stats
  | None => stats
  end.

(** The body of the loop of [getAnomalyStats], on the pair
    [(stats, byType)]. *)
Definition countAnomaly (acc : gmap string nat * gmap string nat)
    (anomaly : FlightAnomaly) : gmap string nat * gmap string nat :=
  let (stats, byType) := acc in
  (increment (severityKey (severity anomaly)) stats,
   <[typeKey (a_type anomaly) :=
       (default 0 (byType !! typeKey (a_type anomaly)) + 1)%nat]> byType).

(** [getAnomalyStats]; [{ ...stats, ...byType }] lets [byType] win. *)
Definition getAnomalyStats (anomalies : list FlightAnomaly) : gmap string nat :=
  let stats : gmap string nat :=
    <["total" := length anomalies]>
      (<["critical" := 0%nat]>
         (<["high" := 0%nat]> (<["medium" := 0%nat]> (<["low" := 0%nat]> ∅)))) in
  let (stats', byType) := fold_left countAnomaly anomalies (stats, ∅) in
  byType ∪ stats'.

(* ===================================================================== *)
(** * Response cache, backoff and the state requests ([opensky.ts]) *)
(* ===================================================================== *)

Definition CACHE_TTL_MS : Z := 15000.
Definition STALE_TTL_MS : Z := 300000.
Definition BACKOFF_SECONDS : Z := 60.

(** [getCached]: the payload and its [fresh] flag. *)
Definition getCached (key : string) : M (option (list RawAircraft * bool)) :=
  let* entry := gets (fun w => responseCache w !! key) in
  match entry with
  | None => ret None
  | Some e =>
      let* now := dateNow in
      let age := (now - timestamp e)%Z in
      if (age <? CACHE_TTL_MS)%Z then ret (Some (data e, true))
      else if (age <? STALE_TTL_MS)%Z then ret (Some (data e, false))
      else ret None
  end.

Definition setCache (key : string) (payload : list RawAircraft) : M unit :=
  let* now := dateNow in
  modify (fun w => withCache (<[key := mkCacheEntry payload now]> (responseCache w)) w).

(** [cached?.data || []]; an array is truthy even when empty. *)
Definition cachedOrEmpty (cached : option (list RawAircraft * bool)) : list RawAircraft :=
  match cached with
  | Some (payload, _) => payload
  | None => []
  end.

(** How the awaited [rateLimitedFetch] and [response.json()] end.  The
    pacing, the credentials and the single 401 retry inside
    [rateLimitedFetch] are part of the exchange and are not modelled; the
    clock reads they make are not counted. *)
Inductive Reply : Type :=
  | TooManyRequests                                      (* status 429 *)
  | NotOk (status : Z)                       (* [!response.ok], 429 apart *)
  | Ok (states : option (list (list Js.Value)))          (* [data.states] *)
  | Rejected (e : Js.Error).                             (* a rejected promise *)

(** What a call has done when it first yields. *)
Inductive Started : Type :=
  | Settled (result : list RawAircraft)   (* returned without the network *)
  | Joined                                (* returned the in-flight promise *)
  | Pending (cached : option (list RawAircraft * bool)).
                                          (* started an exchange; [cached] is captured *)

(** After a cache lookup that was not fresh: the backoff check, the
    in-flight check and the start of the exchange.  Only [getAllStates]
    reads the clock again, for its log line. *)
Definition gateOrStart (cacheKey : string) (logsRemaining : bool)
    (cached : option (list RawAircraft * bool)) : M Started :=
  let* now := dateNow in
  let* deadline := gets backoffUntil in
  if (now <? deadline)%Z
  then
    exec (if logsRemaining then exec dateNow in ret tt else ret tt) in
    ret (Settled (cachedOrEmpty cached))
  else
    let* inflight := gets (fun w => bool_decide (cacheKey ∈ inflightRequests w)) in
    if inflight then ret Joined
    else
      exec modify (fun w => withUpstreamCalls (S (upstreamCalls w)) w) in
      exec modify (fun w => withInflight ({[cacheKey]} ∪ inflightRequests w) w) in
      ret (Pending cached).

(** The synchronous prefix shared by [getAllStates] and
    [getStatesByBoundingBox]. *)
Definition statesBegin (cacheKey : string) (logsRemaining : bool) : M Started :=
  let* cached := getCached cacheKey in
  match cached with
  | Some (payload, true) => ret (Settled payload)
  | _ => gateOrStart cacheKey logsRemaining cached
  end.

(** The [try] block after the [await]. *)
Definition statesTry (cacheKey : string) (cached : option (list RawAircraft * bool))
    (reply : Reply) : M (Js.Completion (list RawAircraft)) :=
  match reply with
  | TooManyRequests =>
      let* now := dateNow in
      exec modify (withBackoff (now + BACKOFF_SECONDS * 1000)%Z) in
      ret (Js.Returns (cachedOrEmpty cached))
  | NotOk status => ret (Js.Throws (Js.PlainError "OpenSky API error"))
  | Rejected e => ret (Js.Throws e)
  | Ok None =>
      exec setCache cacheKey [] in
      ret (Js.Returns [])
  | Ok (Some states) =>
      match Js.mapC parseStateVector states with
      | Js.Returns result =>
          exec setCache cacheKey result in
          ret (Js.Returns result)
      | Js.Throws e => ret (Js.Throws e)
      end
  end.

(** The continuation: [try], [catch] (which returns [cached?.data || []])
    and [finally] (which clears the in-flight marker). *)
Definition statesResume (cacheKey : string) (cached : option (list RawAircraft * bool))
    (reply : Reply) : M (Js.Completion (list RawAircraft)) :=
  let* attempt := statesTry cacheKey cached reply in
  let outcome := Js.tryCatch attempt (fun _ => Js.Returns (cachedOrEmpty cached)) in
  exec modify (fun w => withInflight (inflightRequests w ∖ {[cacheKey]}) w) in
  ret outcome.

(** [getAllStates]. *)
Definition getAllStates_begin : M Started := statesBegin "all_states" true.
Definition getAllStates_resume := statesResume "all_states".

Record BoundingBox : Type := mkBoundingBox {
  min_lat : Q;
  max_lat : Q;
  min_lon : Q;
  max_lon : Q
}.

Definition bboxCacheKey (bbox : BoundingBox) : string :=
  "bbox_" ++ numberToString host (min_lat bbox) ++ "_"
          ++ numberToString host (max_lat bbox) ++ "_"
          ++ numberToString host (min_lon bbox) ++ "_"
          ++ numberToString host (max_lon bbox).

(** [getStatesByBoundingBox]. *)
Definition getStatesByBoundingBox_begin (bbox : BoundingBox) : M Started :=
  statesBegin (bboxCacheKey bbox) false.
Definition getStatesByBoundingBox_resume (bbox : BoundingBox) :=
  statesResume (bboxCacheKey bbox).

End Services.

(* ===================================================================== *)
(** * Flight tracks ([opensky.ts]) *)
(* ===================================================================== *)

(** [interface OpenSkyTrackResponse], as decoded from JSON: the scalar
    fields hold whatever was sent, [path] is an array of arrays. *)
Record TrackResponse : Type := mkTrackResponse {
  tr_icao24 : Js.Value;
  tr_callsign : Js.Value;
  tr_startTime : Js.Value;
  tr_endTime : Js.Value;
  tr_path : list (list Js.Value)
}.

(** What [getFlightTrack] builds at run time; the casts check nothing. *)
Record RawFlightPathPoint : Type := mkRawFlightPathPoint {
  rp_time : Js.Value;
  rp_latitude : Js.Value;
  rp_longitude : Js.Value;
  rp_baro_altitude : Js.Value;
  rp_true_track : Js.Value;
  rp_on_ground : Js.Value
}.

Record RawFlightTrack : Type := mkRawFlightTrack {
  rt_icao24 : Js.Value;
  rt_callsign : Js.Value;
  rt_startTime : Js.Value;
  rt_endTime : Js.Value;
  rt_path : list RawFlightPathPoint
}.

(** The callback of [data.path.map]. *)
Definition parseTrackPoint (point : list Js.Value) : RawFlightPathPoint :=
  {| rp_time := Js.index point 0;
     rp_latitude := Js.index point 1;
     rp_longitude := Js.index point 2;
     rp_baro_altitude := Js.index point 3;
     rp_true_track := Js.index point 4;
     rp_on_ground := Js.index point 5 |}.

(** How the awaited exchange of [getFlightTrack] ends. *)
Inductive TrackReply : Type :=
  | TrackNotOk (status : Z)            (* [!response.ok] *)
  | TrackOk (body : TrackResponse)     (* [response.json()] *)
  | TrackRejected (e : Js.Error).      (* a rejected promise, or a body
                                          whose [path] cannot be mapped *)

(** What [getFlightTrack] resolves to, given how its exchange ended; the
    [catch] logs and rethrows.  The function reads and writes none of the
    module variables modelled here; the pacing and the credentials, which
    [rateLimitedFetch] keeps, are part of the exchange. *)
Definition getFlightTrack_resume (reply : TrackReply)
  : Js.Completion (option RawFlightTrack) :=
  let attempt :=
    match reply with
    | TrackNotOk status =>
        if (status =? 404)%Z then Js.Returns None
        else Js.Throws (Js.PlainError "OpenSky API error")
    | TrackRejected e => Js.Throws e
    | TrackOk body =>
        Js.Returns (Some {| rt_icao24 := tr_icao24 body;
                            rt_callsign := tr_callsign body;
                            rt_startTime := tr_startTime body;
                            rt_endTime := tr_endTime body;
                            rt_path := map parseTrackPoint (tr_path body) |})
    end in
  Js.tryCatch attempt (fun e => Js.Throws e).

(** The typed view of a run-time track point and track. *)
Definition conformsPoint (r : RawFlightPathPoint) : option FlightPathPoint :=
  match asNumber (rp_time r), asNullableNumber (rp_latitude r),
        asNullableNumber (rp_longitude r), asNullableNumber (rp_baro_altitude r),
        asNullableNumber (rp_true_track r), asBoolean (rp_on_ground r) with
  | Some t, Some lat, Some lon, Some alt, Some trk, Some og =>
      Some (mkFlightPathPoint t lat lon alt trk og)
  | _, _, _, _, _, _ => None
  end.

Fixpoint conformsPath (rs : list RawFlightPathPoint) : option (list FlightPathPoint) :=
  match rs with
  | [] => Some []
  | r :: rest =>
      match conformsPoint r, conformsPath rest with
      | Some p, Some ps => Some (p :: ps)
      | _, _ => None
      end
  end.

Definition conformsTrack (r : RawFlightTrack) : option FlightTrack :=
  match asString (rt_icao24 r), asString (rt_callsign r),
        asNumber (rt_startTime r), asNumber (rt_endTime r),
        conformsPath (rt_path r) with
  | Some i, Some cs, Some st, Some en, Some ps =>
      Some (mkFlightTrack i cs st en ps)
  | _, _, _, _, _ => None
  end.

(* ===================================================================== *)
(** * Values of the declared types, as run-time values *)
(* ===================================================================== *)

Definition ofNullableNumber (x : option Q) : Js.Value :=
  match x with Some n => Js.Num n | None => Js.Null end.
Definition ofNullableString (x : option string) : Js.Value :=
  match x with Some s => Js.Str s | None => Js.Null end.

(** The callsign [parseStateVector] stores for a string-or-null entry:
    trimmed when truthy, [null] when the entry is [null] or empty. *)
Definition normalisedCallsign (v : Js.Value) : option string :=
  match v with
  | Js.Str s => if String.eqb s "" then None else Some (Js.trim s)
  | _ => None
  end.

(** The run-time record holds the array entries of positions 0 to 11 and
    13 to 17 as they are (position 1, the callsign, apart). *)
Definition Positional (state : list Js.Value) (raw : RawAircraft) : Prop :=
  r_icao24 raw = Js.index state 0
  /\ r_origin_country raw = Js.index state 2
  /\ r_time_position raw = Js.index state 3
  /\ r_last_contact raw = Js.index state 4
  /\ r_longitude raw = Js.index state 5
  /\ r_latitude raw = Js.index state 6
  /\ r_baro_altitude raw = Js.index state 7
  /\ r_on_ground raw = Js.index state 8
  /\ r_velocity raw = Js.index state 9
  /\ r_true_track raw = Js.index state 10
  /\ r_vertical_rate raw = Js.index state 11
  /\ r_geo_altitude raw = Js.index state 13
  /\ r_squawk raw = Js.index state 14
  /\ r_spi raw = Js.index state 15
  /\ r_position_source raw = Js.index state 16
  /\ r_category raw = Js.index state 17.

(** The aircraft state a schema-conforming array stands for. *)
Definition Corresponds (state : list Js.Value) (a : Aircraft) : Prop :=
  Js.index state 0 = Js.Str (icao24 a)
  /\ callsign a = normalisedCallsign (Js.index state 1)
  /\ Js.index state 2 = Js.Str (origin_country a)
  /\ Js.index state 3 = ofNullableNumber (time_position a)
  /\ Js.index state 4 = Js.Num (last_contact a)
  /\ Js.index state 5 = ofNullableNumber (longitude a)
  /\ Js.index state 6 = ofNullableNumber (latitude a)
  /\ Js.index state 7 = ofNullableNumber (baro_altitude a)
  /\ Js.index state 8 = Js.Bool (on_ground a)
  /\ Js.index state 9 = ofNullableNumber (velocity a)
  /\ Js.index state 10 = ofNullableNumber (true_track a)
  /\ Js.index state 11 = ofNullableNumber (vertical_rate a)
  /\ Js.index state 13 = ofNullableNumber (geo_altitude a)
  /\ Js.index state 14 = ofNullableString (squawk a)
  /\ Js.index state 15 = Js.Bool (spi a)
  /\ Js.index state 16 = Js.Num (position_source a)
  /\ Js.index state 17 = ofNullableNumber (category a).

(* ===================================================================== *)
(** * Notions used in the statements *)
(* ===================================================================== *)

Definition isEmergencySquawk (x : FlightAnomaly) : bool :=
  bool_decide (a_type x = emergency_squawk).

Definition hasSeverity (s : Severity) (x : FlightAnomaly) : bool :=
  bool_decide (severity x = s).

Definition hasType (t : AnomalyType) (x : FlightAnomaly) : bool :=
  bool_decide (a_type x = t).

(** How many anomalies of a list have a given severity, or a given type. *)
Definition countSeverity (s : Severity) (xs : list FlightAnomaly) : nat :=
  length (List.filter (hasSeverity s) xs).

Definition countType (t : AnomalyType) (xs : list FlightAnomaly) : nat :=
  length (List.filter (hasType t) xs).

(** The anomalies the aircraft of a batch emit, in the order in which they
    are accumulated: those of the first aircraft, then those of the rest
    from the state the first pass leaves. *)
Fixpoint emitted (host : Host) (aircraft : list Aircraft) (w : World)
  : list FlightAnomaly :=
  match aircraft with
  | [] => []
  | ac :: rest =>
      fst (detectAnomalies host ac w)
      ++ emitted host rest (snd (detectAnomalies host ac w))
  end.

(** The rate of the altitude-drop check as the specification words it:
    the altitude difference in feet over the time difference in minutes of
    the two most recent history samples, when both altitudes are present
    and the time difference is positive. *)
Definition historyAltitudeRate (window : list Aircraft) : option Q :=
  match rev window with
  | latest :: previous :: _ =>
      match baro_altitude latest, baro_altitude previous with
      | Some current, Some before =>
          let minutes := ((last_contact latest - last_contact previous) / 60)%Q in
          if Js.gtb minutes 0
          then Some (((current - before) * 3.281) / minutes)%Q
          else None
      | _, _ => None
      end
  | _ => None
  end.

(** [d * 2^k <= n] and [n < d * 2^k], for [k] of either sign. *)
Definition scaledLe (d k n : Z) : Prop := (d * Js.pow2 k <= n * Js.pow2 (- k))%Z.
Definition scaledLt (n k d : Z) : Prop := (n * Js.pow2 (- k) < d * Js.pow2 k)%Z.

(** The [fresh] flag of a cache lookup; a miss is not fresh. *)
Definition isFresh (cached : option (list RawAircraft * bool)) : bool :=
  match cached with
  | Some (_, fresh) => fresh
  | None => false
  end.

(* ===================================================================== *)
(** * Sample data *)
(* ===================================================================== *)

(** An upstream record. *)
Definition sampleState : list Js.Value :=
  [ Js.Str "a1b2c3"; Js.Str "UAL123  "; Js.Str "United States"; Js.Num 1700000000;
    Js.Num 1700000001; Js.Num (-122.4); Js.Num 37.6; Js.Num 3048; Js.Bool false;
    Js.Num 210.5; Js.Num 270; Js.Num (-5.2); Js.Null; Js.Num 3100;
    Js.Str "7700"; Js.Bool false; Js.Num 0; Js.Null ].

(** The decimal rendering of a number that is an integer; the hosts below
    are only asked for integers. *)
Definition renderInteger (q : Q) : string :=
  pretty (Qnum q / Zpos (Qden q))%Z.

(** Hosts whose clock advances 1 s, 30 s and 16 s per read. *)
Definition sampleHost : Host :=
  mkHost (fun n => (1700000000000 + 1000 * Z.of_nat n)%Z) (fun _ => "k3j9x0q1z")
         renderInteger.

Definition pollHost : Host :=
  mkHost (fun n => (1700000000000 + 30000 * Z.of_nat n)%Z) (fun _ => "k3j9x0q1z")
         renderInteger.

Definition raceHost : Host :=
  mkHost (fun n => (1700000000000 + 16000 * Z.of_nat n)%Z) (fun _ => "k3j9x0q1z")
         renderInteger.

(** A host whose first clock read is 1699999934380 ms, a value whose
    thousandth is not a binary64 number. *)
Definition oddHost : Host :=
  mkHost (fun n => (1699999934380 + 1000 * Z.of_nat n)%Z) (fun _ => "k3j9x0q1z")
         renderInteger.

(** The state of a process that has just started. *)
Definition emptyWorld : World := mkWorld 0 0 ∅ ∅ 0 ∅ 0.

(** An aircraft reporting squawk 7700 without a latitude. *)
Definition noFixAircraft : Aircraft :=
  {| icao24 := "a1b2c3"; callsign := None; origin_country := "";
     longitude := Some (-122.4)%Q; latitude := None; baro_altitude := None;
     geo_altitude := None; velocity := None; true_track := None;
     vertical_rate := None; on_ground := false; squawk := Some "7700";
     spi := false; position_source := 0%Q; last_contact := 1700000000%Q;
     time_position := None; category := None |}.

(** An aircraft with a fix and nothing else, but a squawk. *)
Definition squawking (code : string) : Aircraft :=
  {| icao24 := "a1b2c3"; callsign := None; origin_country := "";
     longitude := Some (-122.4)%Q; latitude := Some 37.6%Q; baro_altitude := None;
     geo_altitude := None; velocity := None; true_track := None;
     vertical_rate := None; on_ground := false; squawk := Some code;
     spi := false; position_source := 0%Q; last_contact := 1700000000%Q;
     time_position := None; category := None |}.

(** A history sample flying the given heading. *)
Definition onHeading (h : Q) : Aircraft :=
  {| icao24 := "a1b2c3"; callsign := None; origin_country := "";
     longitude := Some (-122.4)%Q; latitude := Some 37.6%Q;
     baro_altitude := Some 3000%Q; geo_altitude := None; velocity := None;
     true_track := Some h; vertical_rate := None; on_ground := false;
     squawk := None; spi := false; position_source := 0%Q;
     last_contact := 1700000000%Q; time_position := None; category := None |}.

(** An airborne aircraft at a given barometric altitude (metres), vertical
    rate (m/s) and upstream timestamp (s). *)
Definition airborne (altitude : Q) (rate : option Q) (contact : Q) : Aircraft :=
  {| icao24 := "a1b2c3"; callsign := Some "UAL123"; origin_country := "";
     longitude := Some (-122.4)%Q; latitude := Some 37.6%Q;
     baro_altitude := Some altitude; geo_altitude := None; velocity := None;
     true_track := None; vertical_rate := rate; on_ground := false;
     squawk := None; spi := false; position_source := 0%Q;
     last_contact := contact; time_position := None; category := None |}.

(** The state after a first sighting at 5000 m. *)
Definition afterFirstSighting : World :=
  snd (detectAnomalies pollHost (airborne 5000 None 1700000000) emptyWorld).

(** The state after a first sighting at 5000 m, stamped 1699999934.38. *)
Definition afterOddSighting : World :=
  snd (detectAnomalies oddHost (airborne 5000 None 1699999934) emptyWorld).

(** An airborne aircraft at 4000 m with the given ground speed (m/s). *)
Definition cruising (speed : Q) : Aircraft :=
  {| icao24 := "a1b2c3"; callsign := Some "UAL123"; origin_country := "";
     longitude := Some (-122.4)%Q; latitude := Some 37.6%Q;
     baro_altitude := Some 4000%Q; geo_altitude := None; velocity := Some speed;
     true_track := None; vertical_rate := None; on_ground := false;
     squawk := None; spi := false; position_source := 0%Q;
     last_contact := 1700000000%Q; time_position := None; category := None |}.

(** A batch of three: a slow high flyer (low), a squawk 7700 (critical),
    a fast one squawking 7600 (critical and medium). *)
Definition sampleBatch : list Aircraft :=
  [ {| icao24 := "aaaaaa"; callsign := None; origin_country := "";
       longitude := Some 1%Q; latitude := Some 1%Q; baro_altitude := Some 4000%Q;
       geo_altitude := None; velocity := Some 30%Q; true_track := None;
       vertical_rate := None; on_ground := false; squawk := None;
       spi := false; position_source := 0%Q; last_contact := 1700000000%Q;
       time_position := None; category := None |};
    squawking "7700";
    {| icao24 := "cccccc"; callsign := None; origin_country := "";
       longitude := Some 1%Q; latitude := Some 1%Q; baro_altitude := None;
       geo_altitude := None; velocity := Some 400%Q; true_track := None;
       vertical_rate := None; on_ground := false; squawk := Some "7600";
       spi := false; position_source := 0%Q; last_contact := 1700000000%Q;
       time_position := None; category := None |} ].

(** A bounding box around San Francisco. *)
Definition bayArea : BoundingBox :=
  {| min_lat := 37; max_lat := 38; min_lon := -123; max_lon := -122 |}.

(** An interleaving of two calls.  [getAllStates] starts an exchange; a
    bounding-box call starts another and is answered 429; then the first
    exchange succeeds; later [getAllStates] is called again. *)
Definition race1 : Started * World := getAllStates_begin raceHost emptyWorld.
Definition race2 : Started * World :=
  getStatesByBoundingBox_begin raceHost bayArea (snd race1).
Definition race3 : Js.Completion (list RawAircraft) * World :=
  getStatesByBoundingBox_resume raceHost bayArea None TooManyRequests (snd race2).
Definition race4 : Js.Completion (list RawAircraft) * World :=
  getAllStates_resume raceHost None (Ok (Some [sampleState])) (snd race3).
Definition race5 : Started * World := getAllStates_begin raceHost (snd race4).

(** The payload parsed from the one-record response. *)
Definition samplePayload : list RawAircraft :=
  match parseStateVector sampleState with
  | Js.Returns raw => [raw]
  | Js.Throws _ => []
  end.

(** What a call that started an exchange captured from the cache. *)
Definition capturedOf (started : Started) : option (list RawAircraft * bool) :=
  match started with
  | Pending cached => cached
  | _ => None
  end.

(** A cached payload that goes stale.  The first [getAllStates] exchange
    succeeds and is cached at 16 s; a second call, at 32 s, finds the entry
    stale, starts an exchange and is answered 429 at 64 s; a third call
    follows at 80 s. *)
Definition stale1 : Started * World := getAllStates_begin raceHost emptyWorld.
Definition stale2 : Js.Completion (list RawAircraft) * World :=
  getAllStates_resume raceHost None (Ok (Some [sampleState])) (snd stale1).
Definition stale3 : Started * World := getAllStates_begin raceHost (snd stale2).
Definition stale4 : Js.Completion (list RawAircraft) * World :=
  getAllStates_resume raceHost (capturedOf (fst stale3)) TooManyRequests (snd stale3).
Definition stale5 : Started * World := getAllStates_begin raceHost (snd stale4).

(** The same cached payload, and a bounding-box exchange answered 429 at
    48 s. *)
Definition crossed1 : Started * World :=
  getStatesByBoundingBox_begin raceHost bayArea (snd stale2).
Definition crossed2 : Js.Completion (list RawAircraft) * World :=
  getStatesByBoundingBox_resume raceHost bayArea None TooManyRequests (snd crossed1).

(** The state right after a 429 answered the first call of a fresh
    process. *)
Definition throttledWorld : World :=
  snd (getAllStates_resume sampleHost None TooManyRequests
         (snd (getAllStates_begin sampleHost emptyWorld))).

(* ===================================================================== *)
(** * Notions used in the further properties *)
(* ===================================================================== *)



(** Twenty-one samples turning by 90 degrees each. *)
Definition orbiting : list Aircraft :=
  map (fun k => onHeading (inject_Z (90 * (Z.of_nat k mod 4))))
      (seq 0 21).



Definition orbitWorld : World :=
  withHistory {[ "a1b2c3" := orbiting ]} emptyWorld.

(** The severities each anomaly type is reported with; the two reserved
    types are never reported. *)
Definition severityFits (x : FlightAnomaly) : Prop :=
  match a_type x with
  | emergency_squawk => severity x = critical
  | rapid_descent | altitude_drop => severity x = high
  | holding_pattern | go_around => severity x = medium
  | unusual_speed => severity x = medium \/ severity x = low
  | route_deviation | diversion => False
  end.

(** What the detection service never touches: the state of the client. *)
Definition clientUntouched (w w' : World) : Prop :=
  responseCache w' = responseCache w
  /\ backoffUntil w' = backoffUntil w
  /\ inflightRequests w' = inflightRequests w
  /\ upstreamCalls w' = upstreamCalls w.

(** A track of three points, the second without a position. *)
Definition sampleTrack : FlightTrack :=
  {| t_icao24 := "a1b2c3"; t_callsign := "UAL123";
     startTime := 1700000000; endTime := 1700000120;
     path := [ mkFlightPathPoint 1700000000 (Some 37.6%Q) (Some (-122.4)%Q)
                 (Some 3000%Q) (Some 90%Q) false;
               mkFlightPathPoint 1700000060 None None None None false;
               mkFlightPathPoint 1700000120 (Some 37.7%Q) (Some (-122.3)%Q)
                 (Some 1000%Q) (Some 95%Q) false ] |}.

(** Stamps never decrease along a window. *)
Definition stampsAscend (history : list Aircraft) : Prop :=
  StronglySorted (fun a b => (last_contact a <= last_contact b)%Q) history.

(** A record whose callsign entry is a non-zero number. *)
Definition badCallsignState : list Js.Value :=
  [ Js.Str "d4e5f6"; Js.Num 7; Js.Str "France" ].

(** A list of characters does not start with white space; a string has
    none at either end. *)
Definition noLeadingSpace (cs : list ascii) : Prop :=
  match cs with
  | c :: _ => Js.is_space c = false
  | [] => True
  end.

Definition edgeFree (s : string) : Prop :=
  noLeadingSpace (list_ascii_of_string s)
  /\ noLeadingSpace (rev (list_ascii_of_string s)).

(** The array the upstream sends for an aircraft state, without sensors. *)
Definition encodeStateVector (a : Aircraft) : list Js.Value :=
  [ Js.Str (icao24 a); ofNullableString (callsign a); Js.Str (origin_country a);
    ofNullableNumber (time_position a); Js.Num (last_contact a);
    ofNullableNumber (longitude a); ofNullableNumber (latitude a);
    ofNullableNumber (baro_altitude a); Js.Bool (on_ground a);
    ofNullableNumber (velocity a); ofNullableNumber (true_track a);
    ofNullableNumber (vertical_rate a); Js.Null;
    ofNullableNumber (geo_altitude a); ofNullableString (squawk a);
    Js.Bool (spi a); Js.Num (position_source a);
    ofNullableNumber (category a) ].

(** [{ ...aircraft, callsign: c }]. *)
Definition withCallsign (a : Aircraft) (c : option string) : Aircraft :=
  mkAircraft (icao24 a) c (origin_country a) (longitude a) (latitude a)
             (baro_altitude a) (geo_altitude a) (velocity a) (true_track a)
             (vertical_rate a) (on_ground a) (squawk a) (spi a)
             (position_source a) (last_contact a) (time_position a) (category a).

(** The arrays the upstream sends for a track point and for a track. *)
Definition encodeTrackPoint (p : FlightPathPoint) : list Js.Value :=
  [ Js.Num (p_time p); ofNullableNumber (p_latitude p);
    ofNullableNumber (p_longitude p); ofNullableNumber (p_baro_altitude p);
    ofNullableNumber (p_true_track p); Js.Bool (p_on_ground p) ].

Definition encodeTrack (t : FlightTrack) : TrackResponse :=
  {| tr_icao24 := Js.Str (t_icao24 t);
     tr_callsign := Js.Str (t_callsign t);
     tr_startTime := Js.Num (startTime t);
     tr_endTime := Js.Num (endTime t);
     tr_path := map encodeTrackPoint (path t) |}.

(* ===================================================================== *)
(** * Verification *)
(* ===================================================================== *)

(** ** Numbers *)

Lemma ltb_spec (x y : Q) : Js.ltb x y = true <-> (x < y)%Q.
Proof.
  unfold Js.ltb. rewrite negb_true_iff, <- not_true_iff_false, Qle_bool_iff.
  split; [apply Qnot_le_lt | apply Qlt_not_le].
Qed.

Lemma ltb_false (x y : Q) : Js.ltb x y = false <-> (y <= x)%Q.
Proof.
  unfold Js.ltb. rewrite negb_false_iff. apply Qle_bool_iff.
Qed.

Lemma gtb_spec (x y : Q) : Js.gtb x y = true <-> (y < x)%Q.
Proof. apply ltb_spec. Qed.


(** ** Binary64 *)

(** The rounding at work: decimals that are no binary64 numbers, ties
    going to the even significand, the largest finite number and the
    overflow past it, the least subnormal number and the underflow below
    it, and the special cases of the operations. *)
Lemma binary64_samples :
  Js.toNumber 0.1 = Js.Finite (3602879701896397 # 36028797018963968)
  /\ Js.toNumber 1.944 = Js.Finite (2188749418902061 # 1125899906842624)
  /\ Js.toNumber 1699999934.38 = Js.Finite (1782579131192443 # 1048576)
  /\ Js.add (Js.toNumber 0.1) (Js.toNumber 0.2)
     = Js.Finite (1351079888211149 # 4503599627370496)
  /\ Js.toNumber (inject_Z (2 ^ 53 + 1)) = Js.Finite (inject_Z (2 ^ 53))
  /\ Js.toNumber (inject_Z (2 ^ 53 + 3)) = Js.Finite (inject_Z (2 ^ 53 + 4))
  /\ Js.toNumber (inject_Z ((2 ^ 53 - 1) * 2 ^ 971))
     = Js.Finite (inject_Z ((2 ^ 53 - 1) * 2 ^ 971))
  /\ Js.toNumber (inject_Z (2 ^ 1024 - 2 ^ 970 - 1))
     = Js.Finite (inject_Z ((2 ^ 53 - 1) * 2 ^ 971))
  /\ Js.toNumber (inject_Z (2 ^ 1024 - 2 ^ 970)) = Js.PosInfinity
  /\ Js.toNumber (- inject_Z (2 ^ 1024)) = Js.NegInfinity
  /\ Js.toNumber (3 # 2 ^ 1076) = Js.Finite (1 # 2 ^ 1074)
  /\ Js.toNumber (1 # 2 ^ 1075) = Js.Finite 0
  /\ Js.sub Js.PosInfinity Js.PosInfinity = Js.NaN
  /\ Js.mul Js.PosInfinity (Js.Finite 0) = Js.NaN
  /\ Js.div Js.NegInfinity Js.PosInfinity = Js.NaN
  /\ Js.lt Js.NaN Js.NaN = false
  /\ Js.gt Js.PosInfinity (Js.Finite 600) = true.
Proof. repeat split; vm_compute; reflexivity. Qed.

Section Rounding.

Local Open Scope Z_scope.

Lemma pow2_nonneg k : 0 <= k -> Js.pow2 k = 2 ^ k.
Proof. intros H. unfold Js.pow2. rewrite Z.max_r by exact H. reflexivity. Qed.

Lemma pow2_nonpos k : k <= 0 -> Js.pow2 k = 1.
Proof. intros H. unfold Js.pow2. rewrite Z.max_l by exact H. reflexivity. Qed.

Lemma pow2_pos k : 0 < Js.pow2 k.
Proof. unfold Js.pow2. apply Z.pow_pos_nonneg; lia. Qed.

Lemma pow2_succ k : 0 <= k -> Js.pow2 (k + 1) = 2 * Js.pow2 k.
Proof.
  intros H. rewrite !pow2_nonneg by lia. rewrite Z.pow_add_r by lia. lia.
Qed.

Lemma scaledLe_pred d k n : 0 < d -> 0 < n -> scaledLe d k n -> scaledLe d (k - 1) n.
Proof.
  unfold scaledLe. intros Hd Hn H.
  destruct (Z_le_gt_dec k 0) as [Hk|Hk].
  - rewrite (pow2_nonpos (k - 1)) by lia. rewrite (pow2_nonpos k) in H by lia.
    replace (- (k - 1)) with (- k + 1) by lia.
    rewrite pow2_succ by lia. pose proof (pow2_pos (- k)). nia.
  - rewrite (pow2_nonpos (- (k - 1))) by lia. rewrite (pow2_nonpos (- k)) in H by lia.
    replace k with ((k - 1) + 1) in H by lia.
    rewrite pow2_succ in H by lia. pose proof (pow2_pos (k - 1)). nia.
Qed.

Lemma scaledLe_le d j k n : 0 < d -> 0 < n -> j <= k -> scaledLe d k n -> scaledLe d j n.
Proof.
  intros Hd Hn Hjk H.
  replace j with (k - Z.of_nat (Z.to_nat (k - j))) by lia.
  induction (Z.to_nat (k - j)) as [|m IH].
  - replace (k - Z.of_nat 0) with k by lia. exact H.
  - replace (k - Z.of_nat (S m)) with (k - Z.of_nat m - 1) by lia.
    apply scaledLe_pred; assumption.
Qed.

Lemma scaledLt_succ n k d : 0 < d -> 0 < n -> scaledLt n k d -> scaledLt n (k + 1) d.
Proof.
  unfold scaledLt. intros Hd Hn H.
  destruct (Z_lt_ge_dec k 0) as [Hk|Hk].
  - rewrite (pow2_nonpos (k + 1)) by lia. rewrite (pow2_nonpos k) in H by lia.
    replace (- k) with (- (k + 1) + 1) in H by lia.
    rewrite pow2_succ in H by lia. pose proof (pow2_pos (- (k + 1))). nia.
  - rewrite (pow2_nonpos (- (k + 1))) by lia. rewrite (pow2_nonpos (- k)) in H by lia.
    rewrite pow2_succ by lia. pose proof (pow2_pos k). nia.
Qed.

Lemma scaledLt_le n j k d : 0 < d -> 0 < n -> j <= k -> scaledLt n j d -> scaledLt n k d.
Proof.
  intros Hd Hn Hjk H.
  replace k with (j + Z.of_nat (Z.to_nat (k - j))) by lia.
  induction (Z.to_nat (k - j)) as [|m IH].
  - replace (j + Z.of_nat 0) with j by lia. exact H.
  - replace (j + Z.of_nat (S m)) with (j + Z.of_nat m + 1) by lia.
    apply scaledLt_succ; assumption.
Qed.

Lemma log2_scaledLe (n : positive) : scaledLe 1 (Z.log2 (Zpos n)) (Zpos n).
Proof.
  unfold scaledLe. pose proof (Z.log2_nonneg (Zpos n)).
  rewrite pow2_nonneg by lia. rewrite pow2_nonpos by lia.
  pose proof (Z.log2_spec (Zpos n) ltac:(lia)). lia.
Qed.

(** The bounds of [floorLog2]: [2^L <= n/d < 2^(L+1)]. *)
Lemma floorLog2_lower n d :
  scaledLe (Zpos d) (Js.floorLog2 n d) (Zpos n).
Proof.
  unfold Js.floorLog2. cbv zeta.
  set (k := Z.log2 (Zpos n) - Z.log2 (Zpos d)).
  destruct (Zpos d * Js.pow2 k <=? Zpos n * Js.pow2 (- k)) eqn:T.
  - apply Z.leb_le in T. exact T.
  - (* d < 2^(ld+1), 2^ln <= n *)
    pose proof (Z.log2_spec (Zpos n) ltac:(lia)) as [Ln _].
    pose proof (Z.log2_spec (Zpos d) ltac:(lia)) as [_ Ld].
    pose proof (Z.log2_nonneg (Zpos n)) as Nn.
    pose proof (Z.log2_nonneg (Zpos d)) as Nd.
    unfold scaledLe.
    destruct (Z_le_gt_dec 1 k) as [Hk|Hk].
    + rewrite (pow2_nonneg (k - 1)) by lia. rewrite pow2_nonpos by lia.
      assert (E : 2 ^ Z.log2 (Zpos n) = 2 ^ (k - 1) * 2 ^ Z.succ (Z.log2 (Zpos d))).
      { rewrite <- Z.pow_add_r by lia. f_equal. unfold k. lia. }
      pose proof (Z.pow_pos_nonneg 2 (k - 1) ltac:(lia) ltac:(lia)). nia.
    + rewrite (pow2_nonpos (k - 1)) by lia. rewrite pow2_nonneg by lia.
      assert (E : 2 ^ Z.succ (Z.log2 (Zpos d)) = 2 ^ Z.log2 (Zpos n) * 2 ^ (- (k - 1))).
      { rewrite <- Z.pow_add_r by lia. f_equal. unfold k. lia. }
      pose proof (Z.pow_pos_nonneg 2 (- (k - 1)) ltac:(lia) ltac:(lia)). nia.
Qed.

Lemma floorLog2_upper n d :
  scaledLt (Zpos n) (Js.floorLog2 n d + 1) (Zpos d).
Proof.
  unfold Js.floorLog2. cbv zeta.
  set (k := Z.log2 (Zpos n) - Z.log2 (Zpos d)).
  destruct (Zpos d * Js.pow2 k <=? Zpos n * Js.pow2 (- k)) eqn:T.
  - pose proof (Z.log2_spec (Zpos n) ltac:(lia)) as [_ Ln].
    pose proof (Z.log2_spec (Zpos d) ltac:(lia)) as [Ld _].
    pose proof (Z.log2_nonneg (Zpos n)) as Nn.
    pose proof (Z.log2_nonneg (Zpos d)) as Nd.
    unfold scaledLt.
    destruct (Z_le_gt_dec 0 (k + 1)) as [Hk|Hk].
    + rewrite (pow2_nonneg (k + 1)) by lia. rewrite pow2_nonpos by lia.
      assert (E : 2 ^ Z.succ (Z.log2 (Zpos n)) = 2 ^ (k + 1) * 2 ^ Z.log2 (Zpos d)).
      { rewrite <- Z.pow_add_r by lia. f_equal. unfold k. lia. }
      pose proof (Z.pow_pos_nonneg 2 (k + 1) ltac:(lia) ltac:(lia)). nia.
    + rewrite (pow2_nonpos (k + 1)) by lia. rewrite pow2_nonneg by lia.
      assert (E : 2 ^ Z.log2 (Zpos d) = 2 ^ Z.succ (Z.log2 (Zpos n)) * 2 ^ (- (k + 1))).
      { rewrite <- Z.pow_add_r by lia. f_equal. unfold k. lia. }
      pose proof (Z.pow_pos_nonneg 2 (- (k + 1)) ltac:(lia) ltac:(lia)). nia.
  - apply Z.leb_gt in T. replace (k - 1 + 1) with k by lia. exact T.
Qed.

(** Rounding to an integer keeps to the side of an integer bound. *)
Lemma roundHalfEven_le n d k : 0 < d -> n <= k * d -> Js.roundHalfEven n d <= k.
Proof.
  intros Hd H. unfold Js.roundHalfEven. cbv zeta.
  pose proof (Z.div_mod n d ltac:(lia)) as E.
  pose proof (Z.mod_pos_bound n d Hd) as R.
  assert (Q : n / d <= k) by nia.
  destruct (Z.eq_dec (n / d) k) as [Ek|Nk].
  - assert (n mod d = 0) by nia.
    replace (2 * (n mod d) ?= d) with Lt by (symmetry; apply Z.compare_lt_iff; lia).
    lia.
  - destruct (2 * (n mod d) ?= d); [destruct (Z.even (n / d))| |]; lia.
Qed.

Lemma roundHalfEven_ge n d k : 0 < d -> k * d <= n -> k <= Js.roundHalfEven n d.
Proof.
  intros Hd H. unfold Js.roundHalfEven. cbv zeta.
  pose proof (Z.div_mod n d ltac:(lia)) as E.
  pose proof (Z.mod_pos_bound n d Hd) as R.
  assert (Q : k <= n / d) by nia.
  destruct (2 * (n mod d) ?= d); [destruct (Z.even (n / d))| |]; lia.
Qed.

Lemma scaled_value_le m e B :
  e <= 0 -> m <= B * Js.pow2 (- e) ->
  (Qred (Qmake (m * Js.pow2 e) (Z.to_pos (Js.pow2 (- e)))) <= inject_Z B)%Q.
Proof.
  intros He H. rewrite Qred_correct. unfold Qle. cbn [Qnum Qden inject_Z].
  rewrite Z2Pos.id by apply pow2_pos. rewrite (pow2_nonpos e) by exact He. lia.
Qed.

Lemma scaled_value_ge m e B :
  e <= 0 -> B * Js.pow2 (- e) <= m ->
  (inject_Z B <= Qred (Qmake (m * Js.pow2 e) (Z.to_pos (Js.pow2 (- e)))))%Q.
Proof.
  intros He H. rewrite Qred_correct. unfold Qle. cbn [Qnum Qden inject_Z].
  rewrite Z2Pos.id by apply pow2_pos. rewrite (pow2_nonpos e) by exact He. lia.
Qed.

Lemma scaled_value_ge_pos m e B :
  0 <= e -> B <= m * Js.pow2 e ->
  (inject_Z B <= Qred (Qmake (m * Js.pow2 e) (Z.to_pos (Js.pow2 (- e)))))%Q.
Proof.
  intros He H. rewrite Qred_correct. unfold Qle. cbn [Qnum Qden inject_Z].
  rewrite Z2Pos.id by apply pow2_pos. rewrite (pow2_nonpos (- e)) by lia. lia.
Qed.

(** The significand is at most [2^53]. *)
Lemma significand_le n d :
  let e := Z.max (Js.floorLog2 n d - 52) (-1074) in
  Js.roundHalfEven (Zpos n * Js.pow2 (- e)) (Zpos d * Js.pow2 e) <= 2 ^ 53.
Proof.
  intros e. pose proof (pow2_pos e) as Pe. pose proof (pow2_pos (- e)) as Pne.
  apply roundHalfEven_le; [nia|].
  pose proof (floorLog2_upper n d) as U.
  apply (scaledLt_le _ _ (e + 53)) in U; [|lia|lia|lia].
  unfold scaledLt in U.
  destruct (Z_le_gt_dec 0 e) as [He|He].
  - rewrite (pow2_nonpos (- e)) by lia. rewrite (pow2_nonneg e) by lia.
    rewrite (pow2_nonpos (- (e + 53))) in U by lia.
    rewrite (pow2_nonneg (e + 53)) in U by lia.
    rewrite Z.pow_add_r in U by lia. lia.
  - rewrite (pow2_nonpos e) by lia. rewrite (pow2_nonneg (- e)) by lia.
    destruct (Z_le_gt_dec 0 (e + 53)) as [Hs|Hs].
    + rewrite (pow2_nonpos (- (e + 53))) in U by lia.
      rewrite (pow2_nonneg (e + 53)) in U by lia.
      assert (E : 2 ^ 53 = 2 ^ (e + 53) * 2 ^ (- e))
        by (rewrite <- Z.pow_add_r by lia; f_equal; lia).
      pose proof (Z.pow_pos_nonneg 2 (- e) ltac:(lia) ltac:(lia)).
      rewrite E. nia.
    + rewrite (pow2_nonneg (- (e + 53))) in U by lia.
      rewrite (pow2_nonpos (e + 53)) in U by lia.
      assert (E : 2 ^ (- e) = 2 ^ (- (e + 53)) * 2 ^ 53)
        by (rewrite <- Z.pow_add_r by lia; f_equal; lia).
      rewrite E. nia.
Qed.

(** A magnitude at most an integer below [2^53] rounds to at most that
    integer, and does not overflow. *)
Lemma roundMagnitude_le n d B :
  0 < B < 2 ^ 53 -> Zpos n <= B * Zpos d ->
  exists r, Js.roundMagnitude n d = Some r /\ (r <= inject_Z B)%Q.
Proof.
  intros HB H. unfold Js.roundMagnitude. cbv zeta.
  set (e := Z.max (Js.floorLog2 n d - 52) (-1074)).
  assert (He : e <= 0).
  { destruct (Z_le_gt_dec (Js.floorLog2 n d) 52) as [|Hl]; [lia|]. exfalso.
    pose proof (floorLog2_lower n d) as Lo.
    apply (scaledLe_le _ 53) in Lo; [|lia|lia|lia].
    unfold scaledLe in Lo. rewrite pow2_nonneg, pow2_nonpos in Lo by lia. nia. }
  pose proof (significand_le n d) as S. cbv zeta in S. fold e in S.
  set (m := Js.roundHalfEven (Zpos n * Js.pow2 (- e)) (Zpos d * Js.pow2 e)) in *.
  assert (Hm : m <= B * Js.pow2 (- e)).
  { apply roundHalfEven_le.
    - pose proof (pow2_pos e). nia.
    - rewrite (pow2_nonpos e) by exact He. pose proof (pow2_pos (- e)). nia. }
  assert (T : (2 ^ 1024 <=? m * Js.pow2 e) = false).
  { apply Z.leb_gt. rewrite (pow2_nonpos e) by exact He.
    assert (2 ^ 53 < 2 ^ 1024) by (apply Z.pow_lt_mono_r; lia). lia. }
  rewrite T. eexists. split; [reflexivity|].
  apply scaled_value_le; assumption.
Qed.

(** A magnitude at least an integer below [2^53] rounds to at least that
    integer, when it does not overflow. *)
Lemma roundMagnitude_ge n d B :
  0 <= B < 2 ^ 53 -> B * Zpos d <= Zpos n ->
  match Js.roundMagnitude n d with
  | Some r => (inject_Z B <= r)%Q
  | None => True
  end.
Proof.
  intros HB H. unfold Js.roundMagnitude. cbv zeta.
  set (e := Z.max (Js.floorLog2 n d - 52) (-1074)).
  set (m := Js.roundHalfEven (Zpos n * Js.pow2 (- e)) (Zpos d * Js.pow2 e)).
  destruct (2 ^ 1024 <=? m * Js.pow2 e); [exact I|].
  destruct (Z_le_gt_dec e 0) as [He|He].
  - apply scaled_value_ge; [exact He|].
    apply roundHalfEven_ge.
    + pose proof (pow2_pos e). nia.
    + rewrite (pow2_nonpos e) by exact He. pose proof (pow2_pos (- e)). nia.
  - apply scaled_value_ge_pos; [lia|].
    assert (Hm : 2 ^ 52 <= m).
    { apply roundHalfEven_ge.
      - pose proof (pow2_pos e). nia.
      - pose proof (floorLog2_lower n d) as Lo.
        apply (scaledLe_le _ (e + 52)) in Lo; [|lia|lia|lia].
        unfold scaledLe in Lo.
        rewrite (pow2_nonneg (e + 52)), (pow2_nonpos (- (e + 52))) in Lo by lia.
        rewrite (pow2_nonpos (- e)), (pow2_nonneg e) by lia.
        rewrite Z.pow_add_r in Lo by lia. lia. }
    rewrite (pow2_nonneg e) by lia.
    assert (2 ^ 1 <= 2 ^ e) by (apply Z.pow_le_mono_r; lia).
    assert (2 ^ 53 = 2 ^ 52 * 2 ^ 1) by reflexivity. nia.
Qed.

(** Rounding keeps to the side of an integer threshold of magnitude below
    [2^53]. *)
Lemma toNumber_le q B :
  - 2 ^ 53 < B < 2 ^ 53 -> (q <= inject_Z B)%Q ->
  Js.lt (Js.Finite (inject_Z B)) (Js.toNumber q) = false.
Proof.
  intros HB H. unfold Js.toNumber. destruct q as [num den].
  unfold Qle in H. cbn [Qnum Qden inject_Z] in *.
  destruct num as [|n|n].
  - cbn. unfold Js.ltb. apply negb_false_iff, Qle_bool_iff.
    unfold Qle. cbn. lia.
  - destruct (roundMagnitude_le n den B) as (r & E & R); [lia|lia|].
    rewrite E. cbn. unfold Js.ltb. apply negb_false_iff, Qle_bool_iff. exact R.
  - destruct (Js.roundMagnitude n den) as [r|] eqn:E; [|reflexivity].
    cbn. unfold Js.ltb. apply negb_false_iff, Qle_bool_iff.
    rewrite Qred_correct.
    pose proof (roundMagnitude_ge n den (Z.max 0 (- B))) as G.
    rewrite E in G.
    assert (K : (inject_Z (Z.max 0 (- B)) <= r)%Q) by (apply G; lia).
    assert (M : (inject_Z (- B) <= inject_Z (Z.max 0 (- B)))%Q)
      by (rewrite <- Zle_Qle; lia).
    rewrite inject_Z_opp in M. lra.
Qed.

Lemma toNumber_ge q B :
  - 2 ^ 53 < B < 2 ^ 53 -> (inject_Z B <= q)%Q ->
  Js.lt (Js.toNumber q) (Js.Finite (inject_Z B)) = false.
Proof.
  intros HB H. unfold Js.toNumber. destruct q as [num den].
  unfold Qle in H. cbn [Qnum Qden inject_Z] in *.
  destruct num as [|n|n].
  - cbn. unfold Js.ltb. apply negb_false_iff, Qle_bool_iff.
    unfold Qle. cbn. lia.
  - destruct (Js.roundMagnitude n den) as [r|] eqn:E; [|reflexivity].
    cbn. unfold Js.ltb. apply negb_false_iff, Qle_bool_iff.
    pose proof (roundMagnitude_ge n den (Z.max 0 B)) as G.
    rewrite E in G.
    assert (K : (inject_Z (Z.max 0 B) <= r)%Q) by (apply G; lia).
    assert (M : (inject_Z B <= inject_Z (Z.max 0 B))%Q)
      by (rewrite <- Zle_Qle; lia).
    lra.
  - destruct (roundMagnitude_le n den (- B)) as (r & E & R); [lia|lia|].
    rewrite E. cbn. unfold Js.ltb. apply negb_false_iff, Qle_bool_iff.
    rewrite Qred_correct. rewrite inject_Z_opp in R. lra.
Qed.

End Rounding.

(** A computed number beyond an integer threshold comes from a rational
    beyond it. *)
Lemma gt_threshold q B :
  (- 2 ^ 53 < B < 2 ^ 53)%Z ->
  Js.gt (Js.toNumber q) (Js.Finite (inject_Z B)) = true -> (inject_Z B < q)%Q.
Proof.
  intros HB H. destruct (Qlt_le_dec (inject_Z B) q) as [|L]; [assumption|].
  unfold Js.gt in H. rewrite (toNumber_le q B HB L) in H. discriminate H.
Qed.

Lemma lt_threshold q B :
  (- 2 ^ 53 < B < 2 ^ 53)%Z ->
  Js.lt (Js.toNumber q) (Js.Finite (inject_Z B)) = true -> (q < inject_Z B)%Q.
Proof.
  intros HB H. destruct (Qlt_le_dec q (inject_Z B)) as [|L]; [assumption|].
  rewrite (toNumber_ge q B HB L) in H. discriminate H.
Qed.



(** The thresholds and the zero of the detectors are binary64 numbers. *)
Lemma toNumber_thresholds :
  Js.toNumber 0 = Js.Finite 0
  /\ Js.toNumber UNUSUALLY_SLOW_KTS = Js.Finite 80
  /\ Js.toNumber UNUSUALLY_FAST_KTS = Js.Finite 600
  /\ Js.toNumber 3000 = Js.Finite 3000
  /\ Js.toNumber RAPID_ALTITUDE_DROP_FT_PER_MIN = Js.Finite (-3000)
  /\ Js.toNumber CRITICAL_VERTICAL_RATE_FPM = Js.Finite (-4000).
Proof. repeat split; vm_compute; reflexivity. Qed.

Lemma lt_finite a b : Js.lt (Js.Finite a) (Js.Finite b) = true <-> (a < b)%Q.
Proof. apply ltb_spec. Qed.

(** A number below 80 is not above 600. *)
Lemma slow_not_fast x :
  Js.lt x (Js.toNumber UNUSUALLY_SLOW_KTS) = true ->
  Js.gt x (Js.toNumber UNUSUALLY_FAST_KTS) = false.
Proof.
  destruct toNumber_thresholds as (_ & -> & -> & _).
  destruct x as [a| | |]; cbn; try reflexivity; try discriminate.
  intros H. apply ltb_spec in H. apply ltb_false. lra.
Qed.

(** A number above 3000 is truthy. *)
Lemma above_3000_truthy x :
  Js.gt x (Js.toNumber 3000) = true -> Js.truthyNumber x = true.
Proof.
  destruct toNumber_thresholds as (_ & _ & _ & -> & _).
  destruct x as [a| | |]; cbn; try reflexivity; try discriminate.
  intros H. apply ltb_spec in H. apply negb_true_iff, not_true_iff_false.
  unfold Js.is_zero. intros E. apply Qeq_bool_iff in E. rewrite E in H. lra.
Qed.

(** ** State-vector normaliser *)

Lemma isString_inv v : isString v = true -> exists s, v = Js.Str s.
Proof. destruct v; try discriminate. eauto. Qed.

Lemma isNumber_inv v : isNumber v = true -> exists n, v = Js.Num n.
Proof. destruct v; try discriminate. eauto. Qed.

Lemma isBoolean_inv v : isBoolean v = true -> exists b, v = Js.Bool b.
Proof. destruct v; try discriminate. eauto. Qed.

Lemma nullableNumber_inv v :
  isNumber v || isNull v = true -> exists o, v = ofNullableNumber o.
Proof.
  destruct v; try discriminate; intros _;
    [exists None | eexists (Some _)]; reflexivity.
Qed.

Lemma nullableString_inv v :
  isString v || isNull v = true -> exists o, v = ofNullableString o.
Proof.
  destruct v; try discriminate; intros _;
    [exists None | eexists (Some _)]; reflexivity.
Qed.

Lemma asNullableNumber_of o : asNullableNumber (ofNullableNumber o) = Some o.
Proof. destruct o; reflexivity. Qed.

Lemma asNullableString_of o : asNullableString (ofNullableString o) = Some o.
Proof. destruct o; reflexivity. Qed.

(** A string-or-null entry never makes [.trim()] fail. *)
Lemma parseCallsign_nullableString o :
  parseCallsign (ofNullableString o)
  = Js.Returns (ofNullableString (normalisedCallsign (ofNullableString o))).
Proof.
  destruct o as [s|]; [|reflexivity].
  unfold parseCallsign, normalisedCallsign. simpl.
  destruct (String.eqb s ""); reflexivity.
Qed.

(** The shape of a record that matches the schema. *)
Lemma matchesSchema_inv state :
  matchesSchema state = true ->
  exists i cs oc tp lc lon lat ba og v trk vr sensors ga sq sp ps cat,
    state = [ Js.Str i; ofNullableString cs; Js.Str oc; ofNullableNumber tp;
              Js.Num lc; ofNullableNumber lon; ofNullableNumber lat;
              ofNullableNumber ba; Js.Bool og; ofNullableNumber v;
              ofNullableNumber trk; ofNullableNumber vr; sensors;
              ofNullableNumber ga; ofNullableString sq; Js.Bool sp;
              Js.Num ps; ofNullableNumber cat ].
Proof.
  unfold matchesSchema, stateVectorSchema. intros H.
  do 18 (destruct state as [|? state];
         [cbn [matchesFields] in H;
          repeat (apply andb_prop in H as [_ H]); discriminate H|]).
  destruct state;
    [|cbn [matchesFields] in H;
      repeat (apply andb_prop in H as [_ H]); discriminate H].
  cbn [matchesFields] in H.
  repeat match type of H with
         | _ && _ = true => let H1 := fresh "F" in apply andb_prop in H as [H1 H]
         end.
  apply isString_inv in F as [? ->].
  apply nullableString_inv in F0 as [? ->].
  apply isString_inv in F1 as [? ->].
  apply nullableNumber_inv in F2 as [? ->].
  apply isNumber_inv in F3 as [? ->].
  apply nullableNumber_inv in F4 as [? ->].
  apply nullableNumber_inv in F5 as [? ->].
  apply nullableNumber_inv in F6 as [? ->].
  apply isBoolean_inv in F7 as [? ->].
  apply nullableNumber_inv in F8 as [? ->].
  apply nullableNumber_inv in F9 as [? ->].
  apply nullableNumber_inv in F10 as [? ->].
  apply nullableNumber_inv in F12 as [? ->].
  apply nullableString_inv in F13 as [? ->].
  apply isBoolean_inv in F14 as [? ->].
  apply isNumber_inv in F15 as [? ->].
  apply nullableNumber_inv in F16 as [? ->].
  repeat eexists.
Qed.

Lemma parseStateVector_returns state :
  (Js.truthy (Js.index state 1) = true -> isString (Js.index state 1) = true) ->
  exists raw,
    parseStateVector state = Js.Returns raw
    /\ Positional state raw
    /\ r_callsign raw = ofNullableString (normalisedCallsign (Js.index state 1)).
Proof.
  intros Hcs. unfold parseStateVector, parseCallsign, normalisedCallsign.
  destruct (Js.truthy (Js.index state 1)) eqn:T.
  - destruct (isString_inv _ (Hcs eq_refl)) as [s E]. rewrite E in *.
    cbn [Js.bindC]. cbn [Js.truthy] in T.
    destruct (String.eqb s "") eqn:Es; [discriminate T|].
    eexists. split; [reflexivity|]. split; [|reflexivity].
    unfold Positional. cbn. tauto.
  - cbn [Js.bindC]. eexists. split; [reflexivity|]. split.
    + unfold Positional. cbn. tauto.
    + cbn [r_callsign]. destruct (Js.index state 1) as [| |b|n|s|xs];
        try reflexivity.
      cbn [Js.truthy] in T. apply negb_false_iff in T. rewrite T. reflexivity.
Qed.

Lemma parseStateVector_on_schema state :
  matchesSchema state = true ->
  exists raw a,
    parseStateVector state = Js.Returns raw
    /\ conforms raw = Some a /\ Corresponds state a.
Proof.
  intros H.
  destruct (matchesSchema_inv _ H)
    as (i & cs & oc & tp & lc & lon & lat & ba & og & v & trk & vr & sensors
        & ga & sq & sp & ps & cat & ->).
  unfold parseStateVector. cbn [Js.index nth].
  rewrite parseCallsign_nullableString. cbn [Js.bindC].
  eexists. eexists. split; [reflexivity|]. split.
  - unfold conforms. cbn -[asNullableNumber asNullableString normalisedCallsign].
    rewrite !asNullableNumber_of, !asNullableString_of. reflexivity.
  - unfold Corresponds. cbn -[normalisedCallsign]. tauto.
Qed.

Lemma parseStateVector_throws state e :
  parseStateVector state = Js.Throws e ->
  (exists msg, e = Js.TypeError msg)
  /\ Js.truthy (Js.index state 1) = true
  /\ isString (Js.index state 1) = false.
Proof.
  unfold parseStateVector, parseCallsign.
  destruct (Js.index state 1) as [| |b|n|s|xs]; cbn;
    try discriminate.
  - destruct b; cbn; [|discriminate]. intros [= <-]. eauto.
  - destruct (negb (Js.is_zero n)); cbn; [|discriminate]. intros [= <-]. eauto.
  - destruct (negb (s =? "")%string); discriminate.
  - intros [= <-]. eauto.
Qed.

(** C1, as stated, fails: a one-field record whose only entry is a number
    does not match the 18-field schema, yet [parseStateVector] returns
    normally, with a record that is no [Aircraft]. *)
Lemma parseStateVector_accepts_malformed :
  matchesSchema [Js.Num 42] = false
  /\ exists raw,
       parseStateVector [Js.Num 42] = Js.Returns raw
       /\ r_icao24 raw = Js.Num 42
       /\ r_latitude raw = Js.Undefined
       /\ conforms raw = None.
Proof.
  split; [reflexivity|]. eexists. split; [reflexivity|]. cbn. auto.
Qed.

(** C1, amended.  [parseStateVector] validates nothing.  For every raw
    record, of any length and with any entries, whose entry at position 1
    is falsy or a string, it returns the record of the entries at
    positions 0 to 11 and 13 to 17, unchanged (a missing position reads
    [undefined]), with the callsign trimmed, or [null] when falsy.  For every record that matches the 18-field schema it
    returns a record that is the corresponding [Aircraft], with the
    callsign trimmed, and [null] when it was [null] or empty.  Its only
    failure is the [TypeError] of [.trim()] on a truthy entry at position 1
    that is not a string. *)
Theorem parseStateVector_unvalidated :
  forall state,
    ((Js.truthy (Js.index state 1) = true -> isString (Js.index state 1) = true) ->
     exists raw,
       parseStateVector state = Js.Returns raw
       /\ Positional state raw
       /\ r_callsign raw
          = ofNullableString (normalisedCallsign (Js.index state 1)))
    /\ (matchesSchema state = true ->
        exists raw a, parseStateVector state = Js.Returns raw
                      /\ conforms raw = Some a /\ Corresponds state a)
    /\ (forall e, parseStateVector state = Js.Throws e ->
        (exists msg, e = Js.TypeError msg)
        /\ Js.truthy (Js.index state 1) = true
        /\ isString (Js.index state 1) = false).
Proof.
  intros state. split; [|split].
  - apply parseStateVector_returns.
  - apply parseStateVector_on_schema.
  - apply parseStateVector_throws.
Qed.

Lemma parseStateVector_unvalidated_witness :
  matchesSchema sampleState = true
  /\ exists raw a, parseStateVector sampleState = Js.Returns raw
                   /\ conforms raw = Some a /\ Corresponds sampleState a.
Proof.
  split; [reflexivity|].
  apply (proj1 (proj2 (parseStateVector_unvalidated sampleState))).
  reflexivity.
Defined.

(** ** Monadic steps *)

Ltac unfold_monad :=
  cbv beta iota zeta delta
    [bind ret gets modify getHistory dateNow mathRandom generateAnomalyId
     anomalyRecord] in *.

Ltac break_match :=
  match goal with
  | |- context [match ?e with _ => _ end] => destruct e eqn:?
  | |- context [if ?e then _ else _] => destruct e eqn:?
  end.

(** A detector's report has the type and the severity it was asked for. *)
Lemma anomalyRecord_eq host aircraft ty sev d w :
  exists x w',
    anomalyRecord host aircraft ty sev d w = (Some x, w')
    /\ a_type x = ty /\ severity x = sev
    /\ flight_icao24 x = icao24 aircraft /\ details x = d
    /\ aircraftHistory w' = aircraftHistory w.
Proof. unfold_monad. cbn. eexists. eexists. repeat split. Qed.

(** ** Aircraft without a position *)

Ltac solve_detector_frame :=
  intros; unfold_monad; cbv beta;
  repeat break_match; reflexivity.

Lemma detectEmergencySquawk_frame host aircraft w :
  aircraftHistory (snd (detectEmergencySquawk host aircraft w)) = aircraftHistory w.
Proof. unfold detectEmergencySquawk. solve_detector_frame. Qed.

Lemma detectAltitudeAnomaly_frame host aircraft w :
  aircraftHistory (snd (detectAltitudeAnomaly host aircraft w)) = aircraftHistory w.
Proof. unfold detectAltitudeAnomaly. solve_detector_frame. Qed.

Lemma detectHoldingPattern_frame host aircraft w :
  aircraftHistory (snd (detectHoldingPattern host aircraft w)) = aircraftHistory w.
Proof. unfold detectHoldingPattern. solve_detector_frame. Qed.

Lemma detectSpeedAnomaly_frame host aircraft w :
  aircraftHistory (snd (detectSpeedAnomaly host aircraft w)) = aircraftHistory w.
Proof. unfold detectSpeedAnomaly. solve_detector_frame. Qed.

Lemma detectGoAround_frame host aircraft w :
  aircraftHistory (snd (detectGoAround host aircraft w)) = aircraftHistory w.
Proof. unfold detectGoAround. solve_detector_frame. Qed.

(** The detectors read the history and never write it. *)
Lemma runDetectors_frame host aircraft anomalies w :
  aircraftHistory (snd (runDetectors (detectors host) aircraft anomalies w))
  = aircraftHistory w.
Proof.
  unfold detectors. cbn [runDetectors]. unfold bind, ret.
  pose proof (detectEmergencySquawk_frame host aircraft w) as F1.
  destruct (detectEmergencySquawk host aircraft w) as [o1 w1].
  pose proof (detectAltitudeAnomaly_frame host aircraft w1) as F2.
  destruct (detectAltitudeAnomaly host aircraft w1) as [o2 w2].
  pose proof (detectHoldingPattern_frame host aircraft w2) as F3.
  destruct (detectHoldingPattern host aircraft w2) as [o3 w3].
  pose proof (detectSpeedAnomaly_frame host aircraft w3) as F4.
  destruct (detectSpeedAnomaly host aircraft w3) as [o4 w4].
  pose proof (detectGoAround_frame host aircraft w4) as F5.
  destruct (detectGoAround host aircraft w4) as [o5 w5].
  cbn [snd] in *. congruence.
Qed.

(** C2.  An aircraft whose latitude or longitude is [null] yields no
    anomaly and leaves the whole state, the history windows included, as it
    was, whatever its other fields are (a squawk of 7700 as well); a track
    point without a latitude or longitude is skipped by
    [analyzeFlightTrack] in the same way.  With both coordinates present
    the history after the pass is the one [addToHistory] leaves. *)
Theorem no_position_no_detection host w :
  (forall aircraft,
      latitude aircraft = None \/ longitude aircraft = None ->
      detectAnomalies host aircraft w = ([], w)
      /\ aircraftHistory (snd (detectAnomalies host aircraft w)) = aircraftHistory w)
  /\ (forall track point rest anomalies,
         p_latitude point = None \/ p_longitude point = None ->
         analyzePoints host track (point :: rest) anomalies w
         = analyzePoints host track rest anomalies w)
  /\ (forall aircraft lat lon,
         latitude aircraft = Some lat ->
         longitude aircraft = Some lon ->
         aircraftHistory (snd (detectAnomalies host aircraft w))
         = aircraftHistory (snd (addToHistory host aircraft w))).
Proof.
  split; [|split].
  - intros aircraft H. unfold detectAnomalies.
    destruct H as [-> | ->]; [|destruct (latitude aircraft)]; split; reflexivity.
  - intros track point rest anomalies H. cbn [analyzePoints].
    destruct H as [-> | ->]; [|destruct (p_latitude point)]; reflexivity.
  - intros aircraft lat lon Hlat Hlon. unfold detectAnomalies.
    rewrite Hlat, Hlon. unfold bind at 1.
    destruct (addToHistory host aircraft w) as [[] w1]. cbn [snd].
    apply runDetectors_frame.
Qed.

Lemma no_position_no_detection_witness :
  detectAnomalies sampleHost noFixAircraft emptyWorld = ([], emptyWorld).
Proof.
  apply (proj1 (no_position_no_detection sampleHost emptyWorld) noFixAircraft).
  left. reflexivity.
Defined.

(** ** Emergency squawk *)

Ltac solve_detector_type :=
  intros * H; unfold_monad;
  repeat (first [ discriminate H
                | progress cbn [fst snd] in H
                | match type of H with
                  | context [match ?e with _ => _ end] => destruct e eqn:?
                  end
                | injection H as <- <-; cbn; intuition congruence ]).

Lemma detectAltitudeAnomaly_type host aircraft w x w' :
  detectAltitudeAnomaly host aircraft w = (Some x, w') ->
  (a_type x = rapid_descent \/ a_type x = altitude_drop) /\ severity x = high.
Proof. unfold detectAltitudeAnomaly. solve_detector_type. Qed.

Lemma detectHoldingPattern_type host aircraft w x w' :
  detectHoldingPattern host aircraft w = (Some x, w') ->
  a_type x = holding_pattern /\ severity x = medium.
Proof. unfold detectHoldingPattern. solve_detector_type. Qed.

Lemma detectSpeedAnomaly_type host aircraft w x w' :
  detectSpeedAnomaly host aircraft w = (Some x, w') ->
  a_type x = unusual_speed /\ (severity x = medium \/ severity x = low).
Proof. unfold detectSpeedAnomaly. solve_detector_type. Qed.

Lemma detectGoAround_type host aircraft w x w' :
  detectGoAround host aircraft w = (Some x, w') ->
  a_type x = go_around /\ severity x = medium.
Proof. unfold detectGoAround. solve_detector_type. Qed.

Lemma detectEmergencySquawk_type host aircraft w x w' :
  detectEmergencySquawk host aircraft w = (Some x, w') ->
  a_type x = emergency_squawk /\ severity x = critical.
Proof. unfold detectEmergencySquawk. solve_detector_type. Qed.

Lemma isEmergencySquawk_false x :
  a_type x <> emergency_squawk -> isEmergencySquawk x = false.
Proof. intros H. unfold isEmergencySquawk. apply bool_decide_eq_false. exact H. Qed.

Lemma isEmergencySquawk_true x :
  a_type x = emergency_squawk -> isEmergencySquawk x = true.
Proof. intros H. unfold isEmergencySquawk. apply bool_decide_eq_true. exact H. Qed.

(** Of the five detectors only the first reports an emergency squawk: the
    emergency-squawk anomalies of one pass are the report of
    [detectEmergencySquawk], run on the state [addToHistory] leaves. *)
Lemma detectAnomalies_emergency host aircraft w lat lon :
  latitude aircraft = Some lat ->
  longitude aircraft = Some lon ->
  List.filter isEmergencySquawk (fst (detectAnomalies host aircraft w))
  = match fst (detectEmergencySquawk host aircraft
                 (snd (addToHistory host aircraft w))) with
    | Some x => [x]
    | None => []
    end.
Proof.
  intros Hlat Hlon. unfold detectAnomalies. rewrite Hlat, Hlon.
  unfold bind at 1. destruct (addToHistory host aircraft w) as [[] w1].
  cbn [snd detectors runDetectors]. unfold bind, ret.
  destruct (detectEmergencySquawk host aircraft w1) as [o1 w2] eqn:E1.
  destruct (detectAltitudeAnomaly host aircraft w2) as [o2 w3] eqn:E2.
  destruct (detectHoldingPattern host aircraft w3) as [o3 w4] eqn:E3.
  destruct (detectSpeedAnomaly host aircraft w4) as [o4 w5] eqn:E4.
  destruct (detectGoAround host aircraft w5) as [o5 w6] eqn:E5.
  cbn [fst].
  assert (F2 : forall x, o2 = Some x -> isEmergencySquawk x = false).
  { intros x ->. apply isEmergencySquawk_false.
    destruct (detectAltitudeAnomaly_type _ _ _ _ _ E2) as [[T|T] _];
      rewrite T; discriminate. }
  assert (F3 : forall x, o3 = Some x -> isEmergencySquawk x = false).
  { intros x ->. apply isEmergencySquawk_false.
    destruct (detectHoldingPattern_type _ _ _ _ _ E3) as [T _].
    rewrite T; discriminate. }
  assert (F4 : forall x, o4 = Some x -> isEmergencySquawk x = false).
  { intros x ->. apply isEmergencySquawk_false.
    destruct (detectSpeedAnomaly_type _ _ _ _ _ E4) as [T _].
    rewrite T; discriminate. }
  assert (F5 : forall x, o5 = Some x -> isEmergencySquawk x = false).
  { intros x ->. apply isEmergencySquawk_false.
    destruct (detectGoAround_type _ _ _ _ _ E5) as [T _].
    rewrite T; discriminate. }
  assert (F1 : forall x, o1 = Some x -> isEmergencySquawk x = true).
  { intros x ->. apply isEmergencySquawk_true.
    apply (detectEmergencySquawk_type _ _ _ _ _ E1). }
  destruct o1 as [x1|], o2 as [x2|], o3 as [x3|], o4 as [x4|], o5 as [x5|];
    cbn [app List.filter];
    repeat match goal with
           | H : forall x, Some ?y = Some x -> _ |- _ =>
               let E := fresh in pose proof (H y eq_refl) as E; rewrite E; clear H
           | H : forall x, None = Some x -> _ |- _ => clear H
           end;
    reflexivity.
Qed.

(** The reserved codes are reported, as critical. *)
Lemma detectEmergencySquawk_reserved host aircraft w code :
  squawk aircraft = Some code ->
  code = "7500" \/ code = "7600" \/ code = "7700" ->
  exists x w',
    detectEmergencySquawk host aircraft w = (Some x, w')
    /\ a_type x = emergency_squawk /\ severity x = critical.
Proof.
  intros Hsq Hcode. unfold detectEmergencySquawk. rewrite Hsq.
  assert (P : exists v, getProperty EMERGENCY_SQUAWKS code = Some (OwnValue v)
                        /\ (v =? "")%string = false).
  { destruct Hcode as [-> | [-> | ->]]; eexists; split;
      vm_compute; reflexivity. }
  destruct P as (v & -> & V).
  assert (N : (code =? "")%string = false)
    by (destruct Hcode as [-> | [-> | ->]]; reflexivity).
  rewrite N. cbn [truthyProperty]. rewrite V. cbn [negb].
  destruct (anomalyRecord_eq host aircraft emergency_squawk critical
              (SquawkDetails code (OwnValue v)) w)
    as (x & w' & E & T & S & _).
  rewrite E. eauto.
Qed.

(** A code that is neither in the table nor the name of a property of
    [Object.prototype] is not reported; nor is a missing squawk. *)
Lemma detectEmergencySquawk_other host aircraft w :
  match squawk aircraft with
  | Some code => getProperty EMERGENCY_SQUAWKS code = None
  | None => True
  end ->
  detectEmergencySquawk host aircraft w = (None, w).
Proof.
  unfold detectEmergencySquawk. destruct (squawk aircraft) as [code|]; [|reflexivity].
  intros ->. destruct (code =? "")%string; reflexivity.
Qed.

(** The positive half of C3: with a fix and squawk 7500, 7600 or 7700, one
    pass yields exactly one emergency-squawk anomaly, and it is critical;
    no other field and no history is needed. *)
Lemma reserved_squawk_yields_one_critical host aircraft w lat lon code :
  latitude aircraft = Some lat ->
  longitude aircraft = Some lon ->
  squawk aircraft = Some code ->
  code = "7500" \/ code = "7600" \/ code = "7700" ->
  exists x,
    List.filter isEmergencySquawk (fst (detectAnomalies host aircraft w)) = [x]
    /\ a_type x = emergency_squawk /\ severity x = critical.
Proof.
  intros Hlat Hlon Hsq Hcode.
  rewrite (detectAnomalies_emergency _ _ _ _ _ Hlat Hlon).
  destruct (detectEmergencySquawk_reserved host aircraft
              (snd (addToHistory host aircraft w)) code Hsq Hcode)
    as (x & w' & E & T & S).
  rewrite E. exists x. auto.
Qed.

(** C3 fails on the code at squawk ["toString"]: the table is read with
    [EMERGENCY_SQUAWKS[aircraft.squawk]], which also finds the properties
    every object inherits from [Object.prototype], so a squawk that is
    none of 7500, 7600, 7700 yields a critical emergency-squawk anomaly. *)
Theorem inherited_key_reported_as_emergency :
  EMERGENCY_SQUAWKS !! "toString" = None
  /\ exists x,
       List.filter isEmergencySquawk
         (fst (detectAnomalies sampleHost (squawking "toString") emptyWorld)) = [x]
       /\ a_type x = emergency_squawk
       /\ severity x = critical
       /\ details x = SquawkDetails "toString" (Inherited "toString").
Proof.
  split; [reflexivity|]. eexists. split; [vm_compute; reflexivity|].
  repeat split.
Qed.

(** ** History store *)

Lemma retention_seconds : (HISTORY_RETENTION_MS / 1000 == 1800)%Q.
Proof. reflexivity. Qed.

Lemma countTrim_length history : (length (countTrim history) <= HISTORY_MAX_SIZE)%nat.
Proof.
  unfold countTrim. destruct (HISTORY_MAX_SIZE <? length history)%nat eqn:E.
  - apply Nat.ltb_lt in E. rewrite length_skipn. lia.
  - apply Nat.ltb_ge in E. exact E.
Qed.

(** The count trim keeps a suffix: it drops oldest entries only. *)
Lemma countTrim_suffix history :
  exists dropped, history = dropped ++ countTrim history.
Proof.
  unfold countTrim. destruct (HISTORY_MAX_SIZE <? length history)%nat.
  - exists (firstn (length history - HISTORY_MAX_SIZE) history).
    symmetry. apply firstn_skipn.
  - exists []. reflexivity.
Qed.

Lemma countTrim_Forall (P : Aircraft -> Prop) history :
  Forall P history -> Forall P (countTrim history).
Proof.
  intros H. destruct (countTrim_suffix history) as [dropped E].
  rewrite E in H. apply Forall_app in H. tauto.
Qed.

Lemma ageTrim_Forall cutoff history :
  Forall (fun e => (cutoff < last_contact e)%Q) (ageTrim cutoff history).
Proof.
  unfold ageTrim. apply List.Forall_forall. intros e He.
  apply List.filter_In in He as [_ He]. apply gtb_spec in He. exact He.
Qed.

Lemma addToHistory_eq host aircraft w :
  addToHistory host aircraft w
  = (tt,
     withHistory
       (<[icao24 aircraft :=
            countTrim
              (ageTrim (seconds (wallClock host (S (ticks w)))
                        - HISTORY_RETENTION_MS / 1000)%Q
                 (default [] (aircraftHistory w !! icao24 aircraft)
                  ++ [stamped aircraft (seconds (wallClock host (ticks w)))]))]>
          (aircraftHistory w))
       (withTicks (S (S (ticks w))) w)).
Proof. reflexivity. Qed.

(** C4.  After [addToHistory], whatever the window held before and
    whatever state is inserted, the aircraft's window is the count trim of
    the age trim of the old window with the new entry appended; it has at
    most 100 entries, and every entry is younger than 30 minutes (1800 s)
    at the time of the trim. *)
Theorem addToHistory_window_bounded host aircraft w :
  let pushedAt := seconds (wallClock host (ticks w)) in
  let trimmedAt := seconds (wallClock host (S (ticks w))) in
  let cutoffTime := (trimmedAt - HISTORY_RETENTION_MS / 1000)%Q in
  let before := default [] (aircraftHistory w !! icao24 aircraft) in
  exists window,
    aircraftHistory (snd (addToHistory host aircraft w)) !! icao24 aircraft
    = Some window
    /\ window = countTrim (ageTrim cutoffTime (before ++ [stamped aircraft pushedAt]))
    /\ (exists dropped,
           ageTrim cutoffTime (before ++ [stamped aircraft pushedAt])
           = dropped ++ window)
    /\ (length window <= 100)%nat
    /\ Forall (fun e => (trimmedAt - last_contact e < 1800)%Q) window.
Proof.
  intros pushedAt trimmedAt cutoffTime before.
  rewrite addToHistory_eq. cbn [snd withHistory aircraftHistory].
  rewrite lookup_insert_eq. eexists. split; [reflexivity|].
  fold pushedAt trimmedAt cutoffTime before.
  split; [reflexivity|]. split; [apply countTrim_suffix|].
  split; [apply countTrim_length|].
  apply countTrim_Forall.
  eapply List.Forall_impl; [|apply ageTrim_Forall].
  intros e He. cbv beta in He. unfold cutoffTime in He.
  rewrite retention_seconds in He. lra.
Qed.


Lemma addToHistory_window_bounded_witness :
  exists window,
    aircraftHistory (snd (addToHistory sampleHost (squawking "7700") emptyWorld))
      !! "a1b2c3" = Some window
    /\ (length window <= 100)%nat.
Proof.
  destruct (addToHistory_window_bounded sampleHost (squawking "7700") emptyWorld)
    as (window & E & _ & _ & L & _).
  exists window. split; [exact E | exact L].
Defined.

(** ** Holding pattern: heading deltas *)











(** ** Altitude drop *)


(** With a [null] vertical rate the detector returns before the history
    check: the same fall from 5000 m to 1000 m is not reported. *)
Lemma history_check_not_reached_without_vertical_rate :
  exists window r,
    aircraftHistory
      (snd (detectAnomalies pollHost (airborne 1000 None 1700000060)
              afterFirstSighting)) !! "a1b2c3" = Some window
    /\ historyAltitudeRate window = Some r
    /\ (r < -3000)%Q
    /\ fst (detectAnomalies pollHost (airborne 1000 None 1700000060)
              afterFirstSighting) = [].
Proof.
  eexists. eexists.
  split; [vm_compute; reflexivity|].
  split; [vm_compute; reflexivity|].
  split; [reflexivity|].
  vm_compute. reflexivity.
Qed.

(** What [detectAltitudeAnomaly] returns when the instantaneous check has
    passed without a report: the outcome of the history check. *)
Lemma detectAltitudeAnomaly_history host aircraft w vr :
  on_ground aircraft = false ->
  vertical_rate aircraft = Some vr ->
  Js.lt (verticalRateFpm vr) (Js.toNumber CRITICAL_VERTICAL_RATE_FPM) = false ->
  detectAltitudeAnomaly host aircraft w
  = let history := default [] (aircraftHistory w !! icao24 aircraft) in
    match (2 <=? length history)%nat, baro_altitude aircraft,
          nth_error history (length history - 2) with
    | true, Some current, Some previousState =>
        match baro_altitude previousState with
        | Some previous =>
            if Js.gt (timeChange aircraft previousState) (Js.toNumber 0)
               && Js.lt (rateOfChange aircraft previousState current previous)
                        (Js.toNumber RAPID_ALTITUDE_DROP_FT_PER_MIN)
            then anomalyRecord host aircraft altitude_drop high
                   (AltitudeDropDetails
                      (altitudeChange current previous)
                      (rateOfChange aircraft previousState current previous)
                      (Js.mul (Js.toNumber previous) (Js.toNumber 3.281))
                      (Js.mul (Js.toNumber current) (Js.toNumber 3.281))) w
            else (None, w)
        | None => (None, w)
        end
    | _, _, _ => (None, w)
    end.
Proof.
  intros G V C. unfold detectAltitudeAnomaly. rewrite G, V, C.
  unfold bind, getHistory, gets, ret. cbv zeta.
  repeat break_match; try reflexivity; try discriminate.
Qed.


(** The rate is the one the run time computes, not the quotient of the
    decimals.  A first sighting at 5000 m is stamped 1699999934.38, which
    is not a binary64 number; the aircraft is then seen at 4000 m with
    [last_contact] 1700000000.  Of the decimals, 3281 ft are lost in
    65.62 s, exactly 3000 ft/min, not more; computed, the time is a little
    shorter and the rate a little below -3000, and the pass reports an
    altitude drop. *)
Lemma altitude_drop_rate_is_computed :
  exists previousState stamp x,
    nth_error
      (default []
         (aircraftHistory
            (snd (addToHistory oddHost (airborne 4000 (Some (-1)%Q) 1700000000)
                    afterOddSighting)) !! "a1b2c3")) 0 = Some previousState
    /\ last_contact previousState = stamp
    /\ (stamp == 1699999934.38)%Q
    /\ ((4000 - 5000) * 3.281 / ((1700000000 - stamp) / 60) == -3000)%Q
    /\ Js.lt (rateOfChange (airborne 4000 (Some (-1)%Q) 1700000000) previousState
                4000 5000) (Js.toNumber (-3000)) = true
    /\ fst (detectAnomalies oddHost (airborne 4000 (Some (-1)%Q) 1700000000)
              afterOddSighting) = [x]
    /\ a_type x = altitude_drop.
Proof.
  eexists. eexists. eexists.
  split; [vm_compute; reflexivity|].
  split; [reflexivity|].
  split; [reflexivity|].
  split; [reflexivity|].
  split; [vm_compute; reflexivity|].
  split; [vm_compute; reflexivity|].
  reflexivity.
Qed.



(** ** Sorting by a rank *)

Section SortByRank.

Context {A : Type} (rank : A -> Z) (compare : A -> A -> Z).
Hypothesis compare_rank : forall x y, compare x y = (rank x - rank y)%Z.

Lemma sortInsert_perm x sorted :
  Permutation (sortInsert compare x sorted) (x :: sorted).
Proof.
  induction sorted as [|y rest IH]; cbn [sortInsert]; [reflexivity|].
  destruct (0 <? compare x y)%Z; [|reflexivity].
  rewrite IH. apply perm_swap.
Qed.

Lemma arraySort_perm xs : Permutation (arraySort compare xs) xs.
Proof.
  induction xs as [|x rest IH]; cbn [arraySort]; [reflexivity|].
  rewrite sortInsert_perm. apply perm_skip. exact IH.
Qed.

Lemma sortInsert_Forall (P : A -> Prop) x sorted :
  P x -> Forall P sorted -> Forall P (sortInsert compare x sorted).
Proof.
  intros Hx Hs. eapply Permutation_Forall.
  - symmetry. apply sortInsert_perm.
  - constructor; assumption.
Qed.

Lemma sortInsert_sorted x sorted :
  StronglySorted (fun x y => (rank x <= rank y)%Z) sorted ->
  StronglySorted (fun x y => (rank x <= rank y)%Z) (sortInsert compare x sorted).
Proof.
  induction 1 as [|y rest Hs IH Hy]; cbn [sortInsert].
  - constructor; constructor.
  - rewrite compare_rank. destruct (0 <? rank x - rank y)%Z eqn:E.
    + apply Z.ltb_lt in E. constructor; [exact IH|].
      apply sortInsert_Forall; [lia | exact Hy].
    + apply Z.ltb_ge in E. constructor; [constructor; assumption|].
      constructor; [lia|].
      eapply List.Forall_impl; [|exact Hy].
      intros z Hz. cbv beta in Hz. lia.
Qed.

Lemma arraySort_sorted xs : StronglySorted (fun x y => (rank x <= rank y)%Z) (arraySort compare xs).
Proof.
  induction xs as [|x rest IH]; cbn [arraySort]; [constructor|].
  apply sortInsert_sorted. exact IH.
Qed.

(** Elements of one rank keep their order: inserting [x] only moves it
    past elements of a strictly smaller rank. *)
Lemma sortInsert_stable k x sorted :
  List.filter (fun y => (rank y =? k)%Z) (sortInsert compare x sorted)
  = List.filter (fun y => (rank y =? k)%Z) (x :: sorted).
Proof.
  induction sorted as [|y rest IH]; cbn [sortInsert]; [reflexivity|].
  rewrite compare_rank. destruct (0 <? rank x - rank y)%Z eqn:E; [|reflexivity].
  apply Z.ltb_lt in E. cbn [List.filter] in *.
  destruct (rank y =? k)%Z eqn:Ey, (rank x =? k)%Z eqn:Ex;
    rewrite IH; try reflexivity.
  apply Z.eqb_eq in Ey, Ex. lia.
Qed.

Lemma arraySort_stable k xs :
  List.filter (fun y => (rank y =? k)%Z) (arraySort compare xs)
  = List.filter (fun y => (rank y =? k)%Z) xs.
Proof.
  induction xs as [|x rest IH]; cbn [arraySort]; [reflexivity|].
  rewrite sortInsert_stable. cbn [List.filter]. rewrite IH. reflexivity.
Qed.

End SortByRank.

(** ** Batch detection *)

Lemma detectEach_emitted host aircraft allAnomalies w :
  fst (detectEach host aircraft allAnomalies w)
  = allAnomalies ++ emitted host aircraft w.
Proof.
  revert allAnomalies w.
  induction aircraft as [|ac rest IH]; intros allAnomalies w; cbn [detectEach emitted].
  - unfold ret. cbn. rewrite app_nil_r. reflexivity.
  - unfold bind. destruct (detectAnomalies host ac w) as [anomalies w'].
    rewrite IH. cbn [fst snd]. rewrite app_assoc. reflexivity.
Qed.

Lemma hasSeverity_rank s x :
  hasSeverity s x = (severityOrder (severity x) =? severityOrder s)%Z.
Proof.
  unfold hasSeverity. destruct (severity x), s; reflexivity.
Qed.

Lemma filter_hasSeverity s xs :
  List.filter (hasSeverity s) xs
  = List.filter (fun y => (severityOrder (severity y) =? severityOrder s)%Z) xs.
Proof.
  induction xs as [|x rest IH]; cbn [List.filter]; [reflexivity|].
  rewrite hasSeverity_rank, IH. reflexivity.
Qed.

(** C9.  For every list of aircraft, [detectAnomaliesBatch] returns a
    rearrangement of all the anomalies the aircraft emit, ordered by
    severity with critical first, then high, medium and low; anomalies of
    one severity stay in the order in which they were accumulated. *)
Theorem detectAnomaliesBatch_sorted_stable host aircraft w :
  let result := fst (detectAnomaliesBatch host aircraft w) in
  Permutation result (emitted host aircraft w)
  /\ StronglySorted
       (fun a b => (severityOrder (severity a) <= severityOrder (severity b))%Z)
       result
  /\ (severityOrder critical < severityOrder high < severityOrder medium
      /\ severityOrder medium < severityOrder low)%Z
  /\ forall s,
       List.filter (hasSeverity s) result
       = List.filter (hasSeverity s) (emitted host aircraft w).
Proof.
  intros result.
  assert (E : result = arraySort bySeverity (emitted host aircraft w)).
  { unfold result, detectAnomaliesBatch, bind, ret.
    pose proof (detectEach_emitted host aircraft [] w) as D.
    destruct (detectEach host aircraft [] w) as [allAnomalies w'].
    cbn [fst] in *. rewrite D. reflexivity. }
  rewrite E.
  split; [|split; [|split]].
  - apply arraySort_perm.
  - apply (arraySort_sorted (fun x => severityOrder (severity x))). reflexivity.
  - cbn. lia.
  - intros s. rewrite !filter_hasSeverity.
    apply (arraySort_stable (fun x => severityOrder (severity x))). reflexivity.
Qed.

Lemma detectAnomaliesBatch_sorted_stable_witness :
  map severity (fst (detectAnomaliesBatch sampleHost sampleBatch emptyWorld))
  = [critical; critical; medium; low]
  /\ List.filter (hasSeverity critical)
       (fst (detectAnomaliesBatch sampleHost sampleBatch emptyWorld))
     = List.filter (hasSeverity critical) (emitted sampleHost sampleBatch emptyWorld).
Proof.
  split; [vm_compute; reflexivity|].
  apply (detectAnomaliesBatch_sorted_stable sampleHost sampleBatch emptyWorld).
Defined.


(** ** Statistics *)

Lemma typeKey_inj t1 t2 : typeKey t1 = typeKey t2 -> t1 = t2.
Proof. destruct t1, t2; intros H; try reflexivity; discriminate H. Qed.

Lemma severityKey_inj s1 s2 : severityKey s1 = severityKey s2 -> s1 = s2.
Proof. destruct s1, s2; intros H; try reflexivity; discriminate H. Qed.

Lemma typeKey_not_severityKey t s : typeKey t <> severityKey s.
Proof. destruct t, s; discriminate. Qed.

Lemma typeKey_not_total t : typeKey t <> "total".
Proof. destruct t; discriminate. Qed.

Lemma severityKey_not_total s : severityKey s <> "total".
Proof. destruct s; discriminate. Qed.

Lemma increment_lookup_same key (stats : gmap string nat) n :
  stats !! key = Some n -> increment key stats !! key = Some (S n).
Proof. intros H. unfold increment. rewrite H. apply lookup_insert_eq. Qed.

Lemma increment_lookup_other key key' (stats : gmap string nat) :
  key <> key' -> increment key stats !! key' = stats !! key'.
Proof.
  intros H. unfold increment. destruct (stats !! key); [|reflexivity].
  apply lookup_insert_ne. exact H.
Qed.

Lemma countSeverity_cons s x xs :
  countSeverity s (x :: xs)
  = ((if hasSeverity s x then 1 else 0) + countSeverity s xs)%nat.
Proof.
  unfold countSeverity. cbn [List.filter]. destruct (hasSeverity s x); reflexivity.
Qed.

Lemma countType_cons t x xs :
  countType t (x :: xs) = ((if hasType t x then 1 else 0) + countType t xs)%nat.
Proof.
  unfold countType. cbn [List.filter]. destruct (hasType t x); reflexivity.
Qed.

Lemma countSeverity_total xs :
  (countSeverity critical xs + countSeverity high xs
   + countSeverity medium xs + countSeverity low xs)%nat = length xs.
Proof.
  induction xs as [|x rest IH]; [reflexivity|].
  rewrite !countSeverity_cons. cbn [length]. unfold hasSeverity.
  destruct (severity x); repeat case_bool_decide; try congruence; lia.
Qed.

(** The loop of [getAnomalyStats], from any pair of tables. *)
Lemma countAnomaly_fold anomalies :
  forall stats byType : gmap string nat,
    let result := fold_left countAnomaly anomalies (stats, byType) in
    (forall s n, stats !! severityKey s = Some n ->
                 fst result !! severityKey s = Some (n + countSeverity s anomalies)%nat)
    /\ (forall k, (forall s, k <> severityKey s) -> fst result !! k = stats !! k)
    /\ (forall t, default 0%nat (snd result !! typeKey t)
                  = (default 0 (byType !! typeKey t) + countType t anomalies)%nat)
    /\ (forall t, snd result !! typeKey t = None ->
                  byType !! typeKey t = None /\ countType t anomalies = 0%nat)
    /\ (forall k, (forall t, k <> typeKey t) -> snd result !! k = byType !! k)
    /\ ((forall k, byType !! k <> Some 0%nat) ->
        forall k, snd result !! k <> Some 0%nat).
Proof.
  induction anomalies as [|x rest IH]; intros stats byType result.
  - unfold result. cbn [fold_left fst snd].
    split; [|split; [|split; [|split; [|split]]]]; auto;
      intros; unfold countSeverity, countType; cbn; rewrite ?Nat.add_0_r; auto.
  - unfold result. cbn [fold_left countAnomaly].
    set (stats1 := increment (severityKey (severity x)) stats).
    set (byType1 := <[typeKey (a_type x)
                        := (default 0 (byType !! typeKey (a_type x)) + 1)%nat]> byType).
    destruct (IH stats1 byType1) as (S1 & S2 & T1 & T2 & T3 & T4).
    split; [|split; [|split; [|split; [|split]]]].
    + intros s n Hn. rewrite countSeverity_cons. unfold hasSeverity.
      destruct (bool_decide (severity x = s)) eqn:B.
      * apply bool_decide_eq_true in B. subst s.
        rewrite (S1 (severity x) (S n)); [f_equal; lia|].
        apply increment_lookup_same. exact Hn.
      * apply bool_decide_eq_false in B.
        rewrite (S1 s n); [reflexivity|].
        unfold stats1. rewrite increment_lookup_other; [exact Hn|].
        intros E. apply B. apply severityKey_inj. exact E.
    + intros k Hk. rewrite S2 by exact Hk.
      unfold stats1. apply increment_lookup_other. apply not_eq_sym, Hk.
    + intros t. rewrite T1, countType_cons. unfold hasType, byType1.
      destruct (bool_decide (a_type x = t)) eqn:B.
      * apply bool_decide_eq_true in B. subst t.
        rewrite lookup_insert_eq. simpl. lia.
      * apply bool_decide_eq_false in B.
        rewrite lookup_insert_ne; [reflexivity|].
        intros E. apply B. apply typeKey_inj. exact E.
    + intros t Ht. destruct (T2 t Ht) as [N C]. unfold byType1 in N.
      destruct (decide (a_type x = t)) as [Et|D].
      * subst t. rewrite lookup_insert_eq in N. discriminate N.
      * rewrite lookup_insert_ne in N
          by (intros E; apply D; apply typeKey_inj; exact E).
        split; [exact N|]. rewrite countType_cons. unfold hasType.
        rewrite bool_decide_eq_false_2 by exact D. exact C.
    + intros k Hk. rewrite T3 by exact Hk. unfold byType1.
      apply lookup_insert_ne. apply not_eq_sym, Hk.
    + intros Hpos. apply T4. intros k. unfold byType1.
      destruct (decide (typeKey (a_type x) = k)) as [Ek|D].
      * subst k. rewrite lookup_insert_eq. intros [= E]. lia.
      * rewrite lookup_insert_ne by exact D. apply Hpos.
Qed.

(** C10.  For every list of anomalies the record [getAnomalyStats] returns
    has [total] equal to the length of the list; its [critical], [high],
    [medium] and [low] entries are the numbers of anomalies of each
    severity and add up to [total]; and the entry of each anomaly type is
    the number of anomalies of that type in the list, a type that does not
    occur having no entry. *)
Theorem getAnomalyStats_counts anomalies :
  let stats := getAnomalyStats anomalies in
  stats !! "total" = Some (length anomalies)
  /\ (forall s, stats !! severityKey s = Some (countSeverity s anomalies))
  /\ (countSeverity critical anomalies + countSeverity high anomalies
      + countSeverity medium anomalies + countSeverity low anomalies)%nat
     = length anomalies
  /\ (forall t, default 0%nat (stats !! typeKey t) = countType t anomalies)
  /\ (forall t, stats !! typeKey t
                = if (countType t anomalies =? 0)%nat then None
                  else Some (countType t anomalies)).
Proof.
  intros stats. unfold stats, getAnomalyStats.
  set (stats0 := (<["total" := length anomalies]>
                    (<["critical" := 0%nat]>
                       (<["high" := 0%nat]>
                          (<["medium" := 0%nat]> (<["low" := 0%nat]> ∅)))))
                 : gmap string nat).
  destruct (countAnomaly_fold anomalies stats0 ∅) as (S1 & S2 & T1 & T2 & T3 & T4).
  destruct (fold_left countAnomaly anomalies (stats0, ∅)) as [stats' byType].
  cbn [fst snd] in *.
  assert (Tkey : forall t, byType !! typeKey t
                           = if (countType t anomalies =? 0)%nat then None
                             else Some (countType t anomalies)).
  { intros t. specialize (T1 t). rewrite lookup_empty in T1. simpl in T1.
    destruct (byType !! typeKey t) as [n|] eqn:E.
    - simpl in T1. subst n.
      destruct (countType t anomalies =? 0)%nat eqn:Z; [|reflexivity].
      apply Nat.eqb_eq in Z. rewrite Z in E. exfalso.
      assert (Pos0 : forall k, (∅ : gmap string nat) !! k <> Some 0%nat)
        by (intros k; rewrite lookup_empty; discriminate).
      apply (T4 Pos0 (typeKey t)). exact E.
    - simpl in T1. rewrite <- T1. reflexivity. }
  assert (Other : forall k, (forall t, k <> typeKey t) ->
                            (byType ∪ stats') !! k = stats' !! k).
  { intros k Hk. apply lookup_union_r. rewrite T3 by exact Hk. apply lookup_empty. }
  assert (Stats0 : forall t, stats0 !! typeKey t = None)
    by (intros t; destruct t; reflexivity).
  assert (Tfinal : forall t, (byType ∪ stats') !! typeKey t = byType !! typeKey t).
  { intros t. destruct (byType !! typeKey t) as [n|] eqn:E.
    - apply lookup_union_Some_l. exact E.
    - rewrite lookup_union_r by exact E.
      rewrite S2 by (intros s; apply typeKey_not_severityKey). apply Stats0. }
  split; [|split; [|split; [|split]]].
  - rewrite Other by (intros t; apply not_eq_sym, typeKey_not_total).
    rewrite S2 by (intros s; apply not_eq_sym, severityKey_not_total).
    reflexivity.
  - intros s.
    rewrite Other by (intros t; apply not_eq_sym, typeKey_not_severityKey).
    rewrite (S1 s 0%nat); [reflexivity|]. destruct s; reflexivity.
  - apply countSeverity_total.
  - intros t. rewrite Tfinal, Tkey.
    destruct (countType t anomalies =? 0)%nat eqn:Z; [|reflexivity].
    apply Nat.eqb_eq in Z. rewrite Z. reflexivity.
  - intros t. rewrite Tfinal. apply Tkey.
Qed.

Lemma getAnomalyStats_counts_witness :
  getAnomalyStats (emitted sampleHost sampleBatch emptyWorld) !! "total" = Some 4%nat
  /\ getAnomalyStats (emitted sampleHost sampleBatch emptyWorld) !! "critical"
     = Some 2%nat
  /\ getAnomalyStats (emitted sampleHost sampleBatch emptyWorld) !! "emergency_squawk"
     = Some 2%nat.
Proof.
  pose proof (getAnomalyStats_counts (emitted sampleHost sampleBatch emptyWorld))
    as (T & S & _ & _ & K).
  split; [exact T|]. split; [exact (S critical) | exact (K emergency_squawk)].
Defined.


(** ** Response cache and backoff *)

Lemma getCached_eq host key w :
  getCached host key w
  = match responseCache w !! key with
    | None => (None, w)
    | Some e =>
        let age := (wallClock host (ticks w) - timestamp e)%Z in
        (if (age <? CACHE_TTL_MS)%Z then Some (data e, true)
         else if (age <? STALE_TTL_MS)%Z then Some (data e, false)
         else None,
         withTicks (S (ticks w)) w)
    end.
Proof.
  unfold getCached, bind, gets, ret, dateNow.
  destruct (responseCache w !! key) as [e|]; [|reflexivity].
  cbv zeta.
  destruct (wallClock host (ticks w) - timestamp e <? CACHE_TTL_MS)%Z; [reflexivity|].
  destruct (wallClock host (ticks w) - timestamp e <? STALE_TTL_MS)%Z; reflexivity.
Qed.

(** [getCached] changes nothing but the count of clock reads. *)
Lemma getCached_frame host key w cached w1 :
  getCached host key w = (cached, w1) ->
  responseCache w1 = responseCache w
  /\ backoffUntil w1 = backoffUntil w
  /\ inflightRequests w1 = inflightRequests w
  /\ upstreamCalls w1 = upstreamCalls w
  /\ aircraftHistory w1 = aircraftHistory w.
Proof.
  rewrite getCached_eq. destruct (responseCache w !! key) as [e|].
  - cbv zeta. intros [= _ <-]. repeat split.
  - intros [= _ <-]. repeat split.
Qed.

(** What [getCached] hands back: the payload of an entry younger than the
    stale bound, flagged fresh when younger than the fresh bound. *)
Lemma getCached_spec host key w cached w1 :
  getCached host key w = (cached, w1) ->
  match cached with
  | Some (payload, fresh) =>
      exists e, responseCache w !! key = Some e
                /\ payload = data e
                /\ (wallClock host (ticks w) - timestamp e < STALE_TTL_MS)%Z
                /\ (fresh = true <->
                    (wallClock host (ticks w) - timestamp e < CACHE_TTL_MS)%Z)
  | None =>
      responseCache w !! key = None
      \/ exists e, responseCache w !! key = Some e
                   /\ (STALE_TTL_MS <= wallClock host (ticks w) - timestamp e)%Z
  end.
Proof.
  rewrite getCached_eq. destruct (responseCache w !! key) as [e|].
  - cbv zeta.
    destruct (wallClock host (ticks w) - timestamp e <? CACHE_TTL_MS)%Z eqn:F.
    + intros [= <- _]. apply Z.ltb_lt in F. exists e.
      unfold CACHE_TTL_MS, STALE_TTL_MS in *. repeat split; auto; lia.
    + apply Z.ltb_ge in F.
      destruct (wallClock host (ticks w) - timestamp e <? STALE_TTL_MS)%Z eqn:S.
      * intros [= <- _]. apply Z.ltb_lt in S. exists e.
        repeat split; auto; [discriminate | lia].
      * intros [= <- _]. apply Z.ltb_ge in S. right. exists e. auto.
  - intros [= <- _]. left. reflexivity.
Qed.

(** A call that finds a fresh entry is served from the cache. *)
Lemma statesBegin_fresh host key logs w payload w1 :
  getCached host key w = (Some (payload, true), w1) ->
  statesBegin host key logs w = (Settled payload, w1).
Proof.
  intros E. unfold statesBegin, bind at 1. rewrite E. reflexivity.
Qed.

Lemma gateOrStart_eq host key logs cached w1 :
  gateOrStart host key logs cached w1
  = if (wallClock host (ticks w1) <? backoffUntil w1)%Z
    then (Settled (cachedOrEmpty cached),
          if logs then withTicks (S (S (ticks w1))) w1
          else withTicks (S (ticks w1)) w1)
    else if bool_decide (key ∈ inflightRequests w1)
         then (Joined, withTicks (S (ticks w1)) w1)
         else (Pending cached,
               withInflight ({[key]} ∪ inflightRequests w1)
                 (withUpstreamCalls (S (upstreamCalls w1))
                    (withTicks (S (ticks w1)) w1))).
Proof.
  unfold gateOrStart, bind, gets, dateNow, ret, modify.
  cbn [backoffUntil inflightRequests withTicks].
  destruct (wallClock host (ticks w1) <? backoffUntil w1)%Z.
  - destruct logs; reflexivity.
  - cbn [backoffUntil inflightRequests withTicks].
    destruct (bool_decide (key ∈ inflightRequests w1)); reflexivity.
Qed.

Lemma statesBegin_not_fresh host key logs w cached w1 :
  getCached host key w = (cached, w1) ->
  isFresh cached = false ->
  statesBegin host key logs w = gateOrStart host key logs cached w1.
Proof.
  intros E F. unfold statesBegin, bind at 1. rewrite E.
  destruct cached as [[payload [|]]|]; [discriminate F| |]; reflexivity.
Qed.

(** A call whose check reads the clock before the deadline is answered
    from the cache, or with the empty list. *)
Lemma statesBegin_suppressed host key logs w cached w1 :
  getCached host key w = (cached, w1) ->
  (wallClock host (ticks w1) < backoffUntil w)%Z ->
  exists w',
    statesBegin host key logs w = (Settled (cachedOrEmpty cached), w')
    /\ upstreamCalls w' = upstreamCalls w
    /\ backoffUntil w' = backoffUntil w
    /\ responseCache w' = responseCache w
    /\ inflightRequests w' = inflightRequests w.
Proof.
  intros E H. destruct (getCached_frame _ _ _ _ _ E) as (C & B & I & U & _).
  destruct (isFresh cached) eqn:F.
  - destruct cached as [[payload [|]]|]; try discriminate F.
    rewrite (statesBegin_fresh _ _ _ _ _ _ E). eexists. split; [reflexivity|]. auto.
  - rewrite (statesBegin_not_fresh _ _ _ _ _ _ E F), gateOrStart_eq.
    assert (K : (wallClock host (ticks w1) <? backoffUntil w1)%Z = true)
      by (rewrite B; apply Z.ltb_lt; exact H).
    rewrite K. eexists. split; [reflexivity|].
    destruct logs; cbn; auto.
Qed.

(** A call with nothing fresh to serve, past the deadline and with no
    exchange in flight for its key starts one. *)
Lemma statesBegin_reaches_network host key logs w cached w1 :
  getCached host key w = (cached, w1) ->
  isFresh cached = false ->
  (backoffUntil w <= wallClock host (ticks w1))%Z ->
  key ∉ inflightRequests w ->
  exists w',
    statesBegin host key logs w = (Pending cached, w')
    /\ upstreamCalls w' = S (upstreamCalls w)
    /\ key ∈ inflightRequests w'
    /\ backoffUntil w' = backoffUntil w.
Proof.
  intros E F H I. destruct (getCached_frame _ _ _ _ _ E) as (C & B & Inf & U & _).
  rewrite (statesBegin_not_fresh _ _ _ _ _ _ E F), gateOrStart_eq.
  assert (K : (wallClock host (ticks w1) <? backoffUntil w1)%Z = false)
    by (rewrite B; apply Z.ltb_ge; exact H).
  assert (N : bool_decide (key ∈ inflightRequests w1) = false)
    by (rewrite Inf; apply bool_decide_eq_false; exact I).
  rewrite K, N. eexists. split; [reflexivity|]. cbn.
  split; [congruence|]. split; [clear; set_solver|exact B].
Qed.

(** Conversely, a call that started an exchange found the deadline
    passed, and left it as it was. *)
Lemma statesBegin_pending host key logs w cached w' :
  statesBegin host key logs w = (Pending cached, w') ->
  exists w1,
    getCached host key w = (cached, w1)
    /\ (backoffUntil w <= wallClock host (ticks w1))%Z
    /\ backoffUntil w' = backoffUntil w
    /\ upstreamCalls w' = S (upstreamCalls w).
Proof.
  destruct (getCached host key w) as [c w1] eqn:E.
  destruct (getCached_frame _ _ _ _ _ E) as (C & B & Inf & U & _).
  destruct (isFresh c) eqn:F.
  - destruct c as [[payload [|]]|]; try discriminate F.
    rewrite (statesBegin_fresh _ _ _ _ _ _ E). discriminate.
  - rewrite (statesBegin_not_fresh _ _ _ _ _ _ E F), gateOrStart_eq.
    destruct (wallClock host (ticks w1) <? backoffUntil w1)%Z eqn:K;
      [discriminate|].
    destruct (bool_decide (key ∈ inflightRequests w1)); [discriminate|].
    intros [= -> <-]. apply Z.ltb_ge in K. exists w1. cbn.
    split; [reflexivity|]. split; [lia|]. split; congruence.
Qed.

Lemma statesTry_frame host key cached reply w :
  upstreamCalls (snd (statesTry host key cached reply w)) = upstreamCalls w
  /\ inflightRequests (snd (statesTry host key cached reply w)) = inflightRequests w.
Proof.
  unfold statesTry, setCache, bind, ret, modify, dateNow.
  destruct reply as [| |[states|]|]; try (split; reflexivity).
  destruct (Js.mapC parseStateVector states); split; reflexivity.
Qed.

(** A 429 sets the deadline 60 s ahead and is answered from the cache. *)
Lemma statesResume_throttled host key cached w :
  exists w',
    statesResume host key cached TooManyRequests w
    = (Js.Returns (cachedOrEmpty cached), w')
    /\ backoffUntil w' = (wallClock host (ticks w) + 60000)%Z
    /\ responseCache w' = responseCache w
    /\ upstreamCalls w' = upstreamCalls w.
Proof.
  unfold statesResume, statesTry, bind, ret, modify, dateNow. cbn.
  eexists. split; [reflexivity|]. repeat split.
Qed.

(** Whatever the exchange brings, the caller gets a list, not an
    exception. *)
Lemma statesResume_returns host key cached reply w :
  exists result, fst (statesResume host key cached reply w) = Js.Returns result.
Proof.
  unfold statesResume, bind at 1.
  destruct (statesTry host key cached reply w) as [[a|e] w1];
    unfold bind, modify, ret; cbn; eauto.
Qed.

(** A successful exchange is cached under the key, stamped with the
    clock; the deadline is not touched. *)
Lemma statesResume_success host key cached states result w :
  Js.mapC parseStateVector states = Js.Returns result ->
  exists w',
    statesResume host key cached (Ok (Some states)) w = (Js.Returns result, w')
    /\ responseCache w' !! key = Some (mkCacheEntry result (wallClock host (ticks w)))
    /\ (forall key', key' <> key -> responseCache w' !! key' = responseCache w !! key')
    /\ backoffUntil w' = backoffUntil w
    /\ key ∉ inflightRequests w'.
Proof.
  intros P. unfold statesResume, statesTry. rewrite P.
  unfold setCache, bind, ret, modify, dateNow. cbn.
  eexists. split; [reflexivity|]. cbn.
  split; [apply lookup_insert_eq|].
  split; [intros key' Hk; apply lookup_insert_ne; congruence|].
  split; [reflexivity|].
  intros Hin. apply elem_of_difference in Hin as [_ Hin].
  apply Hin, elem_of_singleton. reflexivity.
Qed.

Lemma statesResume_no_states host key cached w :
  exists w',
    statesResume host key cached (Ok None) w = (Js.Returns [], w')
    /\ responseCache w' !! key = Some (mkCacheEntry [] (wallClock host (ticks w)))
    /\ backoffUntil w' = backoffUntil w.
Proof.
  unfold statesResume, statesTry, setCache, bind, ret, modify, dateNow. cbn.
  eexists. split; [reflexivity|]. cbn.
  split; [apply lookup_insert_eq|reflexivity].
Qed.

(** The stale scenario, step by step: the payload cached at 16 s is what
    the 429 at 64 s and the suppressed call at 80 s are answered with, and
    the suppressed call starts no exchange. *)
Lemma stale_payload_served :
  exists payload,
    payload <> []
    /\ fst stale2 = Js.Returns payload
    /\ responseCache (snd stale2) !! "all_states"
       = Some (mkCacheEntry payload 1700000016000)
    /\ fst stale3 = Pending (Some (payload, false))
    /\ fst stale4 = Js.Returns payload
    /\ backoffUntil (snd stale4) = 1700000124000%Z
    /\ fst stale5 = Settled payload
    /\ upstreamCalls (snd stale5) = upstreamCalls (snd stale4).
Proof.
  eexists.
  split; [|split; [vm_compute; reflexivity|]]; [discriminate|].
  split; [vm_compute; reflexivity|].
  split; [vm_compute; reflexivity|].
  split; [vm_compute; reflexivity|].
  split; [vm_compute; reflexivity|].
  split; vm_compute; reflexivity.
Qed.

(** C7.  A 429 sets the cooldown deadline 60 s ahead and is answered with
    the payload the call captured from the cache, or the empty list when
    it captured none, never an exception; indeed no outcome of the
    exchange makes [getAllStates] throw.  A [getAllStates] call that finds
    a fresh entry, or whose backoff check reads the clock before the
    deadline, starts no upstream exchange and returns the payload of the
    cache entry when one younger than the stale bound exists, else the
    empty list.  A call whose check reads the clock at or after the
    deadline, with no fresh entry and no exchange in flight, starts an
    upstream exchange, capturing what its cache lookup found. *)
Theorem backoff_suppresses_getAllStates host :
  (forall cached w,
      exists w',
        getAllStates_resume host cached TooManyRequests w
        = (Js.Returns match cached with
                      | Some (payload, _) => payload
                      | None => []
                      end, w')
        /\ backoffUntil w' = (wallClock host (ticks w) + BACKOFF_SECONDS * 1000)%Z)
  /\ (forall cached reply w,
         exists result,
           fst (getAllStates_resume host cached reply w) = Js.Returns result)
  /\ (forall w cached w1,
         getCached host "all_states" w = (cached, w1) ->
         (isFresh cached = false ->
          (wallClock host (ticks w1) < backoffUntil w)%Z) ->
         exists result w',
           getAllStates_begin host w = (Settled result, w')
           /\ upstreamCalls w' = upstreamCalls w
           /\ match cached with
              | Some (payload, _) =>
                  result = payload
                  /\ exists e, responseCache w !! "all_states" = Some e
                               /\ payload = data e
                               /\ (wallClock host (ticks w) - timestamp e
                                   < STALE_TTL_MS)%Z
              | None =>
                  result = []
                  /\ (responseCache w !! "all_states" = None
                      \/ exists e, responseCache w !! "all_states" = Some e
                                   /\ (STALE_TTL_MS
                                       <= wallClock host (ticks w) - timestamp e)%Z)
              end)
  /\ (forall w e,
         responseCache w !! "all_states" = Some e ->
         (wallClock host (ticks w) - timestamp e < STALE_TTL_MS)%Z ->
         (CACHE_TTL_MS <= wallClock host (ticks w) - timestamp e ->
          wallClock host (S (ticks w)) < backoffUntil w)%Z ->
         exists w',
           getAllStates_begin host w = (Settled (data e), w')
           /\ upstreamCalls w' = upstreamCalls w)
  /\ (forall w cached w1,
         getCached host "all_states" w = (cached, w1) ->
         isFresh cached = false ->
         (backoffUntil w <= wallClock host (ticks w1))%Z ->
         "all_states" ∉ inflightRequests w ->
         exists w',
           getAllStates_begin host w = (Pending cached, w')
           /\ upstreamCalls w' = S (upstreamCalls w)).
Proof.
  assert (Suppressed : forall w cached w1,
             getCached host "all_states" w = (cached, w1) ->
             (isFresh cached = false ->
              (wallClock host (ticks w1) < backoffUntil w)%Z) ->
             exists w',
               getAllStates_begin host w
               = (Settled match cached with
                          | Some (payload, _) => payload
                          | None => []
                          end, w')
               /\ upstreamCalls w' = upstreamCalls w).
  { intros w cached w1 E H. destruct (isFresh cached) eqn:F.
    - destruct cached as [[payload [|]]|]; try discriminate F.
      exists w1. split; [apply statesBegin_fresh; exact E|].
      apply (getCached_frame _ _ _ _ _ E).
    - destruct (statesBegin_suppressed host "all_states" true w cached w1 E
                  (H eq_refl)) as (w' & R & U & _).
      exists w'. split; [|exact U]. unfold getAllStates_begin. rewrite R.
      unfold cachedOrEmpty. destruct cached as [[payload fresh]|]; reflexivity. }
  split; [|split; [|split; [|split]]].
  - intros cached w.
    destruct (statesResume_throttled host "all_states" cached w)
      as (w' & E & B & _).
    exists w'. split; [|exact B]. unfold getAllStates_resume. rewrite E.
    unfold cachedOrEmpty. destruct cached as [[payload fresh]|]; reflexivity.
  - intros cached reply w. apply statesResume_returns.
  - intros w cached w1 E H.
    destruct (Suppressed w cached w1 E H) as (w' & R & U).
    pose proof (getCached_spec _ _ _ _ _ E) as S.
    destruct cached as [[payload fresh]|].
    + exists payload, w'. split; [exact R|]. split; [exact U|].
      split; [reflexivity|].
      destruct S as (e & L & P & A & _). exists e. auto.
    + exists [], w'. split; [exact R|]. split; [exact U|].
      split; [reflexivity | exact S].
  - intros w e L A H.
    pose proof (getCached_eq host "all_states" w) as G. rewrite L in G.
    cbv zeta in G.
    destruct (wallClock host (ticks w) - timestamp e <? CACHE_TTL_MS)%Z eqn:F.
    + destruct (Suppressed w _ _ G) as (w' & R & U); [discriminate|].
      exists w'. auto.
    + apply Z.ltb_ge in F.
      assert (St : (wallClock host (ticks w) - timestamp e <? STALE_TTL_MS)%Z = true)
        by (apply Z.ltb_lt; exact A).
      rewrite St in G.
      destruct (Suppressed w _ _ G) as (w' & R & U); [intros _; apply H, F|].
      exists w'. auto.
  - intros w cached w1 E F H I.
    destruct (statesBegin_reaches_network host "all_states" true w cached w1 E F H I)
      as (w' & R & U & _).
    exists w'. auto.
Qed.

Lemma backoff_suppresses_getAllStates_witness :
  exists e w',
    responseCache (snd stale4) !! "all_states" = Some e
    /\ data e <> []
    /\ getAllStates_begin raceHost (snd stale4) = (Settled (data e), w')
    /\ upstreamCalls w' = upstreamCalls (snd stale4).
Proof.
  assert (L : exists e, responseCache (snd stale4) !! "all_states" = Some e
                        /\ data e <> []
                        /\ timestamp e = 1700000016000%Z).
  { eexists. split; [vm_compute; reflexivity|]. split; [discriminate | reflexivity]. }
  destruct L as (e & L & N & T).
  destruct (proj1 (proj2 (proj2 (proj2 (backoff_suppresses_getAllStates raceHost))))
              (snd stale4) e L)
    as (w' & E & U).
  - rewrite T. vm_compute. reflexivity.
  - intros _. vm_compute. reflexivity.
  - exists e, w'. auto.
Defined.

(** C8 fails as stated.  [getAllStates] starts an exchange; before it
    completes, a bounding-box request is answered 429 and sets the
    deadline; the [getAllStates] exchange then succeeds and is cached, yet
    the deadline stays, and the next [getAllStates] call, made 32 s after
    that success, is suppressed and served the stale entry without an
    upstream exchange. *)
Lemma success_leaves_deadline_in_force :
  fst race1 = Pending None
  /\ fst race2 = Pending None
  /\ backoffUntil (snd race3) = 1700000092000%Z
  /\ (exists payload,
         fst race4 = Js.Returns payload
         /\ responseCache (snd race4) !! "all_states"
            = Some (mkCacheEntry payload 1700000048000))
  /\ backoffUntil (snd race4) = 1700000092000%Z
  /\ (exists payload, fst race5 = Settled payload)
  /\ upstreamCalls (snd race5) = upstreamCalls (snd race4)
  /\ wallClock raceHost (S (ticks (snd race4))) = 1700000080000%Z.
Proof.
  split; [vm_compute; reflexivity|].
  split; [vm_compute; reflexivity|].
  split; [vm_compute; reflexivity|].
  split; [eexists; split; vm_compute; reflexivity|].
  split; [vm_compute; reflexivity|].
  split; [eexists; vm_compute; reflexivity|].
  split; vm_compute; reflexivity.
Qed.

(** C8, amended.  When an exchange started by [getAllStates] (or by a
    bounding-box request) succeeds, the parsed response is returned and
    written to the response cache under the request key, stamped with the
    clock, other keys keeping their entries; an exchange that brings no
    states caches the empty list.  The cooldown deadline is never reset:
    a success leaves it as it is, and so does a call served from the
    cache.  A call starts an exchange only when its backoff check reads
    the clock at or after the deadline. *)
Theorem success_is_cached_deadline_kept host key logs :
  (forall cached states result w,
      Js.mapC parseStateVector states = Js.Returns result ->
      exists w',
        statesResume host key cached (Ok (Some states)) w = (Js.Returns result, w')
        /\ responseCache w' !! key
           = Some (mkCacheEntry result (wallClock host (ticks w)))
        /\ (forall key', key' <> key ->
                         responseCache w' !! key' = responseCache w !! key')
        /\ backoffUntil w' = backoffUntil w)
  /\ (forall cached w,
         exists w',
           statesResume host key cached (Ok None) w = (Js.Returns [], w')
           /\ responseCache w' !! key
              = Some (mkCacheEntry [] (wallClock host (ticks w)))
           /\ backoffUntil w' = backoffUntil w)
  /\ (forall w payload w1,
         getCached host key w = (Some (payload, true), w1) ->
         statesBegin host key logs w = (Settled payload, w1)
         /\ backoffUntil w1 = backoffUntil w
         /\ responseCache w1 = responseCache w
         /\ upstreamCalls w1 = upstreamCalls w)
  /\ (forall w cached w',
         statesBegin host key logs w = (Pending cached, w') ->
         exists w1,
           getCached host key w = (cached, w1)
           /\ (backoffUntil w <= wallClock host (ticks w1))%Z
           /\ backoffUntil w' = backoffUntil w).
Proof.
  split; [|split; [|split]].
  - intros cached states result w P.
    destruct (statesResume_success host key cached states result w P)
      as (w' & E & C & O & B & _).
    exists w'. auto.
  - intros cached w. apply statesResume_no_states.
  - intros w payload w1 E.
    destruct (getCached_frame _ _ _ _ _ E) as (C & B & _ & U & _).
    split; [apply statesBegin_fresh; exact E|]. auto.
  - intros w cached w' E.
    destruct (statesBegin_pending _ _ _ _ _ _ E) as (w1 & G & D & B & _).
    exists w1. auto.
Qed.

Lemma success_is_cached_deadline_kept_witness :
  exists payload w',
    getAllStates_resume raceHost None (Ok (Some [sampleState])) (snd race3)
    = (Js.Returns payload, w')
    /\ responseCache w' !! "all_states"
       = Some (mkCacheEntry payload
                 (wallClock raceHost (ticks (snd race3))))
    /\ backoffUntil w' = backoffUntil (snd race3).
Proof.
  destruct (parseStateVector_on_schema sampleState eq_refl) as (raw & a & P & _).
  destruct (proj1 (success_is_cached_deadline_kept raceHost "all_states" true)
              None [sampleState] [raw] (snd race3))
    as (w' & E & C & _ & B).
  - cbn [Js.mapC]. rewrite P. reflexivity.
  - exists [raw], w'. auto.
Defined.
(* ===================================================================== *)
(** * Further properties of the detectors *)
(* ===================================================================== *)

(** ** Unusual speed *)

Lemma detectSpeedAnomaly_eq host aircraft w :
  detectSpeedAnomaly host aircraft w
  = match on_ground aircraft, velocity aircraft with
    | false, Some v =>
        if Js.gt (speedKts v) (Js.toNumber UNUSUALLY_FAST_KTS)
        then anomalyRecord host aircraft unusual_speed medium
               (FastDetails (speedKts v)) w
        else
          match baro_altitude aircraft with
          | Some alt =>
              if Js.lt (speedKts v) (Js.toNumber UNUSUALLY_SLOW_KTS)
                 && Js.truthyNumber (Js.toNumber alt)
                 && Js.gt (Js.toNumber alt) (Js.toNumber 3000)
              then anomalyRecord host aircraft unusual_speed low
                     (SlowDetails (speedKts v)
                        (Js.mul (Js.toNumber alt) (Js.toNumber 3.281))) w
              else (None, w)
          | None => (None, w)
          end
    | _, _ => (None, w)
    end.
Proof.
  unfold detectSpeedAnomaly, ret.
  repeat break_match; reflexivity.
Qed.

(** The product is the one the run time computes.  At 308.641975308642
    m/s the product of the decimals is above 600, the computed product is
    600, and nothing is reported. *)
Lemma speed_product_is_computed :
  (600 < 308.641975308642 * 1.944)%Q
  /\ speedKts 308.641975308642 = Js.Finite 600
  /\ fst (detectSpeedAnomaly sampleHost (cruising 308.641975308642) emptyWorld)
     = None.
Proof.
  split; [reflexivity|]. split; vm_compute; reflexivity.
Qed.

(** When [detectSpeedAnomaly] reports, and what. *)
Lemma detectSpeedAnomaly_cases host aircraft w :
  let knots v := Js.mul (Js.toNumber v) (Js.toNumber 1.944) in
  ((exists x, fst (detectSpeedAnomaly host aircraft w) = Some x
              /\ severity x = medium)
   <-> (on_ground aircraft = false
        /\ exists v, velocity aircraft = Some v
                     /\ Js.gt (knots v) (Js.toNumber 600) = true))
  /\ ((exists x, fst (detectSpeedAnomaly host aircraft w) = Some x
                 /\ severity x = low)
      <-> (on_ground aircraft = false
           /\ exists v alt,
                velocity aircraft = Some v
                /\ Js.lt (knots v) (Js.toNumber 80) = true
                /\ baro_altitude aircraft = Some alt
                /\ Js.gt (Js.toNumber alt) (Js.toNumber 3000) = true))
  /\ (forall x, fst (detectSpeedAnomaly host aircraft w) = Some x ->
                a_type x = unusual_speed
                /\ (severity x = medium \/ severity x = low)
                /\ flight_icao24 x = icao24 aircraft
                /\ exists v, velocity aircraft = Some v
                             /\ (details x = FastDetails (knots v)
                                 \/ exists alt,
                                      baro_altitude aircraft = Some alt
                                      /\ details x
                                         = SlowDetails (knots v)
                                             (Js.mul (Js.toNumber alt)
                                                     (Js.toNumber 3.281)))).
Proof.
  intros knots.
  change (Js.toNumber 600) with (Js.toNumber UNUSUALLY_FAST_KTS).
  change (Js.toNumber 80) with (Js.toNumber UNUSUALLY_SLOW_KTS).
  change knots with speedKts. clear knots.
  rewrite detectSpeedAnomaly_eq.
  destruct (on_ground aircraft) eqn:G.
  { cbn [fst]. split; [|split].
    - split; [intros (x & H & _); discriminate H | intros [H _]; discriminate H].
    - split; [intros (x & H & _); discriminate H | intros [H _]; discriminate H].
    - intros x H. discriminate H. }
  destruct (velocity aircraft) as [v|] eqn:V.
  2:{ cbn [fst]. split; [|split].
      - split; [intros (x & H & _); discriminate H
               | intros (_ & v & H & _); discriminate H].
      - split; [intros (x & H & _); discriminate H
               | intros (_ & v & alt & H & _); discriminate H].
      - intros x H. discriminate H. }
  destruct (Js.gt (speedKts v) (Js.toNumber UNUSUALLY_FAST_KTS)) eqn:F.
  { destruct (anomalyRecord_eq host aircraft unusual_speed medium
                (FastDetails (speedKts v)) w)
      as (x & w' & E & T & S & I & D & _).
    rewrite E. cbn [fst]. split; [|split].
    - split; [|intros _; exists x; auto].
      intros _. split; [reflexivity|]. exists v. auto.
    - split.
      + intros (y & [= <-] & Sy). congruence.
      + intros (_ & v' & alt & [= <-] & Slow & _).
        rewrite (slow_not_fast _ Slow) in F. discriminate F.
    - intros y [= <-]. split; [exact T|]. split; [left; exact S|].
      split; [exact I|]. exists v. split; [reflexivity|]. left. exact D. }
  destruct (baro_altitude aircraft) as [alt|] eqn:B.
  2:{ cbn [fst]. split; [|split].
      - split; [intros (x & H & _); discriminate H
               | intros (_ & v' & [= <-] & H); congruence].
      - split; [intros (x & H & _); discriminate H
               | intros (_ & v' & alt & _ & _ & H & _); discriminate H].
      - intros x H. discriminate H. }
  destruct (Js.lt (speedKts v) (Js.toNumber UNUSUALLY_SLOW_KTS)
            && Js.truthyNumber (Js.toNumber alt)
            && Js.gt (Js.toNumber alt) (Js.toNumber 3000)) eqn:C.
  - apply andb_prop in C as [C H3]. apply andb_prop in C as [Sl _].
    destruct (anomalyRecord_eq host aircraft unusual_speed low
                (SlowDetails (speedKts v)
                   (Js.mul (Js.toNumber alt) (Js.toNumber 3.281))) w)
      as (x & w' & E & T & S & I & D & _).
    rewrite E. cbn [fst]. split; [|split].
    + split.
      * intros (y & [= <-] & Sy). congruence.
      * intros (_ & v' & [= <-] & H). congruence.
    + split; [|intros _; exists x; auto].
      intros _. split; [reflexivity|]. exists v, alt. auto.
    + intros y [= <-]. split; [exact T|]. split; [right; exact S|].
      split; [exact I|]. exists v. split; [reflexivity|]. right.
      exists alt. split; [reflexivity | exact D].
  - cbn [fst]. split; [|split].
    + split; [intros (x & H & _); discriminate H
             | intros (_ & v' & [= <-] & H); congruence].
    + split; [intros (x & H & _); discriminate H|].
      intros (_ & v' & alt' & [= <-] & Sl & [= <-] & H3).
      rewrite Sl, H3, (above_3000_truthy _ H3) in C. discriminate C.
    + intros x H. discriminate H.
Qed.

(** X1.  [detectSpeedAnomaly] reports a medium anomaly exactly for an
    airborne aircraft whose ground speed in knots, the velocity times
    1.944 as the run time computes it, is above 600, and a low one exactly
    for an airborne aircraft whose computed speed is below 80 knots and
    whose barometric altitude is above 3000 (metres, as stored); nothing
    else, and never for an aircraft on the ground or without a velocity.
    Every report is of type [unusual_speed] and carries the computed
    speed.  Rounding never crosses a threshold: a medium report is only
    made when the product of the two factors, as real numbers, is above
    600, and a low one only when it is below 80 and the altitude as
    written is above 3000. *)
Theorem detectSpeedAnomaly_characterised host aircraft w :
  let knots v := Js.mul (Js.toNumber v) (Js.toNumber 1.944) in
  ((exists x, fst (detectSpeedAnomaly host aircraft w) = Some x
              /\ severity x = medium)
   <-> (on_ground aircraft = false
        /\ exists v, velocity aircraft = Some v
                     /\ Js.gt (knots v) (Js.toNumber 600) = true))
  /\ ((exists x, fst (detectSpeedAnomaly host aircraft w) = Some x
                 /\ severity x = low)
      <-> (on_ground aircraft = false
           /\ exists v alt,
                velocity aircraft = Some v
                /\ Js.lt (knots v) (Js.toNumber 80) = true
                /\ baro_altitude aircraft = Some alt
                /\ Js.gt (Js.toNumber alt) (Js.toNumber 3000) = true))
  /\ (forall x, fst (detectSpeedAnomaly host aircraft w) = Some x ->
                a_type x = unusual_speed
                /\ (severity x = medium \/ severity x = low)
                /\ flight_icao24 x = icao24 aircraft
                /\ exists v, velocity aircraft = Some v
                             /\ (details x = FastDetails (knots v)
                                 \/ exists alt,
                                      baro_altitude aircraft = Some alt
                                      /\ details x
                                         = SlowDetails (knots v)
                                             (Js.mul (Js.toNumber alt)
                                                     (Js.toNumber 3.281))))
  /\ (forall x v a b,
         fst (detectSpeedAnomaly host aircraft w) = Some x ->
         velocity aircraft = Some v ->
         Js.toNumber v = Js.Finite a ->
         Js.toNumber 1.944 = Js.Finite b ->
         (severity x = medium -> (600 < a * b)%Q)
         /\ (severity x = low ->
             (a * b < 80)%Q
             /\ exists alt, baro_altitude aircraft = Some alt /\ (3000 < alt)%Q)).
Proof.
  intros knots.
  destruct (detectSpeedAnomaly_cases host aircraft w) as (Medium & Low & About).
  fold knots in Medium, Low, About.
  split; [exact Medium|]. split; [exact Low|]. split; [exact About|].
  intros x v a b Hx Hv Ha Hb. split.
  - intros Sm.
    destruct (proj1 Medium (ex_intro _ x (conj Hx Sm))) as (_ & v' & Hv' & G).
    rewrite Hv in Hv'. injection Hv' as <-.
    unfold knots in G. rewrite Ha, Hb in G.
    apply (gt_threshold (a * b) 600); [lia | exact G].
  - intros Sl.
    destruct (proj1 Low (ex_intro _ x (conj Hx Sl)))
      as (_ & v' & alt & Hv' & L & B & G).
    rewrite Hv in Hv'. injection Hv' as <-.
    unfold knots in L. rewrite Ha, Hb in L.
    split; [apply (lt_threshold (a * b) 80); [lia | exact L]|].
    exists alt. split; [exact B|].
    apply (gt_threshold alt 3000); [lia | exact G].
Qed.

Lemma detectSpeedAnomaly_characterised_witness :
  exists x,
    fst (detectSpeedAnomaly sampleHost
           (nth 0 sampleBatch noFixAircraft) emptyWorld) = Some x
    /\ severity x = low.
Proof.
  apply (proj1 (proj2 (detectSpeedAnomaly_characterised sampleHost
                         (nth 0 sampleBatch noFixAircraft) emptyWorld))).
  split; [reflexivity|]. exists 30%Q, 4000%Q.
  split; [reflexivity|]. split; [vm_compute; reflexivity|].
  split; [reflexivity | vm_compute; reflexivity].
Defined.


(** ** Rapid descent *)

(** The vertical rate in feet per minute is the product the run time
    computes.  At -20.32004064008128 m/s the two factors, as binary64
    numbers, have a product below -4000; rounded, it is -4000, and no
    rapid descent is reported. *)
Lemma rapid_descent_product_is_computed :
  exists a b,
    Js.toNumber (-20.32004064008128) = Js.Finite a
    /\ Js.toNumber 196.85 = Js.Finite b
    /\ (a * b < -4000)%Q
    /\ verticalRateFpm (-20.32004064008128) = Js.Finite (-4000)
    /\ fst (detectAltitudeAnomaly sampleHost
              (airborne 3000 (Some (-20.32004064008128)%Q) 1700000000) emptyWorld)
       = None.
Proof.
  eexists. eexists.
  split; [vm_compute; reflexivity|].
  split; [vm_compute; reflexivity|].
  split; [reflexivity|].
  split; vm_compute; reflexivity.
Qed.

(** When [detectAltitudeAnomaly] reports a rapid descent, and what the
    report carries. *)
Lemma detectAltitudeAnomaly_rapid_descent host aircraft w :
  let fpm vr := Js.mul (Js.toNumber vr) (Js.toNumber 196.85) in
  ((exists x, fst (detectAltitudeAnomaly host aircraft w) = Some x
              /\ a_type x = rapid_descent)
   <-> (on_ground aircraft = false
        /\ exists vr, vertical_rate aircraft = Some vr
                      /\ Js.lt (fpm vr) (Js.toNumber (-4000)) = true))
  /\ (forall x vr,
         fst (detectAltitudeAnomaly host aircraft w) = Some x ->
         a_type x = rapid_descent ->
         vertical_rate aircraft = Some vr ->
         severity x = high
         /\ details x
            = RapidDescentDetails (fpm vr)
                match baro_altitude aircraft with
                | Some alt =>
                    if Js.truthyNumber (Js.toNumber alt)
                    then Js.mul (Js.toNumber alt) (Js.toNumber 3.281)
                    else Js.Finite 0
                | None => Js.Finite 0
                end).
Proof.
  intros fpm.
  change (Js.toNumber (-4000)) with (Js.toNumber CRITICAL_VERTICAL_RATE_FPM).
  change fpm with verticalRateFpm. clear fpm.
  destruct (on_ground aircraft) eqn:G.
  { assert (E : detectAltitudeAnomaly host aircraft w = (None, w))
      by (unfold detectAltitudeAnomaly; rewrite G; reflexivity).
    rewrite E. cbn [fst]. split.
    - split; [intros (x & H & _); discriminate H | intros [H _]; discriminate H].
    - intros x vr H. discriminate H. }
  destruct (vertical_rate aircraft) as [vr|] eqn:V.
  2:{ assert (E : detectAltitudeAnomaly host aircraft w = (None, w))
        by (unfold detectAltitudeAnomaly; rewrite G, V; reflexivity).
      rewrite E. cbn [fst]. split.
      - split; [intros (x & H & _); discriminate H
               | intros (_ & vr & H & _); discriminate H].
      - intros x vr H. discriminate H. }
  destruct (Js.lt (verticalRateFpm vr) (Js.toNumber CRITICAL_VERTICAL_RATE_FPM)) eqn:C.
  - assert (E : detectAltitudeAnomaly host aircraft w
                = anomalyRecord host aircraft rapid_descent high
                    (RapidDescentDetails (verticalRateFpm vr)
                       (scaledOrZero (baro_altitude aircraft) 3.281)) w)
      by (unfold detectAltitudeAnomaly; rewrite G, V, C; reflexivity).
    rewrite E.
    destruct (anomalyRecord_eq host aircraft rapid_descent high
                (RapidDescentDetails (verticalRateFpm vr)
                   (scaledOrZero (baro_altitude aircraft) 3.281)) w)
      as (x & w' & R & T & S & _ & D & _).
    rewrite R. cbn [fst]. split.
    + split; [|intros _; exists x; auto].
      intros _. split; [reflexivity|]. exists vr. auto.
    + intros y vr' [= <-] _ [= <-]. split; [exact S|]. rewrite D.
      unfold scaledOrZero. destruct (baro_altitude aircraft); reflexivity.
  - pose proof (detectAltitudeAnomaly_type host aircraft w) as Ty.
    pose proof (detectAltitudeAnomaly_history host aircraft w vr G V C) as Hh.
    assert (N : forall x, fst (detectAltitudeAnomaly host aircraft w) = Some x ->
                          a_type x = altitude_drop).
    { intros x Hx. rewrite Hh in Hx. cbv zeta in Hx.
      repeat match type of Hx with
             | context [match ?e with _ => _ end] => destruct e eqn:?
             end; try discriminate Hx.
      match type of Hx with
      | fst (anomalyRecord ?h ?a ?t ?s ?d ?w0) = _ =>
          destruct (anomalyRecord_eq h a t s d w0) as (y & w' & R & T & _);
          rewrite R in Hx; cbn [fst] in Hx; injection Hx as <-; exact T
      end. }
    split.
    + split.
      * intros (x & Hx & T). rewrite (N x Hx) in T. discriminate T.
      * intros (_ & vr' & [= <-] & H). congruence.
    + intros x vr' Hx T. rewrite (N x Hx) in T. discriminate T.
Qed.

(** X2.  [detectAltitudeAnomaly] reports a rapid descent exactly for an
    airborne aircraft whose vertical rate is present and, in feet per
    minute, the rate times 196.85 as the run time computes it, below
    -4000, whatever the history holds; the report has severity high and
    carries that rate and the altitude in feet (0 when the altitude is
    absent or zero).  Rounding never crosses the threshold: a rapid
    descent is only reported when the product of the two factors, as real
    numbers, is below -4000. *)
Theorem rapid_descent_characterised host aircraft w :
  let fpm vr := Js.mul (Js.toNumber vr) (Js.toNumber 196.85) in
  ((exists x, fst (detectAltitudeAnomaly host aircraft w) = Some x
              /\ a_type x = rapid_descent)
   <-> (on_ground aircraft = false
        /\ exists vr, vertical_rate aircraft = Some vr
                      /\ Js.lt (fpm vr) (Js.toNumber (-4000)) = true))
  /\ (forall x vr,
         fst (detectAltitudeAnomaly host aircraft w) = Some x ->
         a_type x = rapid_descent ->
         vertical_rate aircraft = Some vr ->
         severity x = high
         /\ details x
            = RapidDescentDetails (fpm vr)
                match baro_altitude aircraft with
                | Some alt =>
                    if Js.truthyNumber (Js.toNumber alt)
                    then Js.mul (Js.toNumber alt) (Js.toNumber 3.281)
                    else Js.Finite 0
                | None => Js.Finite 0
                end)
  /\ (forall x vr a b,
         fst (detectAltitudeAnomaly host aircraft w) = Some x ->
         a_type x = rapid_descent ->
         vertical_rate aircraft = Some vr ->
         Js.toNumber vr = Js.Finite a ->
         Js.toNumber 196.85 = Js.Finite b ->
         (a * b < -4000)%Q).
Proof.
  intros fpm.
  destruct (detectAltitudeAnomaly_rapid_descent host aircraft w) as (Rapid & About).
  fold fpm in Rapid, About.
  split; [exact Rapid|]. split; [exact About|].
  intros x vr a b Hx Ty V Ha Hb.
  destruct (proj1 Rapid (ex_intro _ x (conj Hx Ty))) as (_ & vr' & V' & L).
  rewrite V in V'. injection V' as <-.
  unfold fpm in L. rewrite Ha, Hb in L.
  apply (lt_threshold (a * b) (-4000)); [lia | exact L].
Qed.

Lemma rapid_descent_characterised_witness :
  exists x,
    fst (detectAltitudeAnomaly pollHost (airborne 3000 (Some (-25)%Q) 1700000060)
           afterFirstSighting) = Some x
    /\ a_type x = rapid_descent.
Proof.
  apply (proj1 (rapid_descent_characterised pollHost
                  (airborne 3000 (Some (-25)%Q) 1700000060) afterFirstSighting)).
  split; [reflexivity|]. exists (-25)%Q. split; [reflexivity|].
  vm_compute. reflexivity.
Defined.

(** ** Go-around *)









(** ** Holding pattern *)










(** ** What one pass reports *)

Ltac solve_detector_about :=
  intros * H; unfold_monad;
  repeat (first [ discriminate H
                | progress cbn [fst snd] in H
                | match type of H with
                  | context [match ?e with _ => _ end] => destruct e eqn:?
                  end
                | injection H as <- <-; cbn; repeat split ]).

Lemma detectEmergencySquawk_about host aircraft w x w' :
  detectEmergencySquawk host aircraft w = (Some x, w') ->
  flight_icao24 x = icao24 aircraft /\ a_callsign x = callsign aircraft
  /\ clientUntouched w w'.
Proof. unfold detectEmergencySquawk, clientUntouched. solve_detector_about. Qed.

Lemma detectAltitudeAnomaly_about host aircraft w x w' :
  detectAltitudeAnomaly host aircraft w = (Some x, w') ->
  flight_icao24 x = icao24 aircraft /\ a_callsign x = callsign aircraft
  /\ clientUntouched w w'.
Proof. unfold detectAltitudeAnomaly, clientUntouched. solve_detector_about. Qed.

Lemma detectHoldingPattern_about host aircraft w x w' :
  detectHoldingPattern host aircraft w = (Some x, w') ->
  flight_icao24 x = icao24 aircraft /\ a_callsign x = callsign aircraft
  /\ clientUntouched w w'.
Proof. unfold detectHoldingPattern, clientUntouched. solve_detector_about. Qed.

Lemma detectSpeedAnomaly_about host aircraft w x w' :
  detectSpeedAnomaly host aircraft w = (Some x, w') ->
  flight_icao24 x = icao24 aircraft /\ a_callsign x = callsign aircraft
  /\ clientUntouched w w'.
Proof. unfold detectSpeedAnomaly, clientUntouched. solve_detector_about. Qed.

Lemma detectGoAround_about host aircraft w x w' :
  detectGoAround host aircraft w = (Some x, w') ->
  flight_icao24 x = icao24 aircraft /\ a_callsign x = callsign aircraft
  /\ clientUntouched w w'.
Proof. unfold detectGoAround, clientUntouched. solve_detector_about. Qed.

Ltac solve_detector_silent :=
  intros * H; unfold_monad;
  repeat (first [ discriminate H
                | progress cbn [fst snd] in H
                | match type of H with
                  | context [match ?e with _ => _ end] => destruct e eqn:?
                  end
                | injection H as <-; reflexivity ]).

(** A detector that reports nothing leaves the state as it was. *)
Lemma detectEmergencySquawk_silent host aircraft w w' :
  detectEmergencySquawk host aircraft w = (None, w') -> w' = w.
Proof. unfold detectEmergencySquawk. solve_detector_silent. Qed.

Lemma detectAltitudeAnomaly_silent host aircraft w w' :
  detectAltitudeAnomaly host aircraft w = (None, w') -> w' = w.
Proof. unfold detectAltitudeAnomaly. solve_detector_silent. Qed.

Lemma detectHoldingPattern_silent host aircraft w w' :
  detectHoldingPattern host aircraft w = (None, w') -> w' = w.
Proof. unfold detectHoldingPattern. solve_detector_silent. Qed.

Lemma detectSpeedAnomaly_silent host aircraft w w' :
  detectSpeedAnomaly host aircraft w = (None, w') -> w' = w.
Proof. unfold detectSpeedAnomaly. solve_detector_silent. Qed.

Lemma detectGoAround_silent host aircraft w w' :
  detectGoAround host aircraft w = (None, w') -> w' = w.
Proof. unfold detectGoAround. solve_detector_silent. Qed.

Lemma clientUntouched_refl w : clientUntouched w w.
Proof. repeat split. Qed.

Lemma clientUntouched_trans w1 w2 w3 :
  clientUntouched w1 w2 -> clientUntouched w2 w3 -> clientUntouched w1 w3.
Proof.
  unfold clientUntouched. intros (A & B & C & D) (A' & B' & C' & D').
  repeat split; congruence.
Qed.

(** What a detector's outcome is known to satisfy. *)
Lemma detector_outcome host aircraft :
  forall w,
    (forall o w', detectEmergencySquawk host aircraft w = (o, w') ->
        clientUntouched w w'
        /\ forall x, o = Some x ->
             a_type x = emergency_squawk /\ severity x = critical
             /\ flight_icao24 x = icao24 aircraft /\ a_callsign x = callsign aircraft)
    /\ (forall o w', detectAltitudeAnomaly host aircraft w = (o, w') ->
        clientUntouched w w'
        /\ forall x, o = Some x ->
             (a_type x = rapid_descent \/ a_type x = altitude_drop)
             /\ severity x = high
             /\ flight_icao24 x = icao24 aircraft /\ a_callsign x = callsign aircraft)
    /\ (forall o w', detectHoldingPattern host aircraft w = (o, w') ->
        clientUntouched w w'
        /\ forall x, o = Some x ->
             a_type x = holding_pattern /\ severity x = medium
             /\ flight_icao24 x = icao24 aircraft /\ a_callsign x = callsign aircraft)
    /\ (forall o w', detectSpeedAnomaly host aircraft w = (o, w') ->
        clientUntouched w w'
        /\ forall x, o = Some x ->
             a_type x = unusual_speed /\ (severity x = medium \/ severity x = low)
             /\ flight_icao24 x = icao24 aircraft /\ a_callsign x = callsign aircraft)
    /\ (forall o w', detectGoAround host aircraft w = (o, w') ->
        clientUntouched w w'
        /\ forall x, o = Some x ->
             a_type x = go_around /\ severity x = medium
             /\ flight_icao24 x = icao24 aircraft /\ a_callsign x = callsign aircraft).
Proof.
  intros w.
  split; [|split; [|split; [|split]]]; intros [x|] w' E.
  - destruct (detectEmergencySquawk_about _ _ _ _ _ E) as (I & C & U).
    destruct (detectEmergencySquawk_type _ _ _ _ _ E) as (T & S).
    split; [exact U|]. intros y [= <-]. auto.
  - rewrite (detectEmergencySquawk_silent _ _ _ _ E).
    split; [apply clientUntouched_refl|]. intros y [= ].
  - destruct (detectAltitudeAnomaly_about _ _ _ _ _ E) as (I & C & U).
    destruct (detectAltitudeAnomaly_type _ _ _ _ _ E) as (T & S).
    split; [exact U|]. intros y [= <-]. auto.
  - rewrite (detectAltitudeAnomaly_silent _ _ _ _ E).
    split; [apply clientUntouched_refl|]. intros y [= ].
  - destruct (detectHoldingPattern_about _ _ _ _ _ E) as (I & C & U).
    destruct (detectHoldingPattern_type _ _ _ _ _ E) as (T & S).
    split; [exact U|]. intros y [= <-]. auto.
  - rewrite (detectHoldingPattern_silent _ _ _ _ E).
    split; [apply clientUntouched_refl|]. intros y [= ].
  - destruct (detectSpeedAnomaly_about _ _ _ _ _ E) as (I & C & U).
    destruct (detectSpeedAnomaly_type _ _ _ _ _ E) as (T & S).
    split; [exact U|]. intros y [= <-]. auto.
  - rewrite (detectSpeedAnomaly_silent _ _ _ _ E).
    split; [apply clientUntouched_refl|]. intros y [= ].
  - destruct (detectGoAround_about _ _ _ _ _ E) as (I & C & U).
    destruct (detectGoAround_type _ _ _ _ _ E) as (T & S).
    split; [exact U|]. intros y [= <-]. auto.
  - rewrite (detectGoAround_silent _ _ _ _ E).
    split; [apply clientUntouched_refl|]. intros y [= ].
Qed.

(** The list a pass returns: the reports of the five detectors, in their
    order. *)
Lemma runDetectors_shape host aircraft w :
  exists o1 o2 o3 o4 o5 w1 w2 w3 w4 w5,
    detectEmergencySquawk host aircraft w = (o1, w1)
    /\ detectAltitudeAnomaly host aircraft w1 = (o2, w2)
    /\ detectHoldingPattern host aircraft w2 = (o3, w3)
    /\ detectSpeedAnomaly host aircraft w3 = (o4, w4)
    /\ detectGoAround host aircraft w4 = (o5, w5)
    /\ runDetectors (detectors host) aircraft [] w
       = (option_list o1 ++ option_list o2 ++ option_list o3
          ++ option_list o4 ++ option_list o5, w5).
Proof.
  unfold detectors. cbn [runDetectors]. unfold bind, ret.
  destruct (detectEmergencySquawk host aircraft w) as [o1 w1] eqn:E1.
  destruct (detectAltitudeAnomaly host aircraft w1) as [o2 w2] eqn:E2.
  destruct (detectHoldingPattern host aircraft w2) as [o3 w3] eqn:E3.
  destruct (detectSpeedAnomaly host aircraft w3) as [o4 w4] eqn:E4.
  destruct (detectGoAround host aircraft w4) as [o5 w5] eqn:E5.
  exists o1, o2, o3, o4, o5, w1, w2, w3, w4, w5.
  split; [reflexivity|]. split; [exact E2|]. split; [exact E3|].
  split; [exact E4|]. split; [exact E5|].
  destruct o1, o2, o3, o4, o5; reflexivity.
Qed.

(** X6.  One pass over an aircraft returns at most five anomalies, no two
    of the same type; each names that aircraft's [icao24] and callsign and
    has a severity its type allows: critical for an emergency squawk, high
    for a rapid descent or an altitude drop, medium for a holding pattern
    or a go-around, medium or low for an unusual speed.  The types
    [route_deviation] and [diversion] are never reported. *)
Theorem pass_well_formed host aircraft w :
  let reported := fst (detectAnomalies host aircraft w) in
  (length reported <= 5)%nat
  /\ List.NoDup (map a_type reported)
  /\ Forall (fun x => flight_icao24 x = icao24 aircraft
                      /\ a_callsign x = callsign aircraft
                      /\ severityFits x) reported.
Proof.
  intros reported.
  assert (Shape : reported = []
                  \/ exists w0, reported
                                = fst (runDetectors (detectors host) aircraft [] w0)).
  { unfold reported, detectAnomalies.
    destruct (latitude aircraft); [|left; reflexivity].
    destruct (longitude aircraft); [|left; reflexivity].
    unfold bind. destruct (addToHistory host aircraft w) as [[] w0].
    right. exists w0. reflexivity. }
  destruct Shape as [-> | [w0 ->]]; [cbn; repeat constructor|].
  destruct (runDetectors_shape host aircraft w0)
    as (o1 & o2 & o3 & o4 & o5 & w1 & w2 & w3 & w4 & w5
        & E1 & E2 & E3 & E4 & E5 & R).
  rewrite R. cbn [fst].
  destruct (detector_outcome host aircraft w0) as (D1 & _).
  destruct (detector_outcome host aircraft w1) as (_ & D2 & _).
  destruct (detector_outcome host aircraft w2) as (_ & _ & D3 & _).
  destruct (detector_outcome host aircraft w3) as (_ & _ & _ & D4 & _).
  destruct (detector_outcome host aircraft w4) as (_ & _ & _ & _ & D5).
  destruct (D1 _ _ E1) as [_ F1]. destruct (D2 _ _ E2) as [_ F2].
  destruct (D3 _ _ E3) as [_ F3]. destruct (D4 _ _ E4) as [_ F4].
  destruct (D5 _ _ E5) as [_ F5].
  clear D1 D2 D3 D4 D5 E1 E2 E3 E4 E5 R.
  destruct o1 as [x1|], o2 as [x2|], o3 as [x3|], o4 as [x4|], o5 as [x5|];
    repeat match goal with
           | H : forall x, Some ?y = Some x -> _ |- _ =>
               let T := fresh "T" in
               let S := fresh "S" in
               let I := fresh "I" in
               let C := fresh "C" in
               destruct (H y eq_refl) as (T & S & I & C); clear H
           | H : forall x, None = Some x -> _ |- _ => clear H
           end;
    unfold option_list; cbn [option_rect app length map];
    (split; [lia|]);
    (split;
     [ repeat match goal with
              | H : _ \/ _ |- _ => destruct H
              end;
       repeat match goal with
              | H : a_type _ = _ |- _ => rewrite H; clear H
              end;
       repeat (constructor; [cbn; intuition discriminate|]); constructor
     | repeat (constructor;
               [ split; [assumption|]; split; [assumption|];
                 unfold severityFits;
                 repeat match goal with
                        | H : a_type ?x = _ \/ a_type ?x = _ |- _ => destruct H
                        end;
                 match goal with
                 | H : a_type ?x = _ |- context [a_type ?x] => rewrite H
                 end; assumption
               | ]);
       constructor ]).
Qed.

(** ** Track replay *)

Lemma detectAltitudeAnomaly_no_rate host aircraft w :
  vertical_rate aircraft = None ->
  detectAltitudeAnomaly host aircraft w = (None, w).
Proof.
  intros V. unfold detectAltitudeAnomaly. rewrite V.
  destruct (on_ground aircraft); reflexivity.
Qed.

Lemma detectSpeedAnomaly_no_velocity host aircraft w :
  velocity aircraft = None ->
  detectSpeedAnomaly host aircraft w = (None, w).
Proof.
  intros V. unfold detectSpeedAnomaly. rewrite V.
  destruct (on_ground aircraft); reflexivity.
Qed.

Lemma detectGoAround_no_rate host aircraft w :
  vertical_rate aircraft = None ->
  detectGoAround host aircraft w = (None, w).
Proof.
  intros V. unfold detectGoAround, bind, getHistory, gets, ret. rewrite V.
  destruct (length (default [] (aircraftHistory w !! icao24 aircraft)) <? 10)%nat;
    [reflexivity|].
  cbv zeta. rewrite andb_false_r. reflexivity.
Qed.

(** An aircraft without squawk, vertical rate and velocity can only be
    reported for a holding pattern. *)
Lemma detectAnomalies_bare host aircraft w :
  squawk aircraft = None ->
  vertical_rate aircraft = None ->
  velocity aircraft = None ->
  Forall (fun x => a_type x = holding_pattern
                   /\ severity x = medium
                   /\ flight_icao24 x = icao24 aircraft)
         (fst (detectAnomalies host aircraft w))
  /\ (length (fst (detectAnomalies host aircraft w)) <= 1)%nat.
Proof.
  intros Sq Vr Ve. unfold detectAnomalies.
  destruct (latitude aircraft); [|split; [constructor | cbn; lia]].
  destruct (longitude aircraft); [|split; [constructor | cbn; lia]].
  unfold bind. destruct (addToHistory host aircraft w) as [[] w0].
  destruct (runDetectors_shape host aircraft w0)
    as (o1 & o2 & o3 & o4 & o5 & w1 & w2 & w3 & w4 & w5
        & E1 & E2 & E3 & E4 & E5 & R).
  rewrite R. cbn [fst].
  rewrite detectEmergencySquawk_other in E1 by (rewrite Sq; exact I).
  injection E1 as <- <-.
  rewrite (detectAltitudeAnomaly_no_rate _ _ _ Vr) in E2. injection E2 as <- <-.
  rewrite (detectSpeedAnomaly_no_velocity _ _ _ Ve) in E4. injection E4 as <- <-.
  rewrite (detectGoAround_no_rate _ _ _ Vr) in E5. injection E5 as <- <-.
  destruct o3 as [x|]; cbn; [|split; [constructor | lia]].
  destruct (detectHoldingPattern_type _ _ _ _ _ E3) as (T & S).
  destruct (detectHoldingPattern_about _ _ _ _ _ E3) as (Ic & _).
  split; [|lia]. constructor; [auto | constructor].
Qed.

Lemma analyzePoints_holding_only host track points :
  forall anomalies w,
    Forall (fun x => a_type x = holding_pattern
                     /\ severity x = medium
                     /\ flight_icao24 x = t_icao24 track) anomalies ->
    Forall (fun x => a_type x = holding_pattern
                     /\ severity x = medium
                     /\ flight_icao24 x = t_icao24 track)
           (fst (analyzePoints host track points anomalies w))
    /\ (length (fst (analyzePoints host track points anomalies w))
        <= length anomalies + length points)%nat.
Proof.
  induction points as [|point rest IH]; intros anomalies w H;
    cbn [analyzePoints].
  - unfold ret. cbn. split; [exact H | lia].
  - assert (Skip : Forall (fun x => a_type x = holding_pattern
                                     /\ severity x = medium
                                     /\ flight_icao24 x = t_icao24 track)
                     (fst (analyzePoints host track rest anomalies w))
                   /\ (length (fst (analyzePoints host track rest anomalies w))
                       <= length anomalies + length (point :: rest))%nat).
    { destruct (IH anomalies w H) as [A B]. split; [exact A | cbn; lia]. }
    destruct (p_latitude point); [|exact Skip].
    destruct (p_longitude point); [|exact Skip].
    unfold bind.
    destruct (detectAnomalies_bare host (pseudoAircraft track point) w
                eq_refl eq_refl eq_refl) as [D L].
    destruct (detectAnomalies host (pseudoAircraft track point) w)
      as [detected w'].
    cbn [fst] in D, L.
    destruct (IH (anomalies ++ detected) w') as [A B].
    + apply Forall_app. split; [exact H | exact D].
    + split; [exact A|]. rewrite length_app in B. cbn [length]. lia.
Qed.

(** X7.  A track replay can only report holding patterns: the pseudo
    aircraft built from a track point has no squawk, no vertical rate and
    no velocity, so every anomaly [analyzeFlightTrack] returns is a
    medium holding pattern of the track's aircraft, and there is at most
    one per point. *)
Theorem analyzeFlightTrack_holding_only host track w :
  Forall (fun x => a_type x = holding_pattern
                   /\ severity x = medium
                   /\ flight_icao24 x = t_icao24 track)
         (fst (analyzeFlightTrack host track w))
  /\ (length (fst (analyzeFlightTrack host track w)) <= length (path track))%nat.
Proof.
  unfold analyzeFlightTrack.
  destruct (analyzePoints_holding_only host track (path track) [] w) as [A B];
    [constructor|].
  split; [exact A | exact B].
Qed.

Lemma analyzeFlightTrack_holding_only_witness :
  (length (fst (analyzeFlightTrack sampleHost sampleTrack emptyWorld)) <= 3)%nat.
Proof.
  apply (proj2 (analyzeFlightTrack_holding_only sampleHost sampleTrack emptyWorld)).
Defined.

(** ** The two services keep apart *)

Lemma runDetectors_client host aircraft w :
  clientUntouched w (snd (runDetectors (detectors host) aircraft [] w)).
Proof.
  destruct (runDetectors_shape host aircraft w)
    as (o1 & o2 & o3 & o4 & o5 & w1 & w2 & w3 & w4 & w5
        & E1 & E2 & E3 & E4 & E5 & R).
  rewrite R. cbn [snd].
  destruct (detector_outcome host aircraft w) as (D1 & _).
  destruct (detector_outcome host aircraft w1) as (_ & D2 & _).
  destruct (detector_outcome host aircraft w2) as (_ & _ & D3 & _).
  destruct (detector_outcome host aircraft w3) as (_ & _ & _ & D4 & _).
  destruct (detector_outcome host aircraft w4) as (_ & _ & _ & _ & D5).
  eapply clientUntouched_trans; [apply (D1 _ _ E1)|].
  eapply clientUntouched_trans; [apply (D2 _ _ E2)|].
  eapply clientUntouched_trans; [apply (D3 _ _ E3)|].
  eapply clientUntouched_trans; [apply (D4 _ _ E4)|].
  apply (D5 _ _ E5).
Qed.

Lemma statesBegin_history host key logs w :
  aircraftHistory (snd (statesBegin host key logs w)) = aircraftHistory w.
Proof.
  destruct (getCached host key w) as [cached w1] eqn:E.
  destruct (getCached_frame _ _ _ _ _ E) as (_ & _ & _ & _ & H).
  destruct (isFresh cached) eqn:F.
  - destruct cached as [[payload [|]]|]; try discriminate F.
    rewrite (statesBegin_fresh _ _ _ _ _ _ E). exact H.
  - rewrite (statesBegin_not_fresh _ _ _ _ _ _ E F), gateOrStart_eq.
    destruct (wallClock host (ticks w1) <? backoffUntil w1)%Z.
    + destruct logs; exact H.
    + destruct (bool_decide (key ∈ inflightRequests w1)); exact H.
Qed.

Lemma statesResume_history host key cached reply w :
  aircraftHistory (snd (statesResume host key cached reply w)) = aircraftHistory w.
Proof.
  unfold statesResume, statesTry, setCache, bind, ret, modify, dateNow.
  destruct reply as [| |[states|]|]; try reflexivity.
  destruct (Js.mapC parseStateVector states); reflexivity.
Qed.

(** X8.  Detection and acquisition share no state.  A pass over an
    aircraft leaves the response cache, the cooldown deadline, the
    in-flight markers and the count of upstream exchanges as they were,
    and changes no history window but that aircraft's own; the state
    requests, whatever the upstream answers, never change a history
    window. *)
Theorem services_keep_apart host w :
  (forall aircraft,
      clientUntouched w (snd (detectAnomalies host aircraft w))
      /\ forall other,
           other <> icao24 aircraft ->
           aircraftHistory (snd (detectAnomalies host aircraft w)) !! other
           = aircraftHistory w !! other)
  /\ (forall key logs,
         aircraftHistory (snd (statesBegin host key logs w)) = aircraftHistory w)
  /\ (forall key cached reply,
         aircraftHistory (snd (statesResume host key cached reply w))
         = aircraftHistory w).
Proof.
  split; [|split].
  - intros aircraft. unfold detectAnomalies.
    destruct (latitude aircraft);
      [|split; [apply clientUntouched_refl | reflexivity]].
    destruct (longitude aircraft);
      [|split; [apply clientUntouched_refl | reflexivity]].
    unfold bind. rewrite addToHistory_eq.
    match goal with
    | |- context [runDetectors _ _ _ ?w0] =>
        pose proof (runDetectors_client host aircraft w0) as C;
        pose proof (runDetectors_frame host aircraft [] w0) as F;
        destruct (runDetectors (detectors host) aircraft [] w0) as [out w']
    end.
    cbn [snd] in *. split.
    + destruct C as (C1 & C2 & C3 & C4). repeat split; assumption.
    + intros other Ho. rewrite F. cbn [aircraftHistory withHistory].
      apply lookup_insert_ne. congruence.
  - intros key logs. apply statesBegin_history.
  - intros key cached reply. apply statesResume_history.
Qed.

Lemma services_keep_apart_witness :
  aircraftHistory (snd (detectAnomalies sampleHost (squawking "7700") orbitWorld))
    !! "zzzzzz"
  = aircraftHistory orbitWorld !! "zzzzzz".
Proof.
  apply (proj1 (services_keep_apart sampleHost orbitWorld) (squawking "7700")).
  discriminate.
Defined.

(** ** Order of a history window *)

Lemma seconds_lt a b : (a < b)%Z -> (seconds a < seconds b)%Q.
Proof.
  intros H. unfold seconds, Qlt, Qdiv, Qmult, Qinv, inject_Z. cbn. lia.
Qed.

Lemma ageTrim_app cutoff xs ys :
  ageTrim cutoff (xs ++ ys) = ageTrim cutoff xs ++ ageTrim cutoff ys.
Proof. unfold ageTrim. apply List.filter_app. Qed.

Lemma countTrim_snoc history e :
  exists older, countTrim (history ++ [e]) = older ++ [e]
                /\ (length older <= 99)%nat.
Proof.
  unfold countTrim, HISTORY_MAX_SIZE. rewrite length_app. cbn [length].
  destruct (100 <? length history + 1)%nat eqn:L.
  - apply Nat.ltb_lt in L.
    exists (skipn (length history + 1 - 100) history). split.
    + rewrite skipn_app.
      replace (length history + 1 - 100 - length history)%nat with 0%nat by lia.
      reflexivity.
    + rewrite length_skipn. lia.
  - apply Nat.ltb_ge in L. exists history. split; [reflexivity | lia].
Qed.

(** X9.  When the second clock read of [addToHistory] is less than 30
    minutes after the first, the newest entry of the aircraft's window is
    the inserted state, stamped with the first read; at most 99 older
    entries precede it. *)
Theorem addToHistory_newest_last host aircraft w :
  (wallClock host (S (ticks w)) - wallClock host (ticks w) < 1800000)%Z ->
  exists older,
    aircraftHistory (snd (addToHistory host aircraft w)) !! icao24 aircraft
    = Some (older ++ [stamped aircraft (seconds (wallClock host (ticks w)))])
    /\ (length older <= 99)%nat.
Proof.
  intros H. rewrite addToHistory_eq. cbn [snd aircraftHistory withHistory].
  rewrite lookup_insert_eq, ageTrim_app.
  set (e := stamped aircraft (seconds (wallClock host (ticks w)))).
  assert (K : ageTrim (seconds (wallClock host (S (ticks w)))
                       - HISTORY_RETENTION_MS / 1000)%Q [e] = [e]).
  { unfold ageTrim. cbn [List.filter].
    assert (G : Js.gtb (last_contact e)
                  (seconds (wallClock host (S (ticks w)))
                   - HISTORY_RETENTION_MS / 1000)%Q = true).
    { apply gtb_spec. unfold e. cbn [last_contact stamped].
      rewrite retention_seconds.
      assert (S1 : (seconds (wallClock host (S (ticks w)) - 1800000)
                    < seconds (wallClock host (ticks w)))%Q)
        by (apply seconds_lt; lia).
      assert (S2 : (seconds (wallClock host (S (ticks w)) - 1800000)
                    == seconds (wallClock host (S (ticks w))) - 1800)%Q).
      { unfold seconds. unfold Z.sub. rewrite inject_Z_plus.
        change (inject_Z (- (1800000))) with (-1800000)%Q. field. }
      rewrite <- S2. exact S1. }
    rewrite G. reflexivity. }
  rewrite K.
  destruct (countTrim_snoc
              (ageTrim (seconds (wallClock host (S (ticks w)))
                        - HISTORY_RETENTION_MS / 1000)%Q
                 (default [] (aircraftHistory w !! icao24 aircraft))) e)
    as (older & E & L).
  rewrite E. exists older. auto.
Qed.

Lemma addToHistory_newest_last_witness :
  exists older,
    aircraftHistory (snd (addToHistory pollHost (airborne 3000 None 1700000060)
                            afterFirstSighting)) !! "a1b2c3"
    = Some (older ++ [stamped (airborne 3000 None 1700000060)
                        (seconds (wallClock pollHost (ticks afterFirstSighting)))])
    /\ (length older <= 99)%nat.
Proof.
  apply (addToHistory_newest_last pollHost (airborne 3000 None 1700000060)
           afterFirstSighting).
  vm_compute. reflexivity.
Defined.


Lemma stampsAscend_snoc history e :
  stampsAscend history ->
  Forall (fun a => (last_contact a <= last_contact e)%Q) history ->
  stampsAscend (history ++ [e]).
Proof.
  unfold stampsAscend. induction 1 as [|x rest Hs IH Hx]; intros He; cbn [app].
  - constructor; constructor.
  - inversion He as [|? ? Hxe Hrest]; subst. constructor.
    + apply IH. exact Hrest.
    + apply Forall_app. split; [exact Hx|]. constructor; [exact Hxe | constructor].
Qed.

Lemma stampsAscend_suffix dropped history :
  stampsAscend (dropped ++ history) -> stampsAscend history.
Proof.
  unfold stampsAscend. induction dropped as [|x rest IH]; cbn [app]; [auto|].
  intros H. inversion H; subst. auto.
Qed.

(** On a window whose stamps ascend the age trim drops a prefix. *)
Lemma ageTrim_suffix cutoff history :
  stampsAscend history ->
  exists dropped, history = dropped ++ ageTrim cutoff history.
Proof.
  unfold stampsAscend. induction 1 as [|x rest Hs IH Hx].
  - exists []. reflexivity.
  - unfold ageTrim. cbn [List.filter].
    destruct (Js.gtb (last_contact x) cutoff) eqn:G.
    + apply gtb_spec in G. exists []. cbn [app]. f_equal.
      symmetry. apply List.forallb_filter_id. apply List.forallb_forall.
      intros y Hy. apply gtb_spec.
      rewrite List.Forall_forall in Hx. specialize (Hx y Hy). cbv beta in Hx. lra.
    + destruct IH as [dropped E]. exists (x :: dropped).
      cbn [app]. f_equal. exact E.
Qed.

(** X10.  When the stamps of an aircraft's window ascend and none is later
    than the first clock read of [addToHistory], the insert only drops
    oldest entries: the new window is a suffix of the old one with the new
    entry appended, and its stamps again ascend and are no later than that
    read. *)
Theorem addToHistory_keeps_order host aircraft w :
  let before := default [] (aircraftHistory w !! icao24 aircraft) in
  let entry := stamped aircraft (seconds (wallClock host (ticks w))) in
  stampsAscend before ->
  Forall (fun a => (last_contact a <= last_contact entry)%Q) before ->
  exists window dropped,
    aircraftHistory (snd (addToHistory host aircraft w)) !! icao24 aircraft
    = Some window
    /\ before ++ [entry] = dropped ++ window
    /\ stampsAscend window
    /\ Forall (fun a => (last_contact a <= last_contact entry)%Q) window.
Proof.
  intros before entry Hs Hb.
  rewrite addToHistory_eq. cbn [snd aircraftHistory withHistory].
  rewrite lookup_insert_eq. fold before entry.
  set (cutoffTime := (seconds (wallClock host (S (ticks w)))
                      - HISTORY_RETENTION_MS / 1000)%Q).
  assert (Hall : stampsAscend (before ++ [entry]))
    by (apply stampsAscend_snoc; assumption).
  destruct (ageTrim_suffix cutoffTime (before ++ [entry]) Hall) as [d1 E1].
  destruct (countTrim_suffix (ageTrim cutoffTime (before ++ [entry]))) as [d2 E2].
  exists (countTrim (ageTrim cutoffTime (before ++ [entry]))), (d1 ++ d2).
  assert (E : before ++ [entry]
              = (d1 ++ d2) ++ countTrim (ageTrim cutoffTime (before ++ [entry]))).
  { rewrite <- app_assoc, <- E2. exact E1. }
  split; [reflexivity|]. split; [exact E|]. split.
  - apply (stampsAscend_suffix (d1 ++ d2)). rewrite <- E. exact Hall.
  - assert (F : Forall (fun a => (last_contact a <= last_contact entry)%Q)
                  (before ++ [entry])).
    { apply Forall_app. split; [exact Hb|].
      constructor; [apply Qle_refl | constructor]. }
    rewrite E in F. apply Forall_app in F. tauto.
Qed.

Lemma addToHistory_keeps_order_witness :
  exists window dropped,
    aircraftHistory (snd (addToHistory pollHost (airborne 3000 None 1700000060)
                            afterFirstSighting)) !! "a1b2c3" = Some window
    /\ default [] (aircraftHistory afterFirstSighting !! "a1b2c3")
       ++ [stamped (airborne 3000 None 1700000060)
             (seconds (wallClock pollHost (ticks afterFirstSighting)))]
       = dropped ++ window.
Proof.
  destruct (addToHistory_keeps_order pollHost (airborne 3000 None 1700000060)
              afterFirstSighting) as (window & dropped & E & S & _).
  - vm_compute. constructor; constructor.
  - vm_compute. constructor; [discriminate | constructor].
  - exists window, dropped. split; [exact E | exact S].
Defined.


(* ===================================================================== *)
(** * Further properties of the client *)
(* ===================================================================== *)

(** ** Cache round trip *)

(** X11.  A payload written with [setCache] is what the next [getCached]
    of that key finds: flagged fresh when that lookup reads the clock less
    than 15 s after the write, stale when less than 300 s after, and not
    found from then on.  A write replaces the entry of its key and leaves
    the entries of all other keys alone. *)
Theorem cache_round_trip host key payload w :
  let written := snd (setCache host key payload w) in
  let age := (wallClock host (S (ticks w)) - wallClock host (ticks w))%Z in
  fst (getCached host key written)
  = (if (age <? 15000)%Z then Some (payload, true)
     else if (age <? 300000)%Z then Some (payload, false)
     else None)
  /\ responseCache written !! key
     = Some (mkCacheEntry payload (wallClock host (ticks w)))
  /\ (forall key', key' <> key ->
                   responseCache written !! key' = responseCache w !! key')
  /\ (forall key', key' <> key ->
                   fst (getCached host key' written)
                   = fst (getCached host key' (withTicks (S (ticks w)) w))).
Proof.
  intros written age.
  assert (W : written
              = withCache (<[key := mkCacheEntry payload (wallClock host (ticks w))]>
                             (responseCache w))
                  (withTicks (S (ticks w)) w)) by reflexivity.
  assert (L : responseCache written !! key
              = Some (mkCacheEntry payload (wallClock host (ticks w))))
    by (rewrite W; cbn [responseCache withCache]; apply lookup_insert_eq).
  assert (O : forall key', key' <> key ->
                           responseCache written !! key' = responseCache w !! key').
  { intros key' Hk. rewrite W. cbn [responseCache withCache withTicks].
    apply lookup_insert_ne. congruence. }
  split; [|split; [exact L | split; [exact O|]]].
  - rewrite getCached_eq, L. cbv zeta. cbn [timestamp data fst].
    rewrite W. cbn [ticks withCache withTicks]. fold age.
    unfold CACHE_TTL_MS, STALE_TTL_MS.
    destruct (age <? 15000)%Z; [reflexivity|].
    destruct (age <? 300000)%Z; reflexivity.
  - intros key' Hk. rewrite !getCached_eq, (O key' Hk).
    cbn [responseCache withTicks].
    destruct (responseCache w !! key') as [e|]; [|reflexivity].
    rewrite W. reflexivity.
Qed.

Lemma cache_round_trip_witness :
  fst (getCached sampleHost "all_states"
         (snd (setCache sampleHost "all_states" [] emptyWorld)))
  = Some ([], true).
Proof.
  apply (proj1 (cache_round_trip sampleHost "all_states" [] emptyWorld)).
Defined.

(** ** In-flight marker *)

Lemma statesResume_marker host key cached reply w :
  inflightRequests (snd (statesResume host key cached reply w))
  = inflightRequests w ∖ {[key]}.
Proof.
  unfold statesResume, bind at 1.
  pose proof (statesTry_frame host key cached reply w) as [_ I].
  destruct (statesTry host key cached reply w) as [attempt w1].
  cbn [snd] in I. unfold bind, modify, ret. cbn. rewrite I. reflexivity.
Qed.

(** X12.  While an exchange for a request key is in flight, a further call
    with that key never starts a second one: it is served from the cache,
    or answered under backoff, or handed the promise in flight.  The
    marker is set by the call that starts the exchange and cleared when
    the exchange ends, however it ends, other keys' markers staying as
    they are. *)
Theorem inflight_deduplicates host key logs w :
  (key ∈ inflightRequests w ->
   exists outcome w',
     statesBegin host key logs w = (outcome, w')
     /\ (forall cached, outcome <> Pending cached)
     /\ upstreamCalls w' = upstreamCalls w
     /\ inflightRequests w' = inflightRequests w)
  /\ (forall cached w',
         statesBegin host key logs w = (Pending cached, w') ->
         key ∈ inflightRequests w'
         /\ key ∉ inflightRequests w)
  /\ (forall cached reply,
         (key ∉ inflightRequests (snd (statesResume host key cached reply w)))
         /\ (forall key', key' <> key ->
              (key' ∈ inflightRequests (snd (statesResume host key cached reply w))
               <-> key' ∈ inflightRequests w))).
Proof.
  split; [|split].
  - intros Hin.
    destruct (getCached host key w) as [cached w1] eqn:E.
    destruct (getCached_frame _ _ _ _ _ E) as (_ & _ & I & U & _).
    destruct (isFresh cached) eqn:F.
    + destruct cached as [[payload [|]]|]; try discriminate F.
      rewrite (statesBegin_fresh _ _ _ _ _ _ E).
      exists (Settled payload), w1. split; [reflexivity|].
      split; [discriminate|]. auto.
    + rewrite (statesBegin_not_fresh _ _ _ _ _ _ E F), gateOrStart_eq.
      destruct (wallClock host (ticks w1) <? backoffUntil w1)%Z.
      * eexists. eexists. split; [reflexivity|]. split; [discriminate|].
        destruct logs; cbn; auto.
      * rewrite bool_decide_eq_true_2 by (rewrite I; exact Hin).
        eexists. eexists. split; [reflexivity|]. split; [discriminate|].
        cbn. auto.
  - intros cached w' E.
    destruct (getCached host key w) as [c w1] eqn:G.
    destruct (getCached_frame _ _ _ _ _ G) as (_ & _ & I & _ & _).
    destruct (isFresh c) eqn:F.
    + destruct c as [[payload [|]]|]; try discriminate F.
      rewrite (statesBegin_fresh _ _ _ _ _ _ G) in E. discriminate E.
    + rewrite (statesBegin_not_fresh _ _ _ _ _ _ G F), gateOrStart_eq in E.
      destruct (wallClock host (ticks w1) <? backoffUntil w1)%Z;
        [discriminate E|].
      destruct (bool_decide (key ∈ inflightRequests w1)) eqn:B;
        [discriminate E|].
      apply bool_decide_eq_false in B. injection E as _ <-. cbn. split.
      * apply elem_of_union. left. apply elem_of_singleton. reflexivity.
      * rewrite <- I. exact B.
  - intros cached reply. rewrite statesResume_marker. split.
    + intros Hin. apply elem_of_difference in Hin as [_ Hin].
      apply Hin, elem_of_singleton. reflexivity.
    + intros key' Hk. rewrite elem_of_difference, elem_of_singleton. tauto.
Qed.

Lemma inflight_deduplicates_witness :
  exists outcome w',
    getAllStates_begin raceHost (snd race1) = (outcome, w')
    /\ upstreamCalls w' = upstreamCalls (snd race1).
Proof.
  destruct (proj1 (inflight_deduplicates raceHost "all_states" true (snd race1)))
    as (outcome & w' & E & _ & U & _).
  - vm_compute. reflexivity.
  - exists outcome, w'. auto.
Defined.

(** ** Failures *)

Lemma parseStateVector_rejects state :
  Js.truthy (Js.index state 1) = true ->
  isString (Js.index state 1) = false ->
  parseStateVector state = Js.Throws (Js.TypeError "trim is not a function").
Proof.
  intros T S. unfold parseStateVector, parseCallsign. rewrite T.
  destruct (Js.index state 1); try reflexivity. discriminate S.
Qed.

Lemma mapC_throws {A B} (f : A -> Js.Completion B) xs x e :
  In x xs -> f x = Js.Throws e -> exists e', Js.mapC f xs = Js.Throws e'.
Proof.
  induction xs as [|y rest IH]; intros Hin Hx; [destruct Hin|].
  cbn [Js.mapC]. destruct (f y) as [b|e0] eqn:Fy; [|cbn; eauto].
  cbn [Js.bindC]. destruct Hin as [-> | Hin]; [congruence|].
  destruct (IH Hin Hx) as [e' E]. rewrite E. cbn. eauto.
Qed.

Lemma mapC_length {A B} (f : A -> Js.Completion B) xs ys :
  Js.mapC f xs = Js.Returns ys -> length ys = length xs.
Proof.
  revert ys. induction xs as [|x rest IH]; intros ys; cbn [Js.mapC].
  - intros [= <-]. reflexivity.
  - destruct (f x) as [b|e]; [|discriminate]. cbn [Js.bindC].
    destruct (Js.mapC f rest) as [bs|e]; [|discriminate]. cbn [Js.bindC].
    intros [= <-]. cbn [length]. f_equal. apply IH. reflexivity.
Qed.

Lemma mapC_returns {A B} (f : A -> Js.Completion B) xs :
  Forall (fun x => exists b, f x = Js.Returns b) xs ->
  exists ys, Js.mapC f xs = Js.Returns ys.
Proof.
  induction 1 as [|x rest [b Hx] _ [ys IH]]; cbn [Js.mapC].
  - eexists. reflexivity.
  - rewrite Hx. cbn [Js.bindC]. rewrite IH. cbn [Js.bindC]. eexists. reflexivity.
Qed.

(** X13.  When the exchange of a state request fails, by a status that is
    not OK (429 apart), by a rejected promise, or because one record of the
    response has a truthy callsign entry that is not a string, the caller
    gets the payload the call captured from the cache, or the empty list
    when it captured none; nothing is written to the cache, the deadline is
    not moved and the clock is not read.  One such record discards the
    whole response; a response without such a record is returned and
    cached in full, one result per record. *)
Theorem failure_degrades_to_cache host key cached w :
  let fallback :=
    match cached with
    | Some (payload, _) => payload
    | None => []
    end in
  (forall status,
      status <> 429%Z ->
      statesResume host key cached (NotOk status) w
      = (Js.Returns fallback, withInflight (inflightRequests w ∖ {[key]}) w))
  /\ (forall e,
         statesResume host key cached (Rejected e) w
         = (Js.Returns fallback, withInflight (inflightRequests w ∖ {[key]}) w))
  /\ (forall states state,
         In state states ->
         Js.truthy (Js.index state 1) = true ->
         isString (Js.index state 1) = false ->
         statesResume host key cached (Ok (Some states)) w
         = (Js.Returns fallback, withInflight (inflightRequests w ∖ {[key]}) w))
  /\ (forall states,
         Forall (fun state => Js.truthy (Js.index state 1) = true ->
                              isString (Js.index state 1) = true) states ->
         exists result w',
           statesResume host key cached (Ok (Some states)) w
           = (Js.Returns result, w')
           /\ length result = length states
           /\ responseCache w' !! key
              = Some (mkCacheEntry result (wallClock host (ticks w)))).
Proof.
  intros fallback.
  assert (F : cachedOrEmpty cached = fallback)
    by (unfold fallback, cachedOrEmpty; destruct cached as [[payload fresh]|];
        reflexivity).
  split; [|split; [|split]].
  - intros status _. rewrite <- F. reflexivity.
  - intros e. rewrite <- F. reflexivity.
  - intros states state Hin T S.
    destruct (mapC_throws parseStateVector states state _ Hin
                (parseStateVector_rejects state T S)) as [e E].
    unfold statesResume, statesTry. rewrite E, <- F. reflexivity.
  - intros states Hall.
    destruct (mapC_returns parseStateVector states) as [result E].
    { eapply Forall_impl; [exact Hall|]. cbn beta. intros state Hcs.
      destruct (parseStateVector_returns state Hcs) as (raw & R & _).
      exists raw. exact R. }
    destruct (statesResume_success host key cached states result w E)
      as (w' & R & C & _).
    exists result, w'. split; [exact R|]. split; [|exact C].
    apply (mapC_length _ _ _ E).
Qed.

Lemma failure_degrades_to_cache_witness :
  samplePayload <> []
  /\ fst stale3 = Pending (Some (samplePayload, false))
  /\ getAllStates_resume raceHost (Some (samplePayload, false))
       (Ok (Some [sampleState; badCallsignState])) (snd stale3)
     = (Js.Returns samplePayload,
        withInflight (inflightRequests (snd stale3) ∖ {["all_states"]}) (snd stale3)).
Proof.
  split; [discriminate|]. split; [vm_compute; reflexivity|].
  apply (proj1 (proj2 (proj2 (failure_degrades_to_cache raceHost "all_states"
                                (Some (samplePayload, false)) (snd stale3))))
           [sampleState; badCallsignState] badCallsignState).
  - right. left. reflexivity.
  - reflexivity.
  - reflexivity.
Defined.

(** ** Backoff across request keys *)

(** X14.  The cooldown is shared by all request keys: after a 429 on one
    key, a call with any key whose backoff check reads the clock less than
    60 s after the 429 was handled starts no exchange and is answered with
    the payload of its own cache entry when its lookup found one, else
    with the empty list. *)
Theorem backoff_is_global host key1 key2 logs cached w c w1 :
  getCached host key2 (snd (statesResume host key1 cached TooManyRequests w))
  = (c, w1) ->
  (wallClock host (ticks w1) < wallClock host (ticks w) + 60000)%Z ->
  exists result w2,
    statesBegin host key2 logs
      (snd (statesResume host key1 cached TooManyRequests w))
    = (Settled result, w2)
    /\ upstreamCalls w2 = upstreamCalls w
    /\ match c with
       | Some (payload, _) =>
           result = payload
           /\ exists e, responseCache w !! key2 = Some e /\ payload = data e
       | None => result = []
       end.
Proof.
  intros G H.
  destruct (statesResume_throttled host key1 cached w) as (w' & E & B & C & U).
  rewrite E in *. cbn [snd] in *.
  destruct (statesBegin_suppressed host key2 logs w' c w1 G) as (w2 & R & U2 & _).
  - rewrite B. exact H.
  - pose proof (getCached_spec _ _ _ _ _ G) as S. rewrite C in S.
    destruct c as [[payload fresh]|].
    + exists payload, w2. split; [exact R|]. split; [congruence|].
      split; [reflexivity|]. destruct S as (e & L & P & _). exists e. auto.
    + exists [], w2. split; [exact R|]. split; [congruence | reflexivity].
Qed.

Lemma backoff_is_global_witness :
  exists w2,
    samplePayload <> []
    /\ getAllStates_begin raceHost (snd crossed2) = (Settled samplePayload, w2)
    /\ upstreamCalls w2 = upstreamCalls (snd crossed1).
Proof.
  assert (G : exists w1,
             getCached raceHost "all_states" (snd crossed2)
             = (Some (samplePayload, false), w1)
             /\ ticks w1 = 5%nat)
    by (eexists; split; vm_compute; reflexivity).
  destruct G as (w1 & G & Tk).
  destruct (backoff_is_global raceHost (bboxCacheKey raceHost bayArea) "all_states"
              true None (snd crossed1) (Some (samplePayload, false)) w1 G)
    as (result & w2 & E & U & -> & _).
  - rewrite Tk. vm_compute. reflexivity.
  - exists w2. split; [discriminate|]. split; [exact E | exact U].
Defined.

(* ===================================================================== *)
(** * Further properties of the normaliser *)
(* ===================================================================== *)

(** ** Trimming *)

Lemma trim_start_noLeadingSpace cs : noLeadingSpace (Js.trim_start cs).
Proof.
  induction cs as [|c rest IH]; cbn [Js.trim_start]; [exact I|].
  destruct (Js.is_space c) eqn:E; [exact IH | exact E].
Qed.

Lemma trim_start_fixed cs : noLeadingSpace cs -> Js.trim_start cs = cs.
Proof.
  destruct cs as [|c rest]; [reflexivity|]. cbn. intros ->. reflexivity.
Qed.

Lemma trim_start_suffix cs :
  exists dropped, cs = dropped ++ Js.trim_start cs
                  /\ Forall (fun c => Js.is_space c = true) dropped.
Proof.
  induction cs as [|c rest IH]; cbn [Js.trim_start].
  - exists []. split; [reflexivity | constructor].
  - destruct (Js.is_space c) eqn:E.
    + destruct IH as (dropped & R & F). exists (c :: dropped). split.
      * cbn [app]. f_equal. exact R.
      * constructor; assumption.
    + exists []. split; [reflexivity | constructor].
Qed.

Lemma trim_start_blank cs :
  Forall (fun c => Js.is_space c = true) cs -> Js.trim_start cs = [].
Proof.
  induction 1 as [|c rest Hc _ IH]; cbn [Js.trim_start]; [reflexivity|].
  rewrite Hc. exact IH.
Qed.

(** Stripping the end of a list that does not start with white space
    leaves a list that does not start with white space. *)
Lemma trim_end_noLeadingSpace cs :
  noLeadingSpace cs -> noLeadingSpace (rev (Js.trim_start (rev cs))).
Proof.
  intros H. destruct (trim_start_suffix (rev cs)) as (dropped & E & _).
  apply (f_equal (@rev ascii)) in E. rewrite rev_involutive, rev_app_distr in E.
  destruct (rev (Js.trim_start (rev cs))) as [|c rest]; [exact I|].
  rewrite E in H. exact H.
Qed.

Lemma trim_chars s :
  list_ascii_of_string (Js.trim s)
  = rev (Js.trim_start (rev (Js.trim_start (list_ascii_of_string s)))).
Proof. unfold Js.trim. apply list_ascii_of_string_of_list_ascii. Qed.

Lemma trim_edgeFree s : edgeFree (Js.trim s).
Proof.
  unfold edgeFree. rewrite trim_chars. split.
  - apply trim_end_noLeadingSpace, trim_start_noLeadingSpace.
  - rewrite rev_involutive. apply trim_start_noLeadingSpace.
Qed.

Lemma trim_fixed s : edgeFree s -> Js.trim s = s.
Proof.
  intros [A B]. unfold Js.trim.
  rewrite (trim_start_fixed _ A), (trim_start_fixed _ B), rev_involutive.
  apply string_of_list_ascii_of_string.
Qed.

(** [trim] leaves a string with no white space at either end, does
    nothing to such a string (so trimming twice is trimming once), and
    turns a string of white space only into the empty string. *)
Theorem trim_normalises s :
  edgeFree (Js.trim s)
  /\ Js.trim (Js.trim s) = Js.trim s
  /\ (edgeFree s -> Js.trim s = s)
  /\ (Forall (fun c => Js.is_space c = true) (list_ascii_of_string s) ->
      Js.trim s = "").
Proof.
  split; [apply trim_edgeFree|].
  split; [apply trim_fixed, trim_edgeFree|].
  split; [apply trim_fixed|].
  intros H. unfold Js.trim. rewrite (trim_start_blank _ H). reflexivity.
Qed.

Lemma trim_normalises_witness : Js.trim "   " = "".
Proof.
  apply (proj2 (proj2 (proj2 (trim_normalises "   ")))).
  repeat constructor.
Defined.

(** ** Encoding and parsing *)

Lemma conforms_parse_encode a :
  exists raw,
    parseStateVector (encodeStateVector a) = Js.Returns raw
    /\ conforms raw
       = Some (withCallsign a (normalisedCallsign (ofNullableString (callsign a)))).
Proof.
  unfold parseStateVector, encodeStateVector. cbn [Js.index nth].
  rewrite parseCallsign_nullableString. cbn [Js.bindC].
  eexists. split; [reflexivity|].
  unfold conforms. cbn -[asNullableNumber asNullableString normalisedCallsign].
  rewrite !asNullableNumber_of, !asNullableString_of. reflexivity.
Qed.

Lemma withCallsign_same a : withCallsign a (callsign a) = a.
Proof. destruct a; reflexivity. Qed.

(** X15.  Parsing the array of an aircraft state gives that state back
    with its callsign normalised; it gives back the very same state
    exactly when the callsign is absent, or present, not empty and free of
    white space at both ends.  The array of any state matches the
    18-field schema. *)
Theorem parse_encode_round_trip a :
  matchesSchema (encodeStateVector a) = true
  /\ (exists raw,
         parseStateVector (encodeStateVector a) = Js.Returns raw
         /\ conforms raw
            = Some (withCallsign a
                      (normalisedCallsign (ofNullableString (callsign a)))))
  /\ ((exists raw,
          parseStateVector (encodeStateVector a) = Js.Returns raw
          /\ conforms raw = Some a)
      <-> match callsign a with
          | Some cs => cs <> "" /\ edgeFree cs
          | None => True
          end).
Proof.
  split; [|split; [apply conforms_parse_encode|]].
  - unfold matchesSchema, encodeStateVector, stateVectorSchema. cbn.
    destruct (callsign a), (time_position a), (longitude a), (latitude a),
      (baro_altitude a), (velocity a), (true_track a), (vertical_rate a),
      (geo_altitude a), (squawk a), (category a); reflexivity.
  - destruct (conforms_parse_encode a) as (raw & P & C).
    assert (K : normalisedCallsign (ofNullableString (callsign a)) = callsign a
                <-> match callsign a with
                    | Some cs => cs <> "" /\ edgeFree cs
                    | None => True
                    end).
    { destruct (callsign a) as [cs|]; cbn [ofNullableString normalisedCallsign];
        [|tauto].
      destruct (String.eqb_spec cs "") as [->|Ne].
      - split; [discriminate | intros [H _]; congruence].
      - split.
        + intros [= E]. split; [exact Ne|]. rewrite <- E. apply trim_edgeFree.
        + intros [_ F]. rewrite (trim_fixed _ F). reflexivity. }
    rewrite <- K. split.
    + intros (raw' & P' & C'). rewrite P in P'. injection P' as <-.
      rewrite C in C'. injection C' as C'.
      apply (f_equal callsign) in C'. exact C'.
    + intros E. exists raw. split; [exact P|]. rewrite C, E.
      rewrite withCallsign_same. reflexivity.
Qed.

Lemma parse_encode_round_trip_witness :
  exists raw,
    parseStateVector (encodeStateVector (airborne 3000 None 1700000060))
    = Js.Returns raw
    /\ conforms raw = Some (airborne 3000 None 1700000060).
Proof.
  apply (proj2 (proj2 (parse_encode_round_trip (airborne 3000 None 1700000060)))).
  split; [discriminate|]. split; cbn; reflexivity.
Defined.

(* ===================================================================== *)
(** * Further properties of the track request *)
(* ===================================================================== *)

Lemma conformsPoint_parse_encode p :
  conformsPoint (parseTrackPoint (encodeTrackPoint p)) = Some p.
Proof.
  unfold conformsPoint, parseTrackPoint, encodeTrackPoint.
  cbn -[asNullableNumber]. rewrite !asNullableNumber_of.
  destruct p; reflexivity.
Qed.

Lemma conformsPath_parse_encode ps :
  conformsPath (map parseTrackPoint (map encodeTrackPoint ps)) = Some ps.
Proof.
  induction ps as [|p rest IH]; [reflexivity|].
  cbn [map conformsPath]. rewrite conformsPoint_parse_encode, IH. reflexivity.
Qed.

Lemma asNumber_inv v n : asNumber v = Some n -> v = Js.Num n.
Proof. destruct v; try discriminate. intros [= ->]. reflexivity. Qed.

Lemma asString_inv v x : asString v = Some x -> v = Js.Str x.
Proof. destruct v; try discriminate. intros [= ->]. reflexivity. Qed.

Lemma asBoolean_inv v b : asBoolean v = Some b -> v = Js.Bool b.
Proof. destruct v; try discriminate. intros [= ->]. reflexivity. Qed.

Lemma asNullableNumber_inv v o : asNullableNumber v = Some o -> v = ofNullableNumber o.
Proof. destruct v; try discriminate; intros [= <-]; reflexivity. Qed.

(** A point is well typed only if its array starts with the six entries
    that encode it. *)
Lemma conformsPoint_inv point p :
  conformsPoint (parseTrackPoint point) = Some p ->
  firstn 6 point = encodeTrackPoint p.
Proof.
  unfold conformsPoint, parseTrackPoint, Js.index.
  cbn [rp_time rp_latitude rp_longitude rp_baro_altitude rp_true_track rp_on_ground].
  destruct (asNumber (nth 0 point Js.Undefined)) as [t|] eqn:E0; [|discriminate].
  destruct (asNullableNumber (nth 1 point Js.Undefined)) as [lat|] eqn:E1;
    [|discriminate].
  destruct (asNullableNumber (nth 2 point Js.Undefined)) as [lon|] eqn:E2;
    [|discriminate].
  destruct (asNullableNumber (nth 3 point Js.Undefined)) as [alt|] eqn:E3;
    [|discriminate].
  destruct (asNullableNumber (nth 4 point Js.Undefined)) as [trk|] eqn:E4;
    [|discriminate].
  destruct (asBoolean (nth 5 point Js.Undefined)) as [og|] eqn:E5; [|discriminate].
  intros [= <-]. unfold encodeTrackPoint.
  cbn [p_time p_latitude p_longitude p_baro_altitude p_true_track p_on_ground].
  apply asNumber_inv in E0. apply asNullableNumber_inv in E1, E2, E3, E4.
  apply asBoolean_inv in E5.
  destruct point as [|v0 [|v1 [|v2 [|v3 [|v4 [|v5 rest]]]]]]; cbn in *;
    try discriminate E5; try (destruct trk; discriminate E4);
    try (destruct alt; discriminate E3); try (destruct lon; discriminate E2);
    try (destruct lat; discriminate E1); try discriminate E0.
  subst. destruct rest; reflexivity.
Qed.

Lemma conformsPath_inv points ps :
  conformsPath (map parseTrackPoint points) = Some ps ->
  Forall2 (fun point p => firstn 6 point = encodeTrackPoint p) points ps.
Proof.
  revert ps. induction points as [|point rest IH]; intros ps; cbn [map conformsPath].
  - intros [= <-]. constructor.
  - destruct (conformsPoint (parseTrackPoint point)) as [p|] eqn:E; [|discriminate].
    destruct (conformsPath (map parseTrackPoint rest)) as [qs|]; [|discriminate].
    intros [= <-]. constructor; [apply conformsPoint_inv; exact E|].
    apply IH. reflexivity.
Qed.

(** X16.  The track a request resolves to is well typed exactly when the
    response is.  On the response that encodes a track the request resolves
    to that track.  Conversely, whenever the result is a [FlightTrack], the
    response's [icao24], [callsign], [startTime] and [endTime] are the
    encodings of the track's, its path has as many arrays as the track has
    points, and the first six entries of each array encode the point at
    the same place: nothing is checked or repaired on the way. *)
Theorem getFlightTrack_round_trip :
  (forall t,
      exists raw,
        getFlightTrack_resume (TrackOk (encodeTrack t)) = Js.Returns (Some raw)
        /\ conformsTrack raw = Some t)
  /\ (forall body raw t,
         getFlightTrack_resume (TrackOk body) = Js.Returns (Some raw) ->
         conformsTrack raw = Some t ->
         tr_icao24 body = Js.Str (t_icao24 t)
         /\ tr_callsign body = Js.Str (t_callsign t)
         /\ tr_startTime body = Js.Num (startTime t)
         /\ tr_endTime body = Js.Num (endTime t)
         /\ Forall2 (fun point p => firstn 6 point = encodeTrackPoint p)
                    (tr_path body) (path t)).
Proof.
  split.
  - intros t. eexists. split; [reflexivity|].
    unfold conformsTrack, encodeTrack. cbn -[conformsPath].
    rewrite conformsPath_parse_encode. destruct t; reflexivity.
  - intros body raw t [= <-]. unfold conformsTrack.
    cbn [rt_icao24 rt_callsign rt_startTime rt_endTime rt_path].
    destruct (asString (tr_icao24 body)) as [i|] eqn:E0; [|discriminate].
    destruct (asString (tr_callsign body)) as [cs|] eqn:E1; [|discriminate].
    destruct (asNumber (tr_startTime body)) as [st|] eqn:E2; [|discriminate].
    destruct (asNumber (tr_endTime body)) as [en|] eqn:E3; [|discriminate].
    destruct (conformsPath (map parseTrackPoint (tr_path body))) as [ps|] eqn:E4;
      [|discriminate].
    intros [= <-]. cbn [t_icao24 t_callsign startTime endTime path].
    split; [apply asString_inv; exact E0|].
    split; [apply asString_inv; exact E1|].
    split; [apply asNumber_inv; exact E2|].
    split; [apply asNumber_inv; exact E3|].
    apply conformsPath_inv. exact E4.
Qed.

Lemma getFlightTrack_round_trip_witness :
  tr_icao24 (encodeTrack sampleTrack) = Js.Str "a1b2c3"
  /\ Forall2 (fun point p => firstn 6 point = encodeTrackPoint p)
             (tr_path (encodeTrack sampleTrack)) (path sampleTrack).
Proof.
  destruct (proj1 getFlightTrack_round_trip sampleTrack) as (raw & R & C).
  destruct (proj2 getFlightTrack_round_trip (encodeTrack sampleTrack) raw
              sampleTrack R C) as (I & _ & _ & _ & P).
  split; [exact I | exact P].
Defined.

(* ===================================================================== *)
(** * Further properties of the statistics *)
(* ===================================================================== *)

Lemma increment_comm k1 k2 (stats : gmap string nat) :
  increment k1 (increment k2 stats) = increment k2 (increment k1 stats).
Proof.
  destruct (decide (k1 = k2)) as [->|Ne]; [reflexivity|].
  unfold increment at 2 4.
  destruct (stats !! k2) as [n2|] eqn:E2, (stats !! k1) as [n1|] eqn:E1;
    unfold increment;
    rewrite ?lookup_insert_ne by congruence; rewrite ?E1, ?E2;
    try reflexivity.
  apply insert_insert_ne. exact Ne.
Qed.

Lemma countAnomaly_comm acc x y :
  countAnomaly (countAnomaly acc x) y = countAnomaly (countAnomaly acc y) x.
Proof.
  destruct acc as [stats byType]. cbn [countAnomaly]. f_equal.
  - apply increment_comm.
  - destruct (decide (typeKey (a_type x) = typeKey (a_type y))) as [E|Ne].
    + rewrite E. reflexivity.
    + rewrite !lookup_insert_ne by congruence.
      apply insert_insert_ne. congruence.
Qed.

Lemma countAnomaly_fold_perm xs ys :
  Permutation xs ys ->
  forall acc, fold_left countAnomaly xs acc = fold_left countAnomaly ys acc.
Proof.
  induction 1 as [|x xs ys _ IH|x y xs|xs ys zs _ IH1 _ IH2]; intros acc.
  - reflexivity.
  - cbn [fold_left]. apply IH.
  - cbn [fold_left]. rewrite countAnomaly_comm. reflexivity.
  - rewrite IH1. apply IH2.
Qed.

Lemma getAnomalyStats_perm xs ys :
  Permutation xs ys -> getAnomalyStats xs = getAnomalyStats ys.
Proof.
  intros P. unfold getAnomalyStats.
  rewrite (Permutation_length P), (countAnomaly_fold_perm xs ys P). reflexivity.
Qed.

Lemma countType_positive t xs :
  countType t xs <> 0%nat -> exists x, In x xs /\ a_type x = t.
Proof.
  unfold countType. intros H.
  destruct (List.filter (hasType t) xs) as [|x rest] eqn:E; [contradiction|].
  assert (Hin : In x (List.filter (hasType t) xs)) by (rewrite E; left; reflexivity).
  apply filter_In in Hin as [Hin Ht]. exists x. split; [exact Hin|].
  unfold hasType in Ht. apply bool_decide_eq_true in Ht. exact Ht.
Qed.

Lemma typeKey_decide k : (exists t, k = typeKey t) \/ (forall t, k <> typeKey t).
Proof.
  destruct (decide (k = typeKey altitude_drop)); [left; eauto|].
  destruct (decide (k = typeKey holding_pattern)); [left; eauto|].
  destruct (decide (k = typeKey emergency_squawk)); [left; eauto|].
  destruct (decide (k = typeKey route_deviation)); [left; eauto|].
  destruct (decide (k = typeKey rapid_descent)); [left; eauto|].
  destruct (decide (k = typeKey unusual_speed)); [left; eauto|].
  destruct (decide (k = typeKey go_around)); [left; eauto|].
  destruct (decide (k = typeKey diversion)); [left; eauto|].
  right. intros t. destruct t; assumption.
Qed.

Lemma severityKey_decide k :
  (exists s, k = severityKey s) \/ (forall s, k <> severityKey s).
Proof.
  destruct (decide (k = severityKey low)); [left; eauto|].
  destruct (decide (k = severityKey medium)); [left; eauto|].
  destruct (decide (k = severityKey high)); [left; eauto|].
  destruct (decide (k = severityKey critical)); [left; eauto|].
  right. intros s. destruct s; assumption.
Qed.

(** X18.  The statistics do not depend on the order of the anomalies, so
    those of a sorted batch are those of the anomalies as accumulated; and
    the record has no key but [total], the four severities and the types
    of the anomalies it was given. *)
Theorem getAnomalyStats_order_blind :
  (forall xs ys, Permutation xs ys -> getAnomalyStats xs = getAnomalyStats ys)
  /\ (forall host aircraft w,
         getAnomalyStats (fst (detectAnomaliesBatch host aircraft w))
         = getAnomalyStats (emitted host aircraft w))
  /\ (forall xs k,
         is_Some (getAnomalyStats xs !! k) ->
         k = "total"
         \/ (exists s, k = severityKey s)
         \/ (exists x, In x xs /\ k = typeKey (a_type x))).
Proof.
  split; [exact getAnomalyStats_perm|]. split.
  - intros host aircraft w. apply getAnomalyStats_perm.
    unfold detectAnomaliesBatch, bind, ret.
    pose proof (detectEach_emitted host aircraft [] w) as D.
    destruct (detectEach host aircraft [] w) as [allAnomalies w'].
    cbn [fst] in *. rewrite D. apply arraySort_perm.
  - intros xs k. unfold getAnomalyStats.
    set (stats0 := (<["total" := length xs]>
                      (<["critical" := 0%nat]>
                         (<["high" := 0%nat]>
                            (<["medium" := 0%nat]> (<["low" := 0%nat]> ∅)))))
                   : gmap string nat).
    destruct (countAnomaly_fold xs stats0 ∅) as (_ & S2 & T1 & _ & T3 & T4).
    destruct (fold_left countAnomaly xs (stats0, ∅)) as [stats' byType].
    cbn [fst snd] in *. intros [n Hn].
    destruct (decide (k = "total")) as [|Nt]; [left; assumption|]. right.
    destruct (severityKey_decide k) as [|Ns]; [left; assumption|]. right.
    destruct (typeKey_decide k) as [[t ->]|Nk].
    + assert (Hc : countType t xs <> 0%nat).
      { specialize (T1 t). rewrite lookup_empty in T1. simpl in T1.
        destruct (byType !! typeKey t) as [m|] eqn:E.
        - simpl in T1. subst m. intros Z. rewrite Z in E.
          assert (Pos0 : forall k, (∅ : gmap string nat) !! k <> Some 0%nat)
            by (intros k; rewrite lookup_empty; discriminate).
          apply (T4 Pos0 (typeKey t)). exact E.
        - rewrite lookup_union_r in Hn by exact E.
          rewrite S2 in Hn by exact Ns. unfold stats0 in Hn.
          destruct t; discriminate Hn. }
      destruct (countType_positive t xs Hc) as (x & Hin & <-).
      exists x. split; [exact Hin | reflexivity].
    + exfalso. rewrite lookup_union_r in Hn
        by (rewrite T3 by exact Nk; apply lookup_empty).
      rewrite S2 in Hn by exact Ns. unfold stats0 in Hn.
      rewrite lookup_insert_ne in Hn by congruence.
      rewrite lookup_insert_ne in Hn by (apply not_eq_sym, (Ns critical)).
      rewrite lookup_insert_ne in Hn by (apply not_eq_sym, (Ns high)).
      rewrite lookup_insert_ne in Hn by (apply not_eq_sym, (Ns medium)).
      rewrite lookup_insert_ne in Hn by (apply not_eq_sym, (Ns low)).
      rewrite lookup_empty in Hn. discriminate Hn.
Qed.

Lemma getAnomalyStats_order_blind_witness :
  getAnomalyStats (rev (emitted sampleHost sampleBatch emptyWorld))
  = getAnomalyStats (emitted sampleHost sampleBatch emptyWorld).
Proof.
  apply (proj1 getAnomalyStats_order_blind).
  apply Permutation_sym, Permutation_rev.
Defined.
